(** * Library management service: loan, inventory, membership and reports

    A shallow embedding of the request handlers of
    [server/api_book_management.py], [server/api_user_management.py],
    [server/api_loan_management.py] and [server/api_reports_admin.py].

    The three module-level dictionaries [book_db], [user_db] and [loan_db]
    are Python dicts, which iterate in insertion order; they are modelled as
    association lists that keep that order.  A handler is a function from the
    stores to an outcome and the stores it leaves behind: Python mutates the
    dictionaries in place, so what a handler wrote before it raised stays
    written. *)

From Stdlib Require Import ZArith List String Ascii Bool Lia.
From Stdlib Require Import Permutation Sorted DecimalString.
Import ListNotations.
Open Scope string_scope.
Open Scope list_scope.
Open Scope Z_scope.

(** ** Insertion-ordered dictionaries with integer keys *)

Module OrderedDict.

Definition t (V : Type) : Type := list (Z * V).

(** [d.get(k)] *)
Fixpoint get {V} (k : Z) (d : t V) : option V :=
  match d with
  | [] => None
  | (k', v) :: d' => if k' =? k then Some v else get k d'
  end.

(** [k in d] *)
Definition mem {V} (k : Z) (d : t V) : bool :=
  match get k d with Some _ => true | None => false end.

(** [d[k] = v]: an existing key keeps its position, a new key goes last. *)
Fixpoint set {V} (k : Z) (v : V) (d : t V) : t V :=
  match d with
  | [] => [(k, v)]
  | (k', v') :: d' => if k' =? k then (k, v) :: d' else (k', v') :: set k v d'
  end.

(** [del d[k]] *)
Fixpoint del {V} (k : Z) (d : t V) : t V :=
  match d with
  | [] => []
  | (k', v') :: d' => if k' =? k then d' else (k', v') :: del k d'
  end.

Definition keys {V} (d : t V) : list Z := map fst d.
Definition values {V} (d : t V) : list V := map snd d.
Definition items {V} (d : t V) : list (Z * V) := d.

(** [max(d.keys()) + 1 if d else 1] *)
Definition next_id {V} (d : t V) : Z :=
  match keys d with
  | [] => 1
  | k :: ks => fold_left Z.max ks k + 1
  end.

End OrderedDict.

Module OD := OrderedDict.

(** ** Outcomes of a handler *)

Inductive py_exception : Type :=
| KeyError
| ValueError
| OverflowError.

Inductive outcome (A : Type) : Type :=
| Ok (a : A)
| HTTPException (status_code : Z) (detail : string)
| Raised (e : py_exception).

Arguments Ok {A} a.
Arguments HTTPException {A} status_code detail.
Arguments Raised {A} e.

(** Handlers that only compute, and handlers that also write the stores,
    share one sequencing notation. *)
Class Monad (M : Type -> Type) : Type := {
  ret : forall {A}, A -> M A;
  bind : forall {A B}, M A -> (A -> M B) -> M B
}.

Notation "x <- c1 ;; c2" := (bind c1 (fun x => c2))
  (at level 61, c1 at next level, right associativity).
Notation "c1 ;;; c2" := (bind c1 (fun _ => c2))
  (at level 61, right associativity).

#[export] Instance outcome_monad : Monad outcome := {
  ret := fun A a => Ok a;
  bind := fun A B o f =>
    match o with
    | Ok a => f a
    | HTTPException c d => HTTPException c d
    | Raised e => Raised e
    end
}.

(** A [for] loop over a list, threading the variables the body assigns. *)
Fixpoint for_each {M} `{Monad M} {A S} (xs : list A) (body : A -> S -> M S)
  (s : S) : M S :=
  match xs with
  | [] => ret s
  | x :: xs' => s' <- body x s ;; for_each xs' body s'
  end.

(** [d[k]] *)
Definition getitem {V} (d : OD.t V) (k : Z) : outcome V :=
  match OD.get k d with
  | Some v => Ok v
  | None => Raised KeyError
  end.

(** [max(xs, key=key)]: the first element whose key is largest;
    [ValueError] on an empty sequence. *)
Definition py_max_by (key : Z -> outcome Z) (xs : list Z) : outcome Z :=
  match xs with
  | [] => Raised ValueError
  | x :: xs' =>
      kx <- key x ;;
      best <- for_each xs'
                (fun y (best : Z * Z) =>
                   ky <- key y ;;
                   ret (if snd best <? ky then (y, ky) else best))
                (x, kx) ;;
      ret (fst best)
  end.

(** [sorted(l, key=key, reverse=True)]: descending, and stable. *)
Fixpoint insert_desc {A} (key : A -> Z) (x : A) (l : list A) : list A :=
  match l with
  | [] => [x]
  | y :: l' => if key x <? key y then y :: insert_desc key x l' else x :: l
  end.

Definition sorted_reverse {A} (key : A -> Z) (l : list A) : list A :=
  fold_right (insert_desc key) [] l.

(** The error kinds of the interface and the responses that carry them. *)
Definition NotFound {A} (what : string) : outcome A :=
  HTTPException 404 (String.append what " not found").
Definition Unavailable {A} : outcome A :=
  HTTPException 400 "Book not available".
Definition Conflict {A} : outcome A :=
  HTTPException 400 "Book already returned".
Definition ValidationFailed {A} : outcome A :=
  HTTPException 400 "Admin users must have username and password".

(** ** Calendar dates, as Python's [datetime] computes with them *)

Module Datetime.

Record date : Type := mkdate { year : Z; month : Z; day : Z }.

Definition MINYEAR : Z := 1.
Definition MAXYEAR : Z := 9999.
Definition MAXORDINAL : Z := 3652059.

Definition DAYS_IN_MONTH : list Z :=
  [-1; 31; 28; 31; 30; 31; 30; 31; 31; 30; 31; 30; 31].
Definition DAYS_BEFORE_MONTH : list Z :=
  [-1; 0; 31; 59; 90; 120; 151; 181; 212; 243; 273; 304; 334].

Definition is_leap (y : Z) : bool :=
  (y mod 4 =? 0) && (negb (y mod 100 =? 0) || (y mod 400 =? 0)).

Definition days_before_year (y : Z) : Z :=
  let y := y - 1 in y * 365 + y / 4 - y / 100 + y / 400.

Definition days_in_month (y m : Z) : Z :=
  if (m =? 2) && is_leap y then 29 else nth (Z.to_nat m) DAYS_IN_MONTH 0.

Definition days_before_month (y m : Z) : Z :=
  nth (Z.to_nat m) DAYS_BEFORE_MONTH 0
  + (if (2 <? m) && is_leap y then 1 else 0).

(** [date.toordinal()]: 0001-01-01 is day 1. *)
Definition ymd2ord (d : date) : Z :=
  days_before_year (year d) + days_before_month (year d) (month d) + day d.

Definition DI400Y : Z := 146097.
Definition DI100Y : Z := 36524.
Definition DI4Y : Z := 1461.

(** [date.fromordinal(n)] *)
Definition ord2ymd (n : Z) : date :=
  let n := n - 1 in
  let n400 := n / DI400Y in
  let n := n mod DI400Y in
  let y := n400 * 400 + 1 in
  let n100 := n / DI100Y in
  let n := n mod DI100Y in
  let n4 := n / DI4Y in
  let n := n mod DI4Y in
  let n1 := n / 365 in
  let n := n mod 365 in
  let y := y + n100 * 100 + n4 * 4 + n1 in
  if (n1 =? 4) || (n100 =? 4) then mkdate (y - 1) 12 31
  else
    let leapyear := (n1 =? 3) && (negb (n4 =? 24) || (n100 =? 3)) in
    let m := Z.shiftr (n + 50) 5 in
    let preceding :=
      nth (Z.to_nat m) DAYS_BEFORE_MONTH 0
      + (if (2 <? m) && leapyear then 1 else 0) in
    if n <? preceding then
      let m := m - 1 in
      let preceding :=
        preceding - (nth (Z.to_nat m) DAYS_IN_MONTH 0
                     + (if (m =? 2) && leapyear then 1 else 0)) in
      mkdate y m (n - preceding + 1)
    else mkdate y m (n - preceding + 1).

(** The dates a [date] object can hold. *)
Definition valid_dateb (d : date) : bool :=
  (MINYEAR <=? year d) && (year d <=? MAXYEAR)
  && (1 <=? month d) && (month d <=? 12)
  && (1 <=? day d) && (day d <=? days_in_month (year d) (month d)).

(** [d1 < d2] on dates: the (year, month, day) triples, lexicographically. *)
Definition date_ltb (d1 d2 : date) : bool :=
  (year d1 <? year d2)
  || ((year d1 =? year d2)
      && ((month d1 <? month d2)
          || ((month d1 =? month d2) && (day d1 <? day d2)))).

(** [(d1 - d2).days] *)
Definition days_between (d1 d2 : date) : Z := ymd2ord d1 - ymd2ord d2.

(** [d + timedelta(days=k)] *)
Definition add_days (d : date) (k : Z) : outcome date :=
  let o := ymd2ord d + k in
  if (0 <? o) && (o <=? MAXORDINAL) then Ok (ord2ymd o)
  else Raised OverflowError.

(** Decimal digits. *)
Definition digit_char (n : Z) : ascii :=
  ascii_of_nat (48 + Z.to_nat (n mod 10)).

Definition is_digit (c : ascii) : bool :=
  let n := Z.of_nat (nat_of_ascii c) in (48 <=? n) && (n <=? 57).

Definition digit_val (c : ascii) : Z := Z.of_nat (nat_of_ascii c) - 48.

Definition zfill2 (n : Z) : string :=
  String (digit_char (n / 10)) (String (digit_char n) "").

Definition zfill4 (n : Z) : string :=
  String (digit_char (n / 1000))
    (String (digit_char (n / 100))
       (String (digit_char (n / 10)) (String (digit_char n) ""))).

(** [d.strftime("%Y-%m-%d")]: the year in four digits, month and day in
    two.  (Below the year 1000 the C library of some platforms writes the
    year in fewer digits; the properties below that read a date back ask
    for a year from 1000.) *)
Definition strftime (d : date) : string :=
  (zfill4 (year d) ++ "-" ++ zfill2 (month d) ++ "-" ++ zfill2 (day d))%string.

(** Splitting at a separator character, as the directives of the format
    are separated by literal dashes that no directive can match. *)
Fixpoint split_on (sep : ascii) (s : string) : list string :=
  match s with
  | EmptyString => [""]
  | String c s' =>
      match split_on sep s' with
      | [] => [String c ""]
      | p :: ps =>
          if Ascii.eqb c sep then "" :: p :: ps else String c p :: ps
      end
  end.

(** [%Y]: exactly four digits. *)
Definition parse_Y (s : string) : option Z :=
  match s with
  | String a (String b (String c (String d EmptyString))) =>
      if is_digit a && is_digit b && is_digit c && is_digit d
      then Some (1000 * digit_val a + 100 * digit_val b
                 + 10 * digit_val c + digit_val d)
      else None
  | _ => None
  end.

(** [%m]: [1[0-2]|0[1-9]|[1-9]]. *)
Definition parse_m (s : string) : option Z :=
  match s with
  | String a (String b EmptyString) =>
      if is_digit a && is_digit b then
        let n := 10 * digit_val a + digit_val b in
        if (1 <=? n) && (n <=? 12) then Some n else None
      else None
  | String a EmptyString =>
      if is_digit a && (1 <=? digit_val a) then Some (digit_val a) else None
  | _ => None
  end.

(** [%d]: [3[01]|[12]\d|0[1-9]|[1-9]| [1-9]]. *)
Definition parse_d (s : string) : option Z :=
  match s with
  | String a (String b EmptyString) =>
      if is_digit a && is_digit b then
        let n := 10 * digit_val a + digit_val b in
        if (1 <=? n) && (n <=? 31) then Some n else None
      else if Ascii.eqb a " " && is_digit b && (1 <=? digit_val b)
      then Some (digit_val b)
      else None
  | String a EmptyString =>
      if is_digit a && (1 <=? digit_val a) then Some (digit_val a) else None
  | _ => None
  end.

(** [datetime.strptime(s, "%Y-%m-%d").date()]: a string that does not match
    the format, or names no date, raises [ValueError]. *)
Definition strptime (s : string) : outcome date :=
  match split_on "-" s with
  | [sy; sm; sd] =>
      match parse_Y sy, parse_m sm, parse_d sd with
      | Some y, Some m, Some d =>
          if valid_dateb (mkdate y m d) then Ok (mkdate y m d)
          else Raised ValueError
      | _, _, _ => Raised ValueError
      end
  | _ => Raised ValueError
  end.

End Datetime.

Import Datetime.

(** ** Records *)

(** [BookModel], and the dictionary [model_dump()] makes of it. *)
Module Book.
Record t : Type := mk {
  title : string;
  author : string;
  isbn : string;
  published_year : Z;
  copies_available : Z
}.

(** [book["copies_available"] = n] *)
Definition set_copies_available (b : t) (n : Z) : t :=
  mk (title b) (author b) (isbn b) (published_year b) n.
End Book.

(** [UserModel]: the request body of the user endpoints. *)
Module UserModel.
Record t : Type := mk {
  name : string;
  email : string;
  role : string;
  username : option string;
  password : option string
}.
End UserModel.

(** A stored user: a dictionary in which the keys [username] and [password]
    may be absent ([None]) or present with a value that may itself be
    Python's [None] ([Some None]). *)
Module User.
Record t : Type := mk {
  name : string;
  email : string;
  role : string;
  username : option (option string);
  password : option (option string)
}.

(** [user.model_dump()] *)
Definition model_dump (u : UserModel.t) : t :=
  mk (UserModel.name u) (UserModel.email u) (UserModel.role u)
     (Some (UserModel.username u)) (Some (UserModel.password u)).

(** [user_data.pop("username", None)] *)
Definition pop_username (u : t) : t :=
  mk (name u) (email u) (role u) None (password u).

(** [user_data.pop("password", None)] *)
Definition pop_password (u : t) : t :=
  mk (name u) (email u) (role u) (username u) None.
End User.

Module Loan.
Record t : Type := mk {
  book_id : Z;
  user_id : Z;
  loan_date : string;
  due_date : string;
  return_date : option string;
  status : string
}.

(** [loan["return_date"] = d] *)
Definition set_return_date (l : t) (d : option string) : t :=
  mk (book_id l) (user_id l) (loan_date l) (due_date l) d (status l).

(** [loan["status"] = s] *)
Definition set_status (l : t) (s : string) : t :=
  mk (book_id l) (user_id l) (loan_date l) (due_date l) (return_date l) s.
End Loan.

Module BorrowModel.
Record t : Type := mk { book_id : Z; user_id : Z }.
End BorrowModel.

Module ReturnModel.
Record t : Type := mk { loan_id : Z }.
End ReturnModel.

(** ** The stores *)

Record State : Type := mkState {
  book_db : OD.t Book.t;
  user_db : OD.t User.t;
  loan_db : OD.t Loan.t
}.

Definition book_db_seed : OD.t Book.t :=
  [ (1, Book.mk "1984" "George Orwell" "9780451524935" 1949 4);
    (2, Book.mk "To Kill a Mockingbird" "Harper Lee" "9780060935467" 1960 2);
    (3, Book.mk "The Great Gatsby" "F. Scott Fitzgerald" "9780743273565"
          1925 5);
    (4, Book.mk "Pride and Prejudice" "Jane Austen" "9780141439518" 1813 3);
    (5, Book.mk "The Catcher in the Rye" "J.D. Salinger" "9780316769488"
          1951 6) ].

Definition user_db_seed : OD.t User.t :=
  [ (1, User.mk "John Doe" "john@example.com" "admin"
          (Some (Some "johndoe")) (Some (Some "admin123")));
    (2, User.mk "Jane Smith" "jane@example.com" "member" None None);
    (3, User.mk "Bob Wilson" "bob@example.com" "member" None None);
    (4, User.mk "Alice Brown" "alice@example.com" "member" None None) ].

Definition loan_db_seed : OD.t Loan.t :=
  [ (1, Loan.mk 1 1 "2025-11-01" "2025-11-15" (Some "2025-11-14") "returned");
    (2, Loan.mk 2 2 "2025-11-10" "2025-11-24" None "active");
    (3, Loan.mk 3 1 "2025-11-15" "2025-11-29" None "active") ].

Definition initial_state : State :=
  mkState book_db_seed user_db_seed loan_db_seed.

(** ** Handlers *)

Definition handler (A : Type) : Type := State -> outcome A * State.

#[export] Instance handler_monad : Monad handler := {
  ret := fun A a st => (Ok a, st);
  bind := fun A B m f st =>
    match m st with
    | (Ok a, st') => f a st'
    | (HTTPException c d, st') => (HTTPException c d, st')
    | (Raised e, st') => (Raised e, st')
    end
}.

(** A computation that does not touch the stores; [raise] is its use for an
    outcome that is an error. *)
Definition lift {A} (o : outcome A) : handler A := fun st => (o, st).

(** Reading a module-level dictionary. *)
Definition read {A} (f : State -> A) : handler A := fun st => (Ok (f st), st).

Definition write_book_db (d : OD.t Book.t) : handler unit :=
  fun st => (Ok tt, mkState d (user_db st) (loan_db st)).
Definition write_user_db (d : OD.t User.t) : handler unit :=
  fun st => (Ok tt, mkState (book_db st) d (loan_db st)).
Definition write_loan_db (d : OD.t Loan.t) : handler unit :=
  fun st => (Ok tt, mkState (book_db st) (user_db st) d).

(** [book_db[k] = v], [del book_db[k]] and the like. *)
Definition book_db_setitem (k : Z) (v : Book.t) : handler unit :=
  d <- read book_db ;; write_book_db (OD.set k v d).
Definition book_db_delitem (k : Z) : handler unit :=
  d <- read book_db ;; write_book_db (OD.del k d).
Definition book_db_getitem (k : Z) : handler Book.t :=
  d <- read book_db ;; lift (getitem d k).
Definition user_db_setitem (k : Z) (v : User.t) : handler unit :=
  d <- read user_db ;; write_user_db (OD.set k v d).
Definition user_db_delitem (k : Z) : handler unit :=
  d <- read user_db ;; write_user_db (OD.del k d).
Definition user_db_getitem (k : Z) : handler User.t :=
  d <- read user_db ;; lift (getitem d k).
Definition loan_db_setitem (k : Z) (v : Loan.t) : handler unit :=
  d <- read loan_db ;; write_loan_db (OD.set k v d).
Definition loan_db_getitem (k : Z) : handler Loan.t :=
  d <- read loan_db ;; lift (getitem d k).

(** *** Book management *)

Definition add_book (book : Book.t) : handler Book.t :=
  d <- read book_db ;;
  let new_id := OD.next_id d in
  book_db_setitem new_id book ;;;
  book_db_getitem new_id.

Definition get_all_books : handler (OD.t Book.t * Z) :=
  d <- read book_db ;;
  ret (d, Z.of_nat (List.length d)).

Definition get_book (book_id : Z) : handler Book.t :=
  d <- read book_db ;;
  if negb (OD.mem book_id d) then lift (NotFound "Book")
  else book_db_getitem book_id.

Definition update_book (book : Book.t) (book_id : Z) : handler Book.t :=
  d <- read book_db ;;
  if negb (OD.mem book_id d) then lift (NotFound "Book")
  else
    book_db_setitem book_id book ;;;
    book_db_getitem book_id.

Record Deleted : Type := mkDeleted { deleted_message : string; deleted_id : Z }.

Definition delete_book (book_id : Z) : handler Deleted :=
  d <- read book_db ;;
  if negb (OD.mem book_id d) then lift (NotFound "Book")
  else
    book_db_delitem book_id ;;;
    ret (mkDeleted "Book deleted successfully" book_id).

(** *** User management *)

(** [not s] for an optional string: [None] and the empty string. *)
Definition falsy (s : option string) : bool :=
  match s with
  | None => true
  | Some s => String.eqb s ""
  end.

(** [POST /users/]: an admin needs both credentials, a member keeps none. *)
Definition create_user (user : UserModel.t) : handler User.t :=
  if String.eqb (UserModel.role user) "admin"
     && (falsy (UserModel.username user) || falsy (UserModel.password user))
  then lift ValidationFailed
  else
    d <- read user_db ;;
    let new_id := OD.next_id d in
    let user_data := User.model_dump user in
    let user_data :=
      if String.eqb (UserModel.role user) "member"
      then User.pop_password (User.pop_username user_data)
      else user_data in
    user_db_setitem new_id user_data ;;;
    user_db_getitem new_id.

Definition get_all_users : handler (OD.t User.t * Z) :=
  d <- read user_db ;;
  ret (d, Z.of_nat (List.length d)).

(** [PUT /users/{user_id}] *)
Definition update_user (user : UserModel.t) (user_id : Z) : handler User.t :=
  d <- read user_db ;;
  if negb (OD.mem user_id d) then lift (NotFound "User")
  else if String.eqb (UserModel.role user) "admin"
          && (falsy (UserModel.username user)
              || falsy (UserModel.password user))
  then lift ValidationFailed
  else
    let user_data := User.model_dump user in
    let user_data :=
      if String.eqb (UserModel.role user) "member"
      then User.pop_password (User.pop_username user_data)
      else user_data in
    user_db_setitem user_id user_data ;;;
    user_db_getitem user_id.

Definition delete_user (user_id : Z) : handler Deleted :=
  d <- read user_db ;;
  if negb (OD.mem user_id d) then lift (NotFound "User")
  else
    user_db_delitem user_id ;;;
    ret (mkDeleted "User deleted successfully" user_id).

(** *** Borrow and return *)

Record BorrowResponse : Type := mkBorrowResponse {
  borrowed_loan_id : Z;
  borrowed_message : string;
  borrowed_loan : Loan.t
}.

Record ReturnResponse : Type := mkReturnResponse {
  returned_message : string;
  returned_loan : Loan.t
}.

(** [POST /loans/borrow].  The handler reads the clock twice: [now1] is the
    reading the loan date is formatted from, [now2] the one the due date is
    computed from. *)
Definition borrow_book (borrow : BorrowModel.t) (now1 now2 : date)
  : handler BorrowResponse :=
  books <- read book_db ;;
  if negb (OD.mem (BorrowModel.book_id borrow) books)
  then lift (NotFound "Book")
  else
    book <- book_db_getitem (BorrowModel.book_id borrow) ;;
    if Book.copies_available book <=? 0 then lift Unavailable
    else
      let loan_date := strftime now1 in
      due <- lift (add_days now2 14) ;;
      let due_date := strftime due in
      loans <- read loan_db ;;
      let new_id := OD.next_id loans in
      loan_db_setitem new_id
        (Loan.mk (BorrowModel.book_id borrow) (BorrowModel.user_id borrow)
                 loan_date due_date None "active") ;;;
      book <- book_db_getitem (BorrowModel.book_id borrow) ;;
      book_db_setitem (BorrowModel.book_id borrow)
        (Book.set_copies_available book (Book.copies_available book - 1)) ;;;
      loan <- loan_db_getitem new_id ;;
      ret (mkBorrowResponse new_id "Book borrowed successfully" loan).

(** An assignment through the alias [loan = loan_db[k]]: the dictionary
    stored under [k] is changed in place. *)
Definition loan_assign (k : Z) (f : Loan.t -> Loan.t) : handler unit :=
  loan <- loan_db_getitem k ;;
  loan_db_setitem k (f loan).

(** [POST /loans/return] *)
Definition return_book (return_data : ReturnModel.t) (now : date)
  : handler ReturnResponse :=
  let k := ReturnModel.loan_id return_data in
  loans <- read loan_db ;;
  if negb (OD.mem k loans) then lift (NotFound "Loan")
  else
    loan <- loan_db_getitem k ;;
    if String.eqb (Loan.status loan) "returned" then lift Conflict
    else
      loan_assign k (fun l => Loan.set_return_date l (Some (strftime now))) ;;;
      loan_assign k (fun l => Loan.set_status l "returned") ;;;
      loan <- loan_db_getitem k ;;
      book <- book_db_getitem (Loan.book_id loan) ;;
      book_db_setitem (Loan.book_id loan)
        (Book.set_copies_available book (Book.copies_available book + 1)) ;;;
      loan <- loan_db_getitem k ;;
      ret (mkReturnResponse "Book returned successfully" loan).

(** Truth value of an optional integer filter: [None] and [0] are false. *)
Definition truthy (o : option Z) : bool :=
  match o with
  | None => false
  | Some n => negb (n =? 0)
  end.

Definition differs (o : option Z) (n : Z) : bool :=
  match o with
  | None => true
  | Some m => negb (n =? m)
  end.

(** [book_db.get(k, {}).get("title", "Unknown")] *)
Definition title_or_unknown (books : OD.t Book.t) (k : Z) : string :=
  match OD.get k books with
  | Some b => Book.title b
  | None => "Unknown"
  end.

(** [book_db.get(k, {}).get("author", "Unknown")] *)
Definition author_or_unknown (books : OD.t Book.t) (k : Z) : string :=
  match OD.get k books with
  | Some b => Book.author b
  | None => "Unknown"
  end.

(** [user_db.get(k, {}).get("name", "Unknown")] *)
Definition name_or_unknown (users : OD.t User.t) (k : Z) : string :=
  match OD.get k users with
  | Some u => User.name u
  | None => "Unknown"
  end.

(** [GET /loans/track] *)
Definition track_borrowing (user_id book_id : option Z)
  : handler (list (Z * Loan.t) * Z) :=
  loans <- read loan_db ;;
  results <- for_each (OD.items loans)
    (fun (item : Z * Loan.t) (results : list (Z * Loan.t)) =>
       let (loan_id, loan) := item in
       if truthy user_id && differs user_id (Loan.user_id loan)
       then ret results
       else if truthy book_id && differs book_id (Loan.book_id loan)
       then ret results
       else ret (results ++ [(loan_id, loan)]))
    [] ;;
  ret (results, Z.of_nat (List.length results)).

(** [GET /loans/borrowed] *)
Definition list_borrowed_books : handler (list (Z * Loan.t * string) * Z) :=
  loans <- read loan_db ;;
  active_loans <- for_each (OD.items loans)
    (fun (item : Z * Loan.t) (active_loans : list (Z * Loan.t * string)) =>
       let (loan_id, loan) := item in
       if String.eqb (Loan.status loan) "active" then
         books <- read book_db ;;
         let book_title := title_or_unknown books (Loan.book_id loan) in
         ret (active_loans ++ [(loan_id, loan, book_title)])
       else ret active_loans)
    [] ;;
  ret (active_loans, Z.of_nat (List.length active_loans)).

Record Availability : Type := mkAvailability {
  avail_book_id : Z;
  avail_title : string;
  avail_copies_available : Z;
  is_available : bool
}.

(** [GET /loans/availability/{book_id}] *)
Definition check_availability (book_id : Z) : handler Availability :=
  books <- read book_db ;;
  if negb (OD.mem book_id books) then lift (NotFound "Book")
  else
    book <- book_db_getitem book_id ;;
    let is_available := 0 <? Book.copies_available book in
    ret (mkAvailability book_id (Book.title book)
           (Book.copies_available book) is_available).

(** *** Reports *)

Record OverdueEntry : Type := mkOverdueEntry {
  overdue_loan_id : Z;
  overdue_loan : Loan.t;
  overdue_book_title : string;
  overdue_user_name : string;
  days_overdue : Z
}.

Record OverdueResponse : Type := mkOverdueResponse {
  overdue_books : list OverdueEntry;
  overdue_total : Z
}.

(** The body of the loop of [get_overdue_books], for one item of
    [loan_db.items()]. *)
Definition overdue_visit (today : date) (item : Z * Loan.t)
  (overdue_loans : list OverdueEntry) : handler (list OverdueEntry) :=
  let (loan_id, loan) := item in
  if String.eqb (Loan.status loan) "active" then
    due_date <- lift (strptime (Loan.due_date loan)) ;;
    if date_ltb due_date today then
      let days_overdue := days_between today due_date in
      books <- read book_db ;;
      let book_title := title_or_unknown books (Loan.book_id loan) in
      users <- read user_db ;;
      let user_name := name_or_unknown users (Loan.user_id loan) in
      ret (overdue_loans
           ++ [mkOverdueEntry loan_id loan book_title user_name days_overdue])
    else ret overdue_loans
  else ret overdue_loans.

(** [GET /admin/overdue] *)
Definition get_overdue_books (now : date) : handler OverdueResponse :=
  let today := now in
  loans <- read loan_db ;;
  overdue_loans <- for_each (OD.items loans) (overdue_visit today) [] ;;
  ret (mkOverdueResponse overdue_loans (Z.of_nat (List.length overdue_loans))).

Record BookStat : Type := mkBookStat {
  stat_book_id : Z;
  stat_title : string;
  stat_times_borrowed : Z
}.

Inductive MostBorrowed : Type :=
| NoHistory (message : string)
| Stats (book_id : Z) (title author : string) (times_borrowed : Z)
        (all_books_stats : list BookStat).

(** [borrow_count.get(k, 0)] *)
Definition get_or_zero (borrow_count : OD.t Z) (k : Z) : Z :=
  match OD.get k borrow_count with
  | Some c => c
  | None => 0
  end.

(** The counting loop of [get_most_borrowed_book]. *)
Definition count_borrows (loans : list Loan.t) : outcome (OD.t Z) :=
  for_each loans
    (fun (loan : Loan.t) (borrow_count : OD.t Z) =>
       let book_id := Loan.book_id loan in
       ret (OD.set book_id (get_or_zero borrow_count book_id + 1)
              borrow_count))
    [].

(** [GET /admin/most-borrowed] *)
Definition get_most_borrowed_book : handler MostBorrowed :=
  loans <- read loan_db ;;
  borrow_count <- lift (count_borrows (OD.values loans)) ;;
  match borrow_count with
  | [] => ret (NoHistory "No borrowing history found")
  | _ :: _ =>
      most_borrowed_id <-
        lift (py_max_by (getitem borrow_count) (OD.keys borrow_count)) ;;
      books <- read book_db ;;
      times_borrowed <- lift (getitem borrow_count most_borrowed_id) ;;
      ret (Stats most_borrowed_id
             (title_or_unknown books most_borrowed_id)
             (author_or_unknown books most_borrowed_id)
             times_borrowed
             (map (fun item : Z * Z =>
                     mkBookStat (fst item) (title_or_unknown books (fst item))
                       (snd item))
                  (sorted_reverse snd (OD.items borrow_count))))
  end.

Record HistoryEntry : Type := mkHistoryEntry {
  history_loan_id : Z;
  history_loan : Loan.t;
  history_book_title : string;
  history_user_name : string
}.

(** A non-empty status filter that the loan's status does not equal. *)
Definition status_differs (status : option string) (s : string) : bool :=
  match status with
  | None => false
  | Some f => negb (String.eqb f "") && negb (String.eqb s f)
  end.

(** [GET /admin/history] *)
Definition get_borrowing_history (user_id book_id : option Z)
  (status : option string) : handler (list HistoryEntry * Z) :=
  loans <- read loan_db ;;
  history <- for_each (OD.items loans)
    (fun (item : Z * Loan.t) (history : list HistoryEntry) =>
       let (loan_id, loan) := item in
       if truthy user_id && differs user_id (Loan.user_id loan)
       then ret history
       else if truthy book_id && differs book_id (Loan.book_id loan)
       then ret history
       else if status_differs status (Loan.status loan)
       then ret history
       else
         books <- read book_db ;;
         let book_title := title_or_unknown books (Loan.book_id loan) in
         users <- read user_db ;;
         let user_name := name_or_unknown users (Loan.user_id loan) in
         ret (history ++ [mkHistoryEntry loan_id loan book_title user_name]))
    [] ;;
  ret (history, Z.of_nat (List.length history)).

Record Dashboard : Type := mkDashboard {
  total_books : Z;
  total_users : Z;
  total_loans : Z;
  active_loans : Z;
  overdue_loans : Z;
  returned_loans : Z
}.

(** [GET /admin/dashboard] *)
Definition get_dashboard_stats (now : date) : handler Dashboard :=
  books <- read book_db ;;
  users <- read user_db ;;
  loans <- read loan_db ;;
  let total_books := Z.of_nat (List.length books) in
  let total_users := Z.of_nat (List.length users) in
  let total_loans := Z.of_nat (List.length loans) in
  let active_loans :=
    Z.of_nat (List.length
                (filter (fun loan => String.eqb (Loan.status loan) "active")
                   (OD.values loans))) in
  let today := now in
  overdue_count <- for_each (OD.values loans)
    (fun (loan : Loan.t) (overdue_count : Z) =>
       if String.eqb (Loan.status loan) "active" then
         due_date <- lift (strptime (Loan.due_date loan)) ;;
         if date_ltb due_date today then ret (overdue_count + 1)
         else ret overdue_count
       else ret overdue_count)
    0 ;;
  ret (mkDashboard total_books total_users total_loans active_loans
         overdue_count (total_loans - active_loans)).

(** ** Requests and the states they reach *)

(** The endpoints of the application.  [search_books], [search_users],
    [generate_receipt], [admin_login] and [root] read the stores without
    assigning to them; they appear with the effect they have on the
    stores, which is none. *)
Inductive request : Type :=
| AddBook (book : Book.t)
| GetAllBooks
| SearchBooks (keyword : string)
| GetBook (book_id : Z)
| UpdateBook (book : Book.t) (book_id : Z)
| DeleteBook (book_id : Z)
| CreateUser (user : UserModel.t)
| GetAllUsers
| SearchUsers (keyword : string)
| UpdateUser (user : UserModel.t) (user_id : Z)
| DeleteUser (user_id : Z)
| BorrowBook (borrow : BorrowModel.t) (now1 now2 : date)
| ReturnBook (return_data : ReturnModel.t) (now : date)
| TrackBorrowing (user_id book_id : option Z)
| ListBorrowedBooks
| CheckAvailability (book_id : Z)
| GetOverdueBooks (now : date)
| GetMostBorrowedBook
| GetBorrowingHistory (user_id book_id : option Z) (status : option string)
| GenerateReceipt (loan_id : Z)
| AdminLogin (username password : string)
| GetDashboardStats (now : date)
| Root.

(** The stores a request leaves behind, whatever its outcome. *)
Definition exec (r : request) (st : State) : State :=
  match r with
  | AddBook book => snd (add_book book st)
  | GetAllBooks => snd (get_all_books st)
  | SearchBooks _ => st
  | GetBook book_id => snd (get_book book_id st)
  | UpdateBook book book_id => snd (update_book book book_id st)
  | DeleteBook book_id => snd (delete_book book_id st)
  | CreateUser user => snd (create_user user st)
  | GetAllUsers => snd (get_all_users st)
  | SearchUsers _ => st
  | UpdateUser user user_id => snd (update_user user user_id st)
  | DeleteUser user_id => snd (delete_user user_id st)
  | BorrowBook borrow now1 now2 => snd (borrow_book borrow now1 now2 st)
  | ReturnBook return_data now => snd (return_book return_data now st)
  | TrackBorrowing user_id book_id => snd (track_borrowing user_id book_id st)
  | ListBorrowedBooks => snd (list_borrowed_books st)
  | CheckAvailability book_id => snd (check_availability book_id st)
  | GetOverdueBooks now => snd (get_overdue_books now st)
  | GetMostBorrowedBook => snd (get_most_borrowed_book st)
  | GetBorrowingHistory user_id book_id status =>
      snd (get_borrowing_history user_id book_id status st)
  | GenerateReceipt _ => st
  | AdminLogin _ _ => st
  | GetDashboardStats now => snd (get_dashboard_stats now st)
  | Root => st
  end.

Inductive reachable : State -> Prop :=
| reachable_init : reachable initial_state
| reachable_step : forall r st, reachable st -> reachable (exec r st).

(** The clock readings of a request satisfy [Q]. *)
Definition clocks (Q : date -> Prop) (r : request) : Prop :=
  match r with
  | BorrowBook _ now1 now2 => Q now1 /\ Q now2
  | ReturnBook _ now => Q now
  | GetOverdueBooks now => Q now
  | GetDashboardStats now => Q now
  | _ => True
  end.

(** The states reached by requests whose clock readings satisfy [Q]. *)
Inductive reachable_with (Q : date -> Prop) : State -> Prop :=
| reachable_with_init : reachable_with Q initial_state
| reachable_with_step : forall r st,
    clocks Q r -> reachable_with Q st -> reachable_with Q (exec r st).

(** A clock reading of the service: a date, in a year of four digits. *)
Definition clock_ok (d : date) : Prop :=
  valid_dateb d = true /\ 1000 <= year d.

(** Every loan is active or returned, and returned exactly when it has a
    return date. *)
Definition loan_ok (l : Loan.t) : Prop :=
  (Loan.status l = "active" \/ Loan.status l = "returned")
  /\ (Loan.status l = "returned" <-> Loan.return_date l <> None).

(** ** The vocabulary of the properties *)

(** The extra day of a leap year. *)
Definition leap_day (y : Z) : Z := if is_leap y then 1 else 0.

(** Month and day of the [n]-th day (from 0) of a year, as [ord2ymd]
    finds them. *)
Definition month_and_day (leapyear : bool) (n : Z) : Z * Z :=
  let m := Z.shiftr (n + 50) 5 in
  let preceding :=
    nth (Z.to_nat m) DAYS_BEFORE_MONTH 0
    + (if (2 <? m) && leapyear then 1 else 0) in
  if n <? preceding then
    let m := m - 1 in
    let preceding :=
      preceding - (nth (Z.to_nat m) DAYS_IN_MONTH 0
                   + (if (m =? 2) && leapyear then 1 else 0)) in
    (m, n - preceding + 1)
  else (m, n - preceding + 1).

(** [month_and_day] returns a month of the year and a day of that month. *)
Definition month_and_day_ok (leapyear : bool) (n : nat) : bool :=
  let (m, d) := month_and_day leapyear (Z.of_nat n) in
  (1 <=? m) && (m <=? 12) && (1 <=? d)
  && (d <=? (if (m =? 2) && leapyear then 29
             else nth (Z.to_nat m) DAYS_IN_MONTH 0)).

(** [month_and_day] returns the month and day that [ymd2ord] counts back to
    the same day of the year. *)
Definition month_and_day_ord_ok (leapyear : bool) (n : nat) : bool :=
  let (m, d) := month_and_day leapyear (Z.of_nat n) in
  nth (Z.to_nat m) DAYS_BEFORE_MONTH 0
  + (if (2 <? m) && leapyear then 1 else 0) + d =? Z.of_nat n + 1.

(** A property that every loan of the loan store has. *)
Definition every_loan (P : Loan.t -> Prop) (st : State) : Prop :=
  forall k l, In (k, l) (loan_db st) -> P l.

(** The due date of the loan is a date in the stored format. *)
Definition due_date_parses (l : Loan.t) : Prop :=
  exists due, strptime (Loan.due_date l) = Ok due.

(** [max(d.keys()) + 1 if d else 1], in words. *)
Definition is_next_id (ks : list Z) (n : Z) : Prop :=
  (ks = [] /\ n = 1)
  \/ (exists m, In m ks /\ (forall k, In k ks -> k <= m) /\ n = m + 1).

(** The loan that [borrow_book] stores. *)
Definition borrowed_loan_of (borrow : BorrowModel.t) (now1 due : date)
  : Loan.t :=
  Loan.mk (BorrowModel.book_id borrow) (BorrowModel.user_id borrow)
    (strftime now1) (strftime due) None "active".

(** The loan as [return_book] leaves it. *)
Definition returned_loan_of (loan : Loan.t) (now : date) : Loan.t :=
  Loan.mk (Loan.book_id loan) (Loan.user_id loan) (Loan.loan_date loan)
    (Loan.due_date loan) (Some (strftime now)) "returned".

(** What [create_user] and [update_user] store for a request they accept. *)
Definition stored_user (user : UserModel.t) : User.t :=
  if String.eqb (UserModel.role user) "member"
  then User.pop_password (User.pop_username (User.model_dump user))
  else User.model_dump user.

(** The requests that [create_user] and [update_user] refuse. *)
Definition rejected (user : UserModel.t) : bool :=
  String.eqb (UserModel.role user) "admin"
  && (falsy (UserModel.username user) || falsy (UserModel.password user)).

(** A credential that was not sent, or was sent empty. *)
Definition missing_or_empty (s : option string) : Prop :=
  s = None \/ s = Some "".

(** A handler that leaves the stores as they were, whatever it answers. *)
Definition readonly {A} (h : handler A) : Prop := forall st, snd (h st) = st.

(** What the loop of [get_overdue_books] appends for one loan. *)
Definition overdue_of (st : State) (today : date) (item : Z * Loan.t)
  : list OverdueEntry :=
  if String.eqb (Loan.status (snd item)) "active" then
    match strptime (Loan.due_date (snd item)) with
    | Ok due =>
        if date_ltb due today then
          [mkOverdueEntry (fst item) (snd item)
             (title_or_unknown (book_db st) (Loan.book_id (snd item)))
             (name_or_unknown (user_db st) (Loan.user_id (snd item)))
             (days_between today due)]
        else []
    | _ => []
    end
  else [].

(** The due date of every active loan is a date in the stored format. *)
Definition due_dates_parse (loans : list (Z * Loan.t)) : Prop :=
  forall k l, In (k, l) loans -> Loan.status l = "active" ->
    exists due, strptime (Loan.due_date l) = Ok due.

(** How often a book was borrowed: the loans that refer to it. *)
Definition borrows_of (k : Z) (loans : list Loan.t) : Z :=
  Z.of_nat (List.length (filter (fun l => Loan.book_id l =? k) loans)).

(** The frequency map after the loans [seen]: a key for each book that
    occurs, with the number of its occurrences. *)
Definition counts (borrow_count : OD.t Z) (seen : list Loan.t) : Prop :=
  forall k,
    OD.get k borrow_count
    = if borrows_of k seen =? 0 then None else Some (borrows_of k seen).

(** ** Stores and requests of the examples *)

(** A book store whose only book has no copy left. *)
Definition sold_out_state : State :=
  mkState [(7, Book.mk "Emma" "Jane Austen" "9780141439587" 1815 0)]
    user_db_seed loan_db_seed.

(** An admin request without a password. *)
Definition admin_without_password : UserModel.t :=
  UserModel.mk "Eve Adams" "eve@example.com" "admin" (Some "eve") None.

(** A member request that carries credentials. *)
Definition member_with_credentials : UserModel.t :=
  UserModel.mk "Max Miller" "max@example.com" "member"
    (Some "max") (Some "secret").

(** The seeded stores after a borrow of book 1 and the return of loan 2. *)
Definition borrowed_then_returned : State :=
  exec (ReturnBook (ReturnModel.mk 2) (mkdate 2025 12 2))
    (exec (BorrowBook (BorrowModel.mk 1 1) (mkdate 2025 12 1)
             (mkdate 2025 12 1))
       initial_state).

(** The seeded books and users, and no loan. *)
Definition no_loans_state : State := mkState book_db_seed user_db_seed [].

(** The seeded stores with a second loan of book 3. *)
Definition two_loans_of_book_3 : State :=
  mkState book_db_seed user_db_seed
    (loan_db_seed ++ [(4, Loan.mk 3 2 "2025-11-20" "2025-12-04" None "active")]).

(** ** Further vocabulary *)

(** An association list that stands for a dictionary: no key twice. *)
Definition is_dict {V} (d : OD.t V) : Prop := NoDup (OD.keys d).

(** The three stores are dictionaries. *)
Definition stores_are_dicts (st : State) : Prop :=
  is_dict (book_db st) /\ is_dict (user_db st) /\ is_dict (loan_db st).

(** The states reached by the requests that [A] allows. *)
Inductive reachable_by (A : request -> Prop) : State -> Prop :=
| reachable_by_init : reachable_by A initial_state
| reachable_by_step : forall r st,
    A r -> reachable_by A st -> reachable_by A (exec r st).

(** The requests that write the book store directly. *)
Definition inventory_write (r : request) : Prop :=
  match r with
  | AddBook _ | UpdateBook _ _ | DeleteBook _ => True
  | _ => False
  end.

(** The requests that send no negative [copies_available]. *)
Definition sends_no_negative_copies (r : request) : Prop :=
  match r with
  | AddBook book | UpdateBook book _ => 0 <= Book.copies_available book
  | _ => True
  end.

(** The loans of book [k] that are out. *)
Definition active_loans_of (k : Z) (loans : OD.t Loan.t) : Z :=
  Z.of_nat
    (List.length
       (filter (fun item : Z * Loan.t =>
                  (Loan.book_id (snd item) =? k)
                  && String.eqb (Loan.status (snd item)) "active")
          loans)).

(** The copies of book [k] on the shelf; none of a book that is not in the
    store. *)
Definition copies_of (k : Z) (books : OD.t Book.t) : Z :=
  match OD.get k books with
  | Some b => Book.copies_available b
  | None => 0
  end.

(** The copies of book [k] the library owns: on the shelf or out. *)
Definition stock (k : Z) (st : State) : Z :=
  copies_of k (book_db st) + active_loans_of k (loan_db st).

(** The book of every active loan is in the book store. *)
Definition active_loans_have_books (st : State) : Prop :=
  forall id l, In (id, l) (loan_db st) -> Loan.status l = "active" ->
    exists b, OD.get (Loan.book_id l) (book_db st) = Some b.

(** What a request can do to the stores: nothing (every read, and every
    request refused before its first write), or one of the writes of the
    handlers. *)
Inductive transition (st : State) : request -> State -> Prop :=
| writes_nothing : forall r, transition st r st
| adds_book : forall book,
    transition st (AddBook book)
      (mkState (book_db st ++ [(OD.next_id (book_db st), book)])
         (user_db st) (loan_db st))
| updates_book : forall book k old,
    OD.get k (book_db st) = Some old ->
    transition st (UpdateBook book k)
      (mkState (OD.set k book (book_db st)) (user_db st) (loan_db st))
| deletes_book : forall k old,
    OD.get k (book_db st) = Some old ->
    transition st (DeleteBook k)
      (mkState (OD.del k (book_db st)) (user_db st) (loan_db st))
| creates_user : forall user,
    rejected user = false ->
    transition st (CreateUser user)
      (mkState (book_db st)
         (user_db st ++ [(OD.next_id (user_db st), stored_user user)])
         (loan_db st))
| updates_user : forall user k old,
    OD.get k (user_db st) = Some old ->
    rejected user = false ->
    transition st (UpdateUser user k)
      (mkState (book_db st) (OD.set k (stored_user user) (user_db st))
         (loan_db st))
| deletes_user : forall k old,
    OD.get k (user_db st) = Some old ->
    transition st (DeleteUser k)
      (mkState (book_db st) (OD.del k (user_db st)) (loan_db st))
| borrows : forall borrow now1 now2 due book,
    OD.get (BorrowModel.book_id borrow) (book_db st) = Some book ->
    0 < Book.copies_available book ->
    add_days now2 14 = Ok due ->
    transition st (BorrowBook borrow now1 now2)
      (mkState
         (OD.set (BorrowModel.book_id borrow)
            (Book.set_copies_available book (Book.copies_available book - 1))
            (book_db st))
         (user_db st)
         (loan_db st
          ++ [(OD.next_id (loan_db st), borrowed_loan_of borrow now1 due)]))
| returns : forall return_data now loan book,
    OD.get (ReturnModel.loan_id return_data) (loan_db st) = Some loan ->
    Loan.status loan <> "returned" ->
    OD.get (Loan.book_id loan) (book_db st) = Some book ->
    transition st (ReturnBook return_data now)
      (mkState
         (OD.set (Loan.book_id loan)
            (Book.set_copies_available book (Book.copies_available book + 1))
            (book_db st))
         (user_db st)
         (OD.set (ReturnModel.loan_id return_data)
            (returned_loan_of loan now) (loan_db st)))
| returns_without_book : forall return_data now loan,
    OD.get (ReturnModel.loan_id return_data) (loan_db st) = Some loan ->
    Loan.status loan <> "returned" ->
    OD.get (Loan.book_id loan) (book_db st) = None ->
    transition st (ReturnBook return_data now)
      (mkState (book_db st) (user_db st)
         (OD.set (ReturnModel.loan_id return_data)
            (returned_loan_of loan now) (loan_db st))).

(** What the loop of [list_borrowed_books] appends for one loan. *)
Definition borrowed_of (st : State) (item : Z * Loan.t)
  : list (Z * Loan.t * string) :=
  if String.eqb (Loan.status (snd item)) "active"
  then [(fst item, snd item,
         title_or_unknown (book_db st) (Loan.book_id (snd item)))]
  else [].

(** An optional integer filter lets the value [n] through: no filter, the
    filter 0, or the filter [n]. *)
Definition passes (filter : option Z) (n : Z) : bool :=
  negb (truthy filter && differs filter n).

(** What the loop of [track_borrowing] appends for one loan. *)
Definition tracked_of (user_id book_id : option Z) (item : Z * Loan.t)
  : list (Z * Loan.t) :=
  if passes user_id (Loan.user_id (snd item))
     && passes book_id (Loan.book_id (snd item))
  then [item] else [].

(** What the loop of [get_borrowing_history] appends for one loan. *)
Definition history_of (st : State) (user_id book_id : option Z)
  (status : option string) (item : Z * Loan.t) : list HistoryEntry :=
  if passes user_id (Loan.user_id (snd item))
     && passes book_id (Loan.book_id (snd item))
     && negb (status_differs status (Loan.status (snd item)))
  then [mkHistoryEntry (fst item) (snd item)
          (title_or_unknown (book_db st) (Loan.book_id (snd item)))
          (name_or_unknown (user_db st) (Loan.user_id (snd item)))]
  else [].

(** The credentials of a stored user fit its role: an admin has a username
    and a password that are not empty, a member has neither key. *)
Definition user_ok (u : User.t) : Prop :=
  (User.role u = "admin" ->
   exists n p, User.username u = Some (Some n) /\ n <> ""
               /\ User.password u = Some (Some p) /\ p <> "")
  /\ (User.role u = "member" ->
      User.username u = None /\ User.password u = None).

(** The first of the items [best :: items] with the largest count. *)
Definition first_max (items : list (Z * Z)) (best : Z * Z) : Z * Z :=
  fold_left (fun best y => if snd best <? snd y then y else best) items best.

(** ** Search *)

(** The values a stored record can hold. *)
Inductive pyvalue : Type :=
| VStr (s : string)
| VInt (n : Z)
| VNone.

(** [str(value)] *)
Definition py_str (v : pyvalue) : string :=
  match v with
  | VStr s => s
  | VInt n => NilZero.string_of_int (Z.to_int n)
  | VNone => "None"
  end.

(** [q in s] on strings: [q] occurs in [s]. *)
Fixpoint str_contains (s q : string) : bool :=
  String.prefix q s
  || match s with
     | EmptyString => false
     | String _ s' => str_contains s' q
     end.

(** [book.values()] *)
Definition book_values (b : Book.t) : list pyvalue :=
  [ VStr (Book.title b); VStr (Book.author b); VStr (Book.isbn b);
    VInt (Book.published_year b); VInt (Book.copies_available b) ].

(** The value under a key that may be absent, and may hold [None]. *)
Definition optional_value (o : option (option string)) : list pyvalue :=
  match o with
  | None => []
  | Some None => [VNone]
  | Some (Some s) => [VStr s]
  end.

(** [user.values()] *)
Definition user_values (u : User.t) : list pyvalue :=
  [ VStr (User.name u); VStr (User.email u); VStr (User.role u) ]
  ++ optional_value (User.username u) ++ optional_value (User.password u).

(** The test of the two search loops on one record: the keyword occurs in
    the identifier, or in one of the values.  [lower] is [str.lower]. *)
Definition record_matches (lower : string -> string) (q : string) (id : Z)
  (values : list pyvalue) : bool :=
  if str_contains (lower (py_str (VInt id))) q then true
  else existsb (fun value => str_contains (lower (py_str value)) q) values.

(** [GET /books/search/] *)
Definition search_books (lower : string -> string) (keyword : string)
  : handler (list (Z * Book.t) * Z) :=
  let q := lower keyword in
  books <- read book_db ;;
  results <- for_each (OD.items books)
    (fun (item : Z * Book.t) (results : list (Z * Book.t)) =>
       let (book_id, book) := item in
       if str_contains (lower (py_str (VInt book_id))) q
       then ret (results ++ [(book_id, book)])
       else if existsb
                 (fun value => str_contains (lower (py_str value)) q)
                 (book_values book)
       then ret (results ++ [(book_id, book)])
       else ret results)
    [] ;;
  ret (results, Z.of_nat (List.length results)).

(** [GET /users/search/] *)
Definition search_users (lower : string -> string) (keyword : string)
  : handler (list (Z * User.t) * Z) :=
  let q := lower keyword in
  users <- read user_db ;;
  results <- for_each (OD.items users)
    (fun (item : Z * User.t) (results : list (Z * User.t)) =>
       let (user_id, user) := item in
       if str_contains (lower (py_str (VInt user_id))) q
       then ret (results ++ [(user_id, user)])
       else if existsb
                 (fun value => str_contains (lower (py_str value)) q)
                 (user_values user)
       then ret (results ++ [(user_id, user)])
       else ret results)
    [] ;;
  ret (results, Z.of_nat (List.length results)).

(** Lower case of the letters A to Z, for the examples. *)
Definition ascii_lower (c : ascii) : ascii :=
  let n := nat_of_ascii c in
  if (65 <=? n)%nat && (n <=? 90)%nat then ascii_of_nat (n + 32) else c.

Fixpoint lower_ascii (s : string) : string :=
  match s with
  | EmptyString => EmptyString
  | String c s' => String (ascii_lower c) (lower_ascii s')
  end.

(** * Properties *)

(** ** The calendar at some dates *)

Example ymd2ord_2025_11_15 : ymd2ord (mkdate 2025 11 15) = 739570.
Proof. reflexivity. Qed.

Example ord2ymd_739584 : ord2ymd 739584 = mkdate 2025 11 29.
Proof. reflexivity. Qed.

Example strftime_2025_11_01 : strftime (mkdate 2025 11 1) = "2025-11-01".
Proof. reflexivity. Qed.

Example strptime_2025_11_24 : strptime "2025-11-24" = Ok (mkdate 2025 11 24).
Proof. reflexivity. Qed.

Example strptime_bad_day : strptime "2025-02-30" = Raised ValueError.
Proof. reflexivity. Qed.

Example add_days_year_end :
  add_days (mkdate 2024 12 25) 14 = Ok (mkdate 2025 1 8).
Proof. reflexivity. Qed.

Example add_days_overflow :
  add_days (mkdate 9999 12 25) 14 = Raised OverflowError.
Proof. reflexivity. Qed.

(** ** Dictionaries *)

Section OrderedDictFacts.
Context {V : Type}.
Implicit Types (d : OD.t V) (k : Z) (v : V).

Lemma get_set_same d k v : OD.get k (OD.set k v d) = Some v.
Proof.
  induction d as [|[k' v'] d IH]; simpl.
  - now rewrite Z.eqb_refl.
  - destruct (k' =? k) eqn:E; simpl.
    + now rewrite Z.eqb_refl.
    + now rewrite E.
Qed.

Lemma get_set_other d k k' v :
  k' <> k -> OD.get k' (OD.set k v d) = OD.get k' d.
Proof.
  intros Hne. induction d as [|[k0 v0] d IH]; simpl.
  - destruct (k =? k') eqn:E; [apply Z.eqb_eq in E; congruence | reflexivity].
  - destruct (k0 =? k) eqn:E; simpl.
    + apply Z.eqb_eq in E. subst k0.
      destruct (k =? k') eqn:E'; [apply Z.eqb_eq in E'; congruence|].
      reflexivity.
    + destruct (k0 =? k'); [reflexivity | exact IH].
Qed.

Lemma set_set_same d k v v' : OD.set k v' (OD.set k v d) = OD.set k v' d.
Proof.
  induction d as [|[k0 v0] d IH]; simpl.
  - now rewrite Z.eqb_refl.
  - destruct (k0 =? k) eqn:E; simpl.
    + now rewrite Z.eqb_refl.
    + now rewrite E, IH.
Qed.

Lemma keys_set_present d k v v0 :
  OD.get k d = Some v0 -> OD.keys (OD.set k v d) = OD.keys d.
Proof.
  unfold OD.keys.
  induction d as [|[k0 v1] d IH]; simpl; [discriminate|].
  destruct (k0 =? k) eqn:E; simpl.
  - intros _. apply Z.eqb_eq in E. now subst.
  - intros H. f_equal. auto.
Qed.

Lemma set_absent d k v : OD.get k d = None -> OD.set k v d = d ++ [(k, v)].
Proof.
  induction d as [|[k0 v0] d IH]; simpl; [reflexivity|].
  destruct (k0 =? k); [discriminate|].
  intros H. now rewrite IH.
Qed.

Lemma get_in d k v : OD.get k d = Some v -> In (k, v) d.
Proof.
  induction d as [|[k0 v0] d IH]; simpl; [discriminate|].
  destruct (k0 =? k) eqn:E.
  - apply Z.eqb_eq in E. intros [= ->]. left. now subst.
  - intros H. right. auto.
Qed.

Lemma get_none_not_in d k : OD.get k d = None <-> ~ In k (OD.keys d).
Proof.
  induction d as [|[k0 v0] d IH]; simpl.
  - tauto.
  - destruct (k0 =? k) eqn:E.
    + apply Z.eqb_eq in E. split; [discriminate | intros H; exfalso; auto].
    + apply Z.eqb_neq in E. rewrite IH. unfold OD.keys. tauto.
Qed.

Lemma mem_get d k : OD.mem k d = true <-> exists v, OD.get k d = Some v.
Proof.
  unfold OD.mem. destruct (OD.get k d) as [v|].
  - split; [eauto | reflexivity].
  - split; [discriminate | intros [v [=]]].
Qed.

Lemma in_set d k v k' v' :
  In (k', v') (OD.set k v d) -> (k, v) = (k', v') \/ In (k', v') d.
Proof.
  induction d as [|[k0 v0] d IH]; simpl.
  - tauto.
  - destruct (k0 =? k); simpl; intros [H|H]; auto.
    destruct (IH H); auto.
Qed.

Lemma in_del d k k' v' : In (k', v') (OD.del k d) -> In (k', v') d.
Proof.
  induction d as [|[k0 v0] d IH]; simpl; [tauto|].
  destruct (k0 =? k); simpl; [auto|].
  intros [H|H]; auto.
Qed.

(** The largest key bounds every key. *)
Lemma fold_max_ge (ks : list Z) (k0 : Z) :
  k0 <= fold_left Z.max ks k0
  /\ forall k, In k ks -> k <= fold_left Z.max ks k0.
Proof.
  revert k0. induction ks as [|k1 ks IH]; intros k0; simpl.
  - split; [lia | tauto].
  - destruct (IH (Z.max k0 k1)) as [H1 H2]. split; [lia|].
    intros k [<-|Hin]; [lia | auto].
Qed.

Lemma fold_max_in (ks : list Z) (k0 : Z) :
  In (fold_left Z.max ks k0) (k0 :: ks).
Proof.
  revert k0. induction ks as [|k1 ks IH]; intros k0; simpl.
  - now left.
  - destruct (IH (Z.max k0 k1)) as [H|H].
    + rewrite <- H. destruct (Z.max_spec k0 k1) as [[_ ->]|[_ ->]]; auto.
    + auto.
Qed.

Lemma next_id_spec d : is_next_id (OD.keys d) (OD.next_id d).
Proof.
  unfold is_next_id, OD.next_id. destruct (OD.keys d) as [|k ks].
  - now left.
  - right. exists (fold_left Z.max ks k).
    destruct (fold_max_ge ks k) as [H1 H2].
    split; [apply fold_max_in|]. split; [|reflexivity].
    intros k' [<-|Hin]; auto.
Qed.

Lemma next_id_greater d k : In k (OD.keys d) -> k < OD.next_id d.
Proof.
  intros Hin. destruct (next_id_spec d) as [[E _]|[m [_ [Hmax ->]]]].
  - rewrite E in Hin. destruct Hin.
  - specialize (Hmax k Hin). lia.
Qed.

Lemma next_id_fresh d : OD.get (OD.next_id d) d = None.
Proof.
  apply get_none_not_in. intros Hin. apply next_id_greater in Hin. lia.
Qed.

End OrderedDictFacts.

(** ** Dates: the order of dates is the order of their ordinals *)

Lemma div_step (k y : Z) :
  0 < k -> y / k = (y - 1) / k + (if y mod k =? 0 then 1 else 0).
Proof.
  intros Hk. destruct (y mod k =? 0) eqn:E;
    rewrite ?Z.eqb_eq, ?Z.eqb_neq in E; Z.div_mod_to_equations; nia.
Qed.

Lemma mod_100_4 (y : Z) : y mod 100 = 0 -> y mod 4 = 0.
Proof. intros H. Z.div_mod_to_equations. lia. Qed.

Lemma mod_400_100 (y : Z) : y mod 400 = 0 -> y mod 100 = 0.
Proof. intros H. Z.div_mod_to_equations. lia. Qed.

Lemma days_before_year_succ (y : Z) :
  days_before_year (y + 1) = days_before_year y + 365 + leap_day y.
Proof.
  unfold days_before_year, leap_day, is_leap.
  replace (y + 1 - 1) with y by lia.
  rewrite (div_step 4 y), (div_step 100 y), (div_step 400 y) by lia.
  pose proof (mod_100_4 y) as H1. pose proof (mod_400_100 y) as H2.
  destruct (y mod 4 =? 0) eqn:E4; destruct (y mod 100 =? 0) eqn:E100;
    destruct (y mod 400 =? 0) eqn:E400; cbn [andb orb negb];
    rewrite ?Z.eqb_eq, ?Z.eqb_neq in *; lia.
Qed.

Lemma days_before_year_le (y1 y2 : Z) :
  y1 <= y2 -> days_before_year y1 <= days_before_year y2.
Proof.
  unfold days_before_year. intros H.
  Z.div_mod_to_equations. lia.
Qed.

Lemma month_cases (m : Z) :
  1 <= m <= 12 ->
  m = 1 \/ m = 2 \/ m = 3 \/ m = 4 \/ m = 5 \/ m = 6
  \/ m = 7 \/ m = 8 \/ m = 9 \/ m = 10 \/ m = 11 \/ m = 12.
Proof. lia. Qed.

Ltac each_month m H :=
  destruct (month_cases m H)
    as [->|[->|[->|[->|[->|[->|[->|[->|[->|[->|[->| ->]]]]]]]]]]].

(** The last day of a month is before the first day of any later month. *)
Lemma month_end_before (y m1 m2 : Z) :
  1 <= m1 <= 12 -> 1 <= m2 <= 12 -> m1 < m2 ->
  days_before_month y m1 + days_in_month y m1 <= days_before_month y m2.
Proof.
  intros H1 H2 Hlt. unfold days_before_month, days_in_month.
  each_month m1 H1; each_month m2 H2; try lia;
    destruct (is_leap y); vm_compute; discriminate.
Qed.

(** The last day of December is the last day of the year. *)
Lemma year_end (y m : Z) :
  1 <= m <= 12 ->
  days_before_month y m + days_in_month y m <= 365 + leap_day y.
Proof.
  intros H. unfold days_before_month, days_in_month, leap_day.
  each_month m H; destruct (is_leap y); vm_compute; discriminate.
Qed.

Lemma days_before_month_nonneg (y m : Z) :
  1 <= m <= 12 -> 0 <= days_before_month y m.
Proof.
  intros H. unfold days_before_month.
  each_month m H; destruct (is_leap y); vm_compute; discriminate.
Qed.

Lemma valid_date_bounds (d : date) :
  valid_dateb d = true ->
  1 <= year d <= 9999 /\ 1 <= month d <= 12
  /\ 1 <= day d <= days_in_month (year d) (month d).
Proof.
  unfold valid_dateb, MINYEAR, MAXYEAR.
  rewrite !andb_true_iff, !Z.leb_le. lia.
Qed.

(** [d1 < d2] on valid dates implies the same of their ordinals. *)
Lemma date_ltb_ordinal (d1 d2 : date) :
  valid_dateb d1 = true -> valid_dateb d2 = true ->
  date_ltb d1 d2 = true -> ymd2ord d1 < ymd2ord d2.
Proof.
  intros V1 V2. apply valid_date_bounds in V1, V2.
  destruct V1 as (Hy1 & Hm1 & Hd1). destruct V2 as (Hy2 & Hm2 & Hd2).
  unfold date_ltb, ymd2ord.
  rewrite orb_true_iff, andb_true_iff, orb_true_iff, andb_true_iff,
    !Z.ltb_lt, !Z.eqb_eq.
  pose proof (year_end (year d1) (month d1) Hm1) as Hend.
  pose proof (days_before_month_nonneg (year d2) (month d2) Hm2) as Hnn.
  intros [Hy|[Hy [Hm|[Hm Hd]]]].
  - pose proof (days_before_year_succ (year d1)) as Hs.
    pose proof (days_before_year_le (year d1 + 1) (year d2)) as Hle.
    lia.
  - rewrite Hy in *.
    pose proof (month_end_before (year d2) (month d1) (month d2) Hm1 Hm2 Hm).
    lia.
  - rewrite Hy, Hm. lia.
Qed.

(** A date that [strptime] returns is a date. *)
Lemma strptime_valid (s : string) (d : date) :
  strptime s = Ok d -> valid_dateb d = true.
Proof.
  unfold strptime.
  destruct (split_on "-" s) as [|sy [|sm [|sd [|]]]]; try discriminate.
  destruct (parse_Y sy) as [y|]; [|discriminate].
  destruct (parse_m sm) as [m|]; [|discriminate].
  destruct (parse_d sd) as [dd|]; [|discriminate].
  destruct (valid_dateb (mkdate y m dd)) eqn:V; [|discriminate].
  now intros [= <-].
Qed.

(** ** Dates: reading back what [strftime] wrote *)

Lemma digit_cases (n : Z) :
  let k := n mod 10 in
  k = 0 \/ k = 1 \/ k = 2 \/ k = 3 \/ k = 4
  \/ k = 5 \/ k = 6 \/ k = 7 \/ k = 8 \/ k = 9.
Proof. intros k. unfold k. Z.div_mod_to_equations. lia. Qed.

Lemma digit_char_spec (n : Z) :
  is_digit (digit_char n) = true
  /\ digit_val (digit_char n) = n mod 10
  /\ Ascii.eqb (digit_char n) "-" = false.
Proof.
  unfold digit_char.
  destruct (digit_cases n) as [H|[H|[H|[H|[H|[H|[H|[H|[H|H]]]]]]]]];
    rewrite H; repeat split; reflexivity.
Qed.

Lemma split_on_digits (c1 c2 c3 c4 c5 c6 c7 c8 : ascii) :
  Ascii.eqb c1 "-" = false -> Ascii.eqb c2 "-" = false ->
  Ascii.eqb c3 "-" = false -> Ascii.eqb c4 "-" = false ->
  Ascii.eqb c5 "-" = false -> Ascii.eqb c6 "-" = false ->
  Ascii.eqb c7 "-" = false -> Ascii.eqb c8 "-" = false ->
  split_on "-"
    (String c1 (String c2 (String c3 (String c4 (String "-"
       (String c5 (String c6 (String "-" (String c7 (String c8 ""))))))))))
  = [String c1 (String c2 (String c3 (String c4 "")));
     String c5 (String c6 ""); String c7 (String c8 "")].
Proof.
  intros H1 H2 H3 H4 H5 H6 H7 H8. cbn [split_on].
  rewrite H8, H7. cbn [Ascii.eqb Bool.eqb]. rewrite H6, H5.
  cbn [Ascii.eqb Bool.eqb]. now rewrite H4, H3, H2, H1.
Qed.

(** A date with a four-digit year reads back as itself. *)
Lemma strptime_strftime (d : date) :
  valid_dateb d = true -> 1000 <= year d -> strptime (strftime d) = Ok d.
Proof.
  intros V _. pose proof (valid_date_bounds d V) as (Hy & Hm & Hd).
  assert (Hdim : days_in_month (year d) (month d) <= 31).
  { unfold days_in_month.
    destruct (month_cases (month d) Hm)
      as [->|[->|[->|[->|[->|[->|[->|[->|[->|[->|[->| ->]]]]]]]]]]];
      destruct (is_leap (year d)); vm_compute; discriminate. }
  unfold strptime, strftime, zfill4, zfill2. cbn [String.append].
  destruct (digit_char_spec (year d / 1000)) as (Ia & Va & Na).
  destruct (digit_char_spec (year d / 100)) as (Ib & Vb & Nb).
  destruct (digit_char_spec (year d / 10)) as (Ic & Vc & Nc).
  destruct (digit_char_spec (year d)) as (Id & Vd & Nd).
  destruct (digit_char_spec (month d / 10)) as (Ie & Ve & Ne).
  destruct (digit_char_spec (month d)) as (If & Vf & Nf).
  destruct (digit_char_spec (day d / 10)) as (Ig & Vg & Ng).
  destruct (digit_char_spec (day d)) as (Ih & Vh & Nh).
  rewrite split_on_digits by assumption.
  unfold parse_Y, parse_m, parse_d.
  rewrite Ia, Ib, Ic, Id, Ie, If, Ig, Ih. cbn [andb].
  rewrite Va, Vb, Vc, Vd, Ve, Vf, Vg, Vh.
  assert (Ey : 1000 * ((year d / 1000) mod 10) + 100 * ((year d / 100) mod 10)
               + 10 * ((year d / 10) mod 10) + year d mod 10 = year d).
  { Z.div_mod_to_equations. lia. }
  assert (Em : 10 * ((month d / 10) mod 10) + month d mod 10 = month d).
  { Z.div_mod_to_equations. lia. }
  assert (Ed : 10 * ((day d / 10) mod 10) + day d mod 10 = day d).
  { Z.div_mod_to_equations. lia. }
  rewrite Ey, Em, Ed.
  destruct ((1 <=? month d) && (month d <=? 12)) eqn:Cm.
  2:{ rewrite andb_false_iff, Z.leb_gt, Z.leb_gt in Cm. lia. }
  destruct ((1 <=? day d) && (day d <=? 31)) eqn:Cd.
  2:{ rewrite andb_false_iff, Z.leb_gt, Z.leb_gt in Cd. lia. }
  destruct d as [y m dd]. cbn [year month day] in *. now rewrite V.
Qed.

(** ** Dates: [fromordinal] returns a date *)

Lemma month_and_day_checked (leapyear : bool) :
  forallb (month_and_day_ok leapyear) (seq 0 365) = true.
Proof. destruct leapyear; vm_compute; reflexivity. Qed.

Lemma month_and_day_valid (leapyear : bool) (n : Z) :
  0 <= n < 365 ->
  month_and_day_ok leapyear (Z.to_nat n) = true.
Proof.
  intros Hn.
  pose proof (month_and_day_checked leapyear) as H.
  rewrite forallb_forall in H. apply H. apply in_seq. lia.
Qed.

Lemma ord2ymd_valid (n : Z) :
  1 <= n <= MAXORDINAL -> valid_dateb (ord2ymd n) = true.
Proof.
  unfold MAXORDINAL. intros Hn. unfold ord2ymd.
  set (n0 := n - 1).
  set (n400 := n0 / DI400Y). set (r1 := n0 mod DI400Y).
  set (n100 := r1 / DI100Y). set (r2 := r1 mod DI100Y).
  set (n4 := r2 / DI4Y). set (r3 := r2 mod DI4Y).
  set (n1 := r3 / 365). set (r4 := r3 mod 365).
  cbv zeta.
  assert (Hdiv :
            n0 = DI400Y * n400 + r1 /\ 0 <= r1 < DI400Y
            /\ r1 = DI100Y * n100 + r2 /\ 0 <= r2 < DI100Y
            /\ r2 = DI4Y * n4 + r3 /\ 0 <= r3 < DI4Y
            /\ r3 = 365 * n1 + r4 /\ 0 <= r4 < 365).
  { unfold n400, r1, n100, r2, n4, r3, n1, r4, DI400Y, DI100Y, DI4Y.
    repeat split;
      try (apply Z.div_mod; lia);
      try (apply Z.mod_pos_bound; lia). }
  unfold DI400Y, DI100Y, DI4Y in Hdiv.
  destruct Hdiv as (E0 & B1 & E1 & B2 & E2 & B3 & E3 & B4).
  assert (Hn0 : 0 <= n0 <= 3652058) by (unfold n0; lia).
  clearbody n400 r1 n100 r2 n4 r3 n1 r4 n0.
  destruct ((n1 =? 4) || (n100 =? 4)) eqn:Hadj.
  - apply orb_true_iff in Hadj. rewrite !Z.eqb_eq in Hadj.
    unfold valid_dateb, MINYEAR, MAXYEAR. cbn [year month day].
    change (days_in_month _ 12) with 31.
    rewrite !andb_true_iff, !Z.leb_le. lia.
  - apply orb_false_iff in Hadj. rewrite !Z.eqb_neq in Hadj.
    set (y := n400 * 400 + 1 + n100 * 100 + n4 * 4 + n1).
    set (leapyear := (n1 =? 3) && (negb (n4 =? 24) || (n100 =? 3))).
    assert (Hy : 1 <= y <= 9999) by (unfold y; lia).
    assert (Hleap : is_leap y = leapyear).
    { unfold is_leap, leapyear.
      assert (H4 : y mod 4 = (n1 + 1) mod 4).
      { unfold y. replace (n400 * 400 + 1 + n100 * 100 + n4 * 4 + n1)
          with (n1 + 1 + (n400 * 100 + n100 * 25 + n4) * 4) by lia.
        apply Z.mod_add. lia. }
      assert (H100 : y mod 100 = (n4 * 4 + n1 + 1) mod 100).
      { unfold y. replace (n400 * 400 + 1 + n100 * 100 + n4 * 4 + n1)
          with (n4 * 4 + n1 + 1 + (n400 * 4 + n100) * 100) by lia.
        apply Z.mod_add. lia. }
      assert (H400 : y mod 400 = (n100 * 100 + n4 * 4 + n1 + 1) mod 400).
      { unfold y. replace (n400 * 400 + 1 + n100 * 100 + n4 * 4 + n1)
          with (n100 * 100 + n4 * 4 + n1 + 1 + n400 * 400) by lia.
        apply Z.mod_add. lia. }
      rewrite H4, H100, H400.
      destruct (n1 =? 3) eqn:E13; destruct (n4 =? 24) eqn:E424;
        destruct (n100 =? 3) eqn:E1003;
        rewrite ?Z.eqb_eq, ?Z.eqb_neq in *; cbn [andb orb negb];
        repeat match goal with
               | |- context [?a mod ?b =? 0] =>
                   let E := fresh "E" in
                   destruct (a mod b =? 0) eqn:E;
                   rewrite ?Z.eqb_eq, ?Z.eqb_neq in E
               end;
        cbn [andb orb negb]; try reflexivity;
        exfalso; Z.div_mod_to_equations; lia. }
    pose proof (month_and_day_valid leapyear r4 B4) as Hmd.
    unfold month_and_day_ok, month_and_day in Hmd.
    rewrite Z2Nat.id in Hmd by lia. cbv zeta in Hmd.
    fold leapyear.
    destruct (r4 <? _) eqn:Hpre;
      unfold valid_dateb, MINYEAR, MAXYEAR, days_in_month;
      cbn [year month day]; fold y; rewrite Hleap;
      rewrite !andb_true_iff in Hmd; rewrite !andb_true_iff, !Z.leb_le;
      rewrite !Z.leb_le in Hmd; lia.
Qed.

Lemma add_days_valid (d d' : date) (k : Z) :
  add_days d k = Ok d' -> valid_dateb d' = true.
Proof.
  unfold add_days.
  destruct ((0 <? ymd2ord d + k) && (ymd2ord d + k <=? MAXORDINAL)) eqn:E;
    [|discriminate].
  intros [= <-]. apply andb_true_iff in E. destruct E as [E1 E2].
  apply Z.ltb_lt in E1. apply Z.leb_le in E2.
  apply ord2ymd_valid. lia.
Qed.

(** The ordinals from the first day of the year 1000 are dates of the years
    from 1000. *)
Lemma ord2ymd_year_1000 (n : Z) :
  364878 <= n <= MAXORDINAL -> 1000 <= year (ord2ymd n).
Proof.
  unfold MAXORDINAL. intros Hn. unfold ord2ymd.
  set (n0 := n - 1).
  set (n400 := n0 / DI400Y). set (r1 := n0 mod DI400Y).
  set (n100 := r1 / DI100Y). set (r2 := r1 mod DI100Y).
  set (n4 := r2 / DI4Y). set (r3 := r2 mod DI4Y).
  set (n1 := r3 / 365). set (r4 := r3 mod 365).
  cbv zeta.
  assert (Hdiv :
            n0 = DI400Y * n400 + r1 /\ 0 <= r1 < DI400Y
            /\ r1 = DI100Y * n100 + r2 /\ 0 <= r2 < DI100Y
            /\ r2 = DI4Y * n4 + r3 /\ 0 <= r3 < DI4Y
            /\ r3 = 365 * n1 + r4 /\ 0 <= r4 < 365).
  { unfold n400, r1, n100, r2, n4, r3, n1, r4, DI400Y, DI100Y, DI4Y.
    repeat split;
      try (apply Z.div_mod; lia);
      try (apply Z.mod_pos_bound; lia). }
  unfold DI400Y, DI100Y, DI4Y in Hdiv.
  destruct Hdiv as (E0 & B1 & E1 & B2 & E2 & B3 & E3 & B4).
  assert (Hn0 : 364877 <= n0 <= 3652058) by (unfold n0; lia).
  clearbody n400 r1 n100 r2 n4 r3 n1 r4 n0.
  destruct ((n1 =? 4) || (n100 =? 4)) eqn:Hadj.
  - apply orb_true_iff in Hadj. rewrite !Z.eqb_eq in Hadj.
    cbn [year]. lia.
  - apply orb_false_iff in Hadj. rewrite !Z.eqb_neq in Hadj.
    destruct (r4 <? _); cbn [year]; lia.
Qed.

Lemma ymd2ord_year_1000 (d : date) :
  clock_ok d -> 364878 <= ymd2ord d.
Proof.
  intros [V Hy]. apply valid_date_bounds in V. destruct V as (_ & Hm & Hd).
  pose proof (days_before_year_le 1000 (year d) Hy) as Hle.
  pose proof (days_before_month_nonneg (year d) (month d) Hm) as Hnn.
  change (days_before_year 1000) with 364877 in Hle.
  unfold ymd2ord. lia.
Qed.

(** A later day than a clock reading is a clock reading. *)
Lemma add_days_clock_ok (d d' : date) (k : Z) :
  clock_ok d -> 0 <= k -> add_days d k = Ok d' -> clock_ok d'.
Proof.
  intros Hd Hk Hadd. split; [eapply add_days_valid; exact Hadd|].
  pose proof (ymd2ord_year_1000 d Hd) as Hord.
  unfold add_days in Hadd.
  destruct ((0 <? ymd2ord d + k) && (ymd2ord d + k <=? MAXORDINAL)) eqn:E;
    [|discriminate].
  injection Hadd as <-. apply andb_true_iff in E. destruct E as [_ E2].
  apply Z.leb_le in E2. apply ord2ymd_year_1000. lia.
Qed.

Lemma month_and_day_ord_checked (leapyear : bool) :
  forallb (month_and_day_ord_ok leapyear) (seq 0 365) = true.
Proof. destruct leapyear; vm_compute; reflexivity. Qed.

Lemma month_and_day_ord (leapyear : bool) (n : Z) :
  0 <= n < 365 ->
  month_and_day_ord_ok leapyear (Z.to_nat n) = true.
Proof.
  intros Hn.
  pose proof (month_and_day_ord_checked leapyear) as H.
  rewrite forallb_forall in H. apply H. apply in_seq. lia.
Qed.

(** [date.fromordinal(n).toordinal() == n] *)
Lemma ymd2ord_ord2ymd (n : Z) :
  1 <= n <= MAXORDINAL -> ymd2ord (ord2ymd n) = n.
Proof.
  unfold MAXORDINAL. intros Hn. unfold ord2ymd.
  set (n0 := n - 1).
  set (n400 := n0 / DI400Y). set (r1 := n0 mod DI400Y).
  set (n100 := r1 / DI100Y). set (r2 := r1 mod DI100Y).
  set (n4 := r2 / DI4Y). set (r3 := r2 mod DI4Y).
  set (n1 := r3 / 365). set (r4 := r3 mod 365).
  cbv zeta.
  assert (Hdiv :
            n0 = DI400Y * n400 + r1 /\ 0 <= r1 < DI400Y
            /\ r1 = DI100Y * n100 + r2 /\ 0 <= r2 < DI100Y
            /\ r2 = DI4Y * n4 + r3 /\ 0 <= r3 < DI4Y
            /\ r3 = 365 * n1 + r4 /\ 0 <= r4 < 365).
  { unfold n400, r1, n100, r2, n4, r3, n1, r4, DI400Y, DI100Y, DI4Y.
    repeat split;
      try (apply Z.div_mod; lia);
      try (apply Z.mod_pos_bound; lia). }
  unfold DI400Y, DI100Y, DI4Y in Hdiv.
  destruct Hdiv as (E0 & B1 & E1 & B2 & E2 & B3 & E3 & B4).
  assert (Hn0 : 0 <= n0 <= 3652058) by (unfold n0; lia).
  assert (En : n = n0 + 1) by (unfold n0; lia).
  clearbody n400 r1 n100 r2 n4 r3 n1 r4 n0.
  destruct ((n1 =? 4) || (n100 =? 4)) eqn:Hadj.
  - apply orb_true_iff in Hadj. rewrite !Z.eqb_eq in Hadj.
    unfold ymd2ord, days_before_month. cbn [year month day].
    set (y := n400 * 400 + 1 + n100 * 100 + n4 * 4 + n1 - 1).
    assert (Hcase : n1 = 4 /\ 0 <= n100 <= 3 /\ 0 <= n4 <= 23
                    /\ y = 4 * (n400 * 100 + n100 * 25 + n4 + 1)
                    \/ n100 = 4 /\ n4 = 0 /\ n1 = 0
                       /\ y = 400 * (n400 + 1))
      by (unfold y; destruct Hadj; [left | right]; lia).
    assert (H400 : 0 <= n400) by lia.
    clearbody y.
    assert (Hleap : is_leap y = true).
    { unfold is_leap.
      destruct (y mod 4 =? 0) eqn:E4; destruct (y mod 100 =? 0) eqn:E100;
        destruct (y mod 400 =? 0) eqn:E400; cbn [andb orb negb];
        rewrite ?Z.eqb_eq, ?Z.eqb_neq in *; try reflexivity;
        exfalso; Z.div_mod_to_equations; lia. }
    rewrite Hleap. change (Z.to_nat 12) with 12%nat.
    cbn [nth DAYS_BEFORE_MONTH Z.ltb Z.compare Pos.compare Pos.compare_cont
           andb].
    unfold days_before_year. Z.div_mod_to_equations. lia.
  - apply orb_false_iff in Hadj. rewrite !Z.eqb_neq in Hadj.
    set (y := n400 * 400 + 1 + n100 * 100 + n4 * 4 + n1).
    set (leapyear := (n1 =? 3) && (negb (n4 =? 24) || (n100 =? 3))).
    assert (Hy : 1 <= y <= 9999) by (unfold y; lia).
    assert (Hleap : is_leap y = leapyear).
    { unfold is_leap, leapyear.
      assert (H4 : y mod 4 = (n1 + 1) mod 4).
      { unfold y. replace (n400 * 400 + 1 + n100 * 100 + n4 * 4 + n1)
          with (n1 + 1 + (n400 * 100 + n100 * 25 + n4) * 4) by lia.
        apply Z.mod_add. lia. }
      assert (H100 : y mod 100 = (n4 * 4 + n1 + 1) mod 100).
      { unfold y. replace (n400 * 400 + 1 + n100 * 100 + n4 * 4 + n1)
          with (n4 * 4 + n1 + 1 + (n400 * 4 + n100) * 100) by lia.
        apply Z.mod_add. lia. }
      assert (H400 : y mod 400 = (n100 * 100 + n4 * 4 + n1 + 1) mod 400).
      { unfold y. replace (n400 * 400 + 1 + n100 * 100 + n4 * 4 + n1)
          with (n100 * 100 + n4 * 4 + n1 + 1 + n400 * 400) by lia.
        apply Z.mod_add. lia. }
      rewrite H4, H100, H400.
      destruct (n1 =? 3) eqn:E13; destruct (n4 =? 24) eqn:E424;
        destruct (n100 =? 3) eqn:E1003;
        rewrite ?Z.eqb_eq, ?Z.eqb_neq in *; cbn [andb orb negb];
        repeat match goal with
               | |- context [?a mod ?b =? 0] =>
                   let E := fresh "E" in
                   destruct (a mod b =? 0) eqn:E;
                   rewrite ?Z.eqb_eq, ?Z.eqb_neq in E
               end;
        cbn [andb orb negb]; try reflexivity;
        exfalso; Z.div_mod_to_equations; lia. }
    assert (Hdby : days_before_year y = n0 - r4).
    { unfold days_before_year, y. Z.div_mod_to_equations. lia. }
    pose proof (month_and_day_ord leapyear r4 B4) as Hmd.
    unfold month_and_day_ord_ok, month_and_day in Hmd.
    rewrite Z2Nat.id in Hmd by lia. cbv zeta in Hmd.
    fold leapyear.
    destruct (r4 <? _) eqn:Hpre;
      unfold ymd2ord, days_before_month; cbn [year month day]; fold y;
      rewrite Hleap, Hdby; apply Z.eqb_eq in Hmd; lia.
Qed.

(** [(d + timedelta(days=k)).toordinal() == d.toordinal() + k] *)
Lemma add_days_ordinal (d d' : date) (k : Z) :
  add_days d k = Ok d' -> ymd2ord d' = ymd2ord d + k.
Proof.
  unfold add_days.
  destruct ((0 <? ymd2ord d + k) && (ymd2ord d + k <=? MAXORDINAL)) eqn:E;
    [|discriminate].
  intros [= <-]. apply andb_true_iff in E. destruct E as [E1 E2].
  apply Z.ltb_lt in E1. apply Z.leb_le in E2.
  apply ymd2ord_ord2ymd. lia.
Qed.

(** ** Borrow and return, as equations *)

Ltac run_handler :=
  cbn [bind ret handler_monad outcome_monad lift read
       write_book_db write_user_db write_loan_db
       book_db_setitem book_db_getitem book_db_delitem
       user_db_setitem user_db_getitem user_db_delitem
       loan_db_setitem loan_db_getitem loan_assign
       book_db user_db loan_db negb fst snd].

Lemma borrow_book_eq (borrow : BorrowModel.t) (now1 now2 : date) (st : State) :
  borrow_book borrow now1 now2 st =
  match OD.get (BorrowModel.book_id borrow) (book_db st) with
  | None => (NotFound "Book", st)
  | Some book =>
      if Book.copies_available book <=? 0 then (Unavailable, st)
      else
        match add_days now2 14 with
        | Ok due =>
            let new_id := OD.next_id (loan_db st) in
            let loan := borrowed_loan_of borrow now1 due in
            (Ok (mkBorrowResponse new_id "Book borrowed successfully" loan),
             mkState
               (OD.set (BorrowModel.book_id borrow)
                  (Book.set_copies_available book
                     (Book.copies_available book - 1))
                  (book_db st))
               (user_db st)
               (loan_db st ++ [(new_id, loan)]))
        | HTTPException c d => (HTTPException c d, st)
        | Raised e => (Raised e, st)
        end
  end.
Proof.
  unfold borrow_book, OD.mem, getitem. run_handler.
  destruct (OD.get (BorrowModel.book_id borrow) (book_db st)) as [book|] eqn:Hb;
    run_handler; [|reflexivity].
  unfold getitem. rewrite Hb. run_handler.
  destruct (Book.copies_available book <=? 0); [reflexivity|].
  destruct (add_days now2 14) as [due|c d|e]; run_handler; try reflexivity.
  unfold getitem. rewrite Hb, get_set_same.
  rewrite (set_absent _ _ _ (next_id_fresh (loan_db st))).
  reflexivity.
Qed.

Lemma return_book_eq (return_data : ReturnModel.t) (now : date) (st : State) :
  return_book return_data now st =
  let k := ReturnModel.loan_id return_data in
  match OD.get k (loan_db st) with
  | None => (NotFound "Loan", st)
  | Some loan =>
      if String.eqb (Loan.status loan) "returned" then (Conflict, st)
      else
        let loan' := returned_loan_of loan now in
        let loans' := OD.set k loan' (loan_db st) in
        match OD.get (Loan.book_id loan) (book_db st) with
        | None => (Raised KeyError, mkState (book_db st) (user_db st) loans')
        | Some book =>
            (Ok (mkReturnResponse "Book returned successfully" loan'),
             mkState
               (OD.set (Loan.book_id loan)
                  (Book.set_copies_available book
                     (Book.copies_available book + 1))
                  (book_db st))
               (user_db st) loans')
        end
  end.
Proof.
  unfold return_book, OD.mem, getitem. run_handler.
  destruct (OD.get (ReturnModel.loan_id return_data) (loan_db st))
    as [loan|] eqn:Hl; run_handler; [|reflexivity].
  unfold getitem. rewrite Hl. run_handler.
  destruct (String.eqb (Loan.status loan) "returned"); [reflexivity|].
  rewrite Hl. run_handler. rewrite !get_set_same. run_handler.
  rewrite set_set_same. rewrite !get_set_same.
  unfold Loan.set_status, Loan.set_return_date, returned_loan_of.
  cbn [Loan.book_id Loan.user_id Loan.loan_date Loan.due_date
       Loan.return_date Loan.status].
  destruct (OD.get (Loan.book_id loan) (book_db st)) as [book|];
    run_handler; reflexivity.
Qed.

(** ** Borrowing *)

(** C1. [borrow_book] reads the clock twice: the first reading [now1]
    dates the loan, and the loan is due on [due], fourteen days after the
    second reading [now2].  A borrow request for a book that is in the book
    store with [copies_available > 0] succeeds: the loan store gains exactly
    one entry, under the identifier [max(existing) + 1] (or 1 for an empty
    store); that loan is active and has no return date; and the book's
    [copies_available] goes down by exactly one.  The loan is due fourteen
    days after its loan date plus the days from the first reading to the
    second: fourteen with both readings on one day, fifteen with midnight
    between them. *)
Theorem borrow_dates_from_two_clock_readings
  (st : State) (borrow : BorrowModel.t) (now1 now2 due : date)
  (book : Book.t) :
  OD.get (BorrowModel.book_id borrow) (book_db st) = Some book ->
  0 < Book.copies_available book ->
  add_days now2 14 = Ok due ->
  exists (new_id : Z) (st' : State) (book' : Book.t),
    let loan :=
      Loan.mk (BorrowModel.book_id borrow) (BorrowModel.user_id borrow)
        (strftime now1) (strftime due) None "active" in
    borrow_book borrow now1 now2 st
    = (Ok (mkBorrowResponse new_id "Book borrowed successfully" loan), st')
    /\ is_next_id (OD.keys (loan_db st)) new_id
    /\ OD.get new_id (loan_db st) = None
    /\ loan_db st' = loan_db st ++ [(new_id, loan)]
    /\ OD.get (BorrowModel.book_id borrow) (book_db st') = Some book'
    /\ book' = Book.set_copies_available book (Book.copies_available book - 1)
    /\ Book.copies_available book' = Book.copies_available book - 1
    /\ days_between due now1 = 14 + days_between now2 now1.
Proof.
  intros Hbook Hpos Hdue.
  pose proof (add_days_ordinal now2 due 14 Hdue) as Hord.
  exists (OD.next_id (loan_db st)).
  rewrite borrow_book_eq, Hbook, Hdue.
  destruct (Book.copies_available book <=? 0) eqn:E;
    [apply Z.leb_le in E; lia|].
  eexists. eexists. cbn zeta.
  split; [reflexivity|].
  split; [apply next_id_spec|].
  split; [apply next_id_fresh|].
  split; [reflexivity|].
  cbn [book_db]. rewrite get_set_same.
  split; [reflexivity|]. split; [reflexivity|]. split; [reflexivity|].
  unfold days_between. lia.
Qed.

(** The request for book 1 on the seeded stores, handled while the day
    changes from 2025-12-01 to 2025-12-02: the loan is dated 2025-12-01 and
    due on 2025-12-16, although fourteen days after its loan date is
    2025-12-15. *)
Lemma borrow_dates_from_two_clock_readings_witness :
  add_days (mkdate 2025 12 1) 14 = Ok (mkdate 2025 12 15)
  /\ strftime (mkdate 2025 12 15) = "2025-12-15"
  /\ exists (new_id : Z) (st' : State) (book' : Book.t),
       borrow_book (BorrowModel.mk 1 1) (mkdate 2025 12 1) (mkdate 2025 12 2)
         initial_state
       = (Ok (mkBorrowResponse new_id "Book borrowed successfully"
                (Loan.mk 1 1 "2025-12-01" "2025-12-16" None "active")), st')
       /\ is_next_id [1; 2; 3] new_id
       /\ OD.get new_id loan_db_seed = None
       /\ loan_db st'
          = loan_db_seed
            ++ [(new_id,
                 Loan.mk 1 1 "2025-12-01" "2025-12-16" None "active")]
       /\ OD.get 1 (book_db st') = Some book'
       /\ book' = Book.mk "1984" "George Orwell" "9780451524935" 1949 3
       /\ Book.copies_available book' = 4 - 1
       /\ days_between (mkdate 2025 12 16) (mkdate 2025 12 1) = 14 + 1.
Proof.
  split; [reflexivity|]. split; [reflexivity|].
  exact (borrow_dates_from_two_clock_readings initial_state
           (BorrowModel.mk 1 1)
           (mkdate 2025 12 1) (mkdate 2025 12 2) (mkdate 2025 12 16)
           (Book.mk "1984" "George Orwell" "9780451524935" 1949 4)
           eq_refl eq_refl eq_refl).
Defined.

(** C4. A borrow request for a book that exists but has
    [copies_available <= 0] fails with the availability error and leaves
    every store as it was: no loan is created and no counter moves. *)
Theorem borrow_unavailable_changes_nothing
  (st : State) (borrow : BorrowModel.t) (now1 now2 : date) (book : Book.t) :
  OD.get (BorrowModel.book_id borrow) (book_db st) = Some book ->
  Book.copies_available book <= 0 ->
  borrow_book borrow now1 now2 st = (Unavailable, st).
Proof.
  intros Hbook Hle. rewrite borrow_book_eq, Hbook.
  destruct (Book.copies_available book <=? 0) eqn:E; [reflexivity|].
  apply Z.leb_gt in E. lia.
Qed.

Lemma borrow_unavailable_changes_nothing_witness :
  borrow_book (BorrowModel.mk 7 2) (mkdate 2025 12 1) (mkdate 2025 12 1)
    sold_out_state
  = (HTTPException 400 "Book not available", sold_out_state).
Proof.
  apply (borrow_unavailable_changes_nothing sold_out_state
           (BorrowModel.mk 7 2) (mkdate 2025 12 1) (mkdate 2025 12 1)
           (Book.mk "Emma" "Jane Austen" "9780141439587" 1815 0)).
  - reflexivity.
  - simpl. lia.
Defined.

(** C9. A successful borrow writes only the [copies_available] field of the
    borrowed book and one new entry of the loan store: the user store, every
    other book, the other fields of the borrowed book and every loan that
    was there before are as they were. *)
Theorem borrow_frame
  (st st' : State) (borrow : BorrowModel.t) (now1 now2 : date)
  (resp : BorrowResponse) :
  borrow_book borrow now1 now2 st = (Ok resp, st') ->
  user_db st' = user_db st
  /\ OD.keys (book_db st') = OD.keys (book_db st)
  /\ (forall k, k <> BorrowModel.book_id borrow ->
        OD.get k (book_db st') = OD.get k (book_db st))
  /\ (exists book,
        OD.get (BorrowModel.book_id borrow) (book_db st) = Some book
        /\ OD.get (BorrowModel.book_id borrow) (book_db st')
           = Some (Book.set_copies_available book
                     (Book.copies_available book - 1)))
  /\ (exists loan,
        OD.get (borrowed_loan_id resp) (loan_db st) = None
        /\ loan_db st' = loan_db st ++ [(borrowed_loan_id resp, loan)])
  /\ (forall k l, OD.get k (loan_db st) = Some l ->
        OD.get k (loan_db st') = Some l).
Proof.
  rewrite borrow_book_eq.
  destruct (OD.get (BorrowModel.book_id borrow) (book_db st))
    as [book|] eqn:Hbook; [|discriminate].
  destruct (Book.copies_available book <=? 0); [discriminate|].
  destruct (add_days now2 14) as [due|c d|e]; try discriminate.
  cbn zeta. intros [= <- <-]. cbn [book_db user_db loan_db borrowed_loan_id].
  split; [reflexivity|].
  split; [eapply keys_set_present; eassumption|].
  split; [intros k Hk; now apply get_set_other|].
  split; [exists book; split; [reflexivity | apply get_set_same]|].
  split.
  - eexists. split; [apply next_id_fresh | reflexivity].
  - intros k l Hget.
    rewrite <- (set_absent _ _ _ (next_id_fresh (loan_db st))).
    rewrite get_set_other; [exact Hget|].
    intros ->. rewrite next_id_fresh in Hget. discriminate.
Qed.

Lemma borrow_frame_witness :
  exists st' resp,
    borrow_book (BorrowModel.mk 2 3) (mkdate 2025 12 1) (mkdate 2025 12 1)
      initial_state = (Ok resp, st')
    /\ user_db st' = user_db_seed
    /\ OD.keys (book_db st') = [1; 2; 3; 4; 5]
    /\ OD.get 5 (book_db st') = OD.get 5 book_db_seed
    /\ OD.get 3 (loan_db st') = OD.get 3 loan_db_seed.
Proof.
  exists (snd (borrow_book (BorrowModel.mk 2 3) (mkdate 2025 12 1)
                 (mkdate 2025 12 1) initial_state)).
  exists (mkBorrowResponse 4 "Book borrowed successfully"
            (Loan.mk 2 3 "2025-12-01" "2025-12-15" None "active")).
  split; [reflexivity|].
  destruct (borrow_frame initial_state _ (BorrowModel.mk 2 3)
              (mkdate 2025 12 1) (mkdate 2025 12 1) _
              (eq_refl
                 : borrow_book (BorrowModel.mk 2 3) (mkdate 2025 12 1)
                     (mkdate 2025 12 1) initial_state
                   = (Ok (mkBorrowResponse 4 "Book borrowed successfully"
                            (Loan.mk 2 3 "2025-12-01" "2025-12-15" None
                               "active")),
                      snd (borrow_book (BorrowModel.mk 2 3)
                             (mkdate 2025 12 1) (mkdate 2025 12 1)
                             initial_state))))
    as (Hu & Hk & Hb & _ & _ & Hl).
  split; [exact Hu|]. split; [exact Hk|].
  split; [apply Hb; discriminate|].
  apply Hl. reflexivity.
Defined.

(** ** Returning *)

(** C3. Returning a loan whose status is already [returned] fails with the
    conflict error and leaves every store exactly as it was: the loan, the
    counter of the book it refers to, and everything else. *)
Theorem return_twice_conflict
  (st : State) (return_data : ReturnModel.t) (now : date) (loan : Loan.t) :
  OD.get (ReturnModel.loan_id return_data) (loan_db st) = Some loan ->
  Loan.status loan = "returned" ->
  return_book return_data now st = (Conflict, st).
Proof.
  intros Hloan Hst. rewrite return_book_eq. cbn zeta.
  rewrite Hloan, Hst. reflexivity.
Qed.

Lemma return_twice_conflict_witness :
  return_book (ReturnModel.mk 1) (mkdate 2025 12 1) initial_state
  = (HTTPException 400 "Book already returned", initial_state).
Proof.
  exact (return_twice_conflict initial_state (ReturnModel.mk 1)
           (mkdate 2025 12 1)
           (Loan.mk 1 1 "2025-11-01" "2025-11-15" (Some "2025-11-14")
              "returned")
           eq_refl eq_refl).
Defined.

(** Returning an active loan whose book is in the book store: the loan is
    marked returned today and the book's counter goes up by one. *)
Lemma return_active_loan
  (st : State) (return_data : ReturnModel.t) (today : date)
  (loan : Loan.t) (book : Book.t) :
  OD.get (ReturnModel.loan_id return_data) (loan_db st) = Some loan ->
  Loan.status loan = "active" ->
  OD.get (Loan.book_id loan) (book_db st) = Some book ->
  return_book return_data today st
  = (Ok (mkReturnResponse "Book returned successfully"
           (returned_loan_of loan today)),
     mkState
       (OD.set (Loan.book_id loan)
          (Book.set_copies_available book (Book.copies_available book + 1))
          (book_db st))
       (user_db st)
       (OD.set (ReturnModel.loan_id return_data)
          (returned_loan_of loan today) (loan_db st))).
Proof.
  intros Hloan Hst Hbook. rewrite return_book_eq. cbn zeta.
  rewrite Hloan, Hst, Hbook. reflexivity.
Qed.

(** Returning an active loan whose book has been deleted: the loan is
    written first, then the lookup of the book raises. *)
Lemma return_dangling_loan
  (st : State) (return_data : ReturnModel.t) (today : date) (loan : Loan.t) :
  OD.get (ReturnModel.loan_id return_data) (loan_db st) = Some loan ->
  Loan.status loan = "active" ->
  OD.get (Loan.book_id loan) (book_db st) = None ->
  return_book return_data today st
  = (Raised KeyError,
     mkState (book_db st) (user_db st)
       (OD.set (ReturnModel.loan_id return_data)
          (returned_loan_of loan today) (loan_db st))).
Proof.
  intros Hloan Hst Hbook. rewrite return_book_eq. cbn zeta.
  rewrite Hloan, Hst, Hbook. reflexivity.
Qed.

(** C2. The return of an active loan whose book is no longer in the book
    store: after [DELETE /books/2] on the seeded stores, loan 2 is still
    active; returning it marks the loan returned and then raises
    [KeyError] at the lookup of the book, so the request fails between the
    two writes and no counter is incremented. *)
Theorem return_after_delete_raises (today : date) :
  let st := exec (DeleteBook 2) initial_state in
  reachable st
  /\ OD.get 2 (loan_db st)
     = Some (Loan.mk 2 2 "2025-11-10" "2025-11-24" None "active")
  /\ OD.get 2 (book_db st) = None
  /\ return_book (ReturnModel.mk 2) today st
     = (Raised KeyError,
        mkState (book_db st) (user_db st)
          [ (1, Loan.mk 1 1 "2025-11-01" "2025-11-15" (Some "2025-11-14")
                  "returned");
            (2, Loan.mk 2 2 "2025-11-10" "2025-11-24"
                  (Some (strftime today)) "returned");
            (3, Loan.mk 3 1 "2025-11-15" "2025-11-29" None "active") ]).
Proof.
  intros st.
  split; [apply reachable_step, reachable_init|].
  split; [reflexivity|]. split; [reflexivity|].
  rewrite (return_dangling_loan st (ReturnModel.mk 2) today
             (Loan.mk 2 2 "2025-11-10" "2025-11-24" None "active")
             eq_refl eq_refl eq_refl).
  reflexivity.
Qed.

(** ** Books: create, read, update *)

Lemma add_book_eq (book : Book.t) (st : State) :
  add_book book st
  = (Ok book,
     mkState (book_db st ++ [(OD.next_id (book_db st), book)])
       (user_db st) (loan_db st)).
Proof.
  unfold add_book. run_handler. unfold lift, getitem.
  rewrite get_set_same.
  now rewrite (set_absent _ _ _ (next_id_fresh (book_db st))).
Qed.

Lemma get_book_eq (book_id : Z) (st : State) :
  get_book book_id st
  = (match OD.get book_id (book_db st) with
     | Some book => Ok book
     | None => NotFound "Book"
     end, st).
Proof.
  unfold get_book, OD.mem, getitem. run_handler.
  destruct (OD.get book_id (book_db st)) as [book|] eqn:E; run_handler.
  - unfold getitem. now rewrite E.
  - reflexivity.
Qed.

Lemma update_book_eq (book : Book.t) (book_id : Z) (st : State) :
  update_book book book_id st
  = match OD.get book_id (book_db st) with
    | Some _ =>
        (Ok book,
         mkState (OD.set book_id book (book_db st)) (user_db st) (loan_db st))
    | None => (NotFound "Book", st)
    end.
Proof.
  unfold update_book, OD.mem, getitem. run_handler.
  destruct (OD.get book_id (book_db st)) as [old|] eqn:E; run_handler.
  - unfold lift, getitem. now rewrite get_set_same.
  - reflexivity.
Qed.

Lemma delete_book_eq (book_id : Z) (st : State) :
  delete_book book_id st
  = match OD.get book_id (book_db st) with
    | Some _ =>
        (Ok (mkDeleted "Book deleted successfully" book_id),
         mkState (OD.del book_id (book_db st)) (user_db st) (loan_db st))
    | None => (NotFound "Book", st)
    end.
Proof.
  unfold delete_book, OD.mem. run_handler.
  destruct (OD.get book_id (book_db st)); reflexivity.
Qed.

(** A read after a successful update returns what the update wrote. *)
Lemma get_book_after_update
  (book resp : Book.t) (book_id : Z) (st st' : State) :
  update_book book book_id st = (Ok resp, st') ->
  resp = book /\ get_book book_id st' = (Ok book, st').
Proof.
  rewrite update_book_eq.
  destruct (OD.get book_id (book_db st)); [|discriminate].
  intros [= <- <-]. split; [reflexivity|].
  rewrite get_book_eq. cbn [book_db]. now rewrite get_set_same.
Qed.

(** A write to one identifier is not seen by a read of another. *)
Lemma get_book_other_update
  (book resp : Book.t) (k k' : Z) (st st' : State) :
  update_book book k st = (Ok resp, st') ->
  k' <> k ->
  fst (get_book k' st') = fst (get_book k' st).
Proof.
  rewrite update_book_eq.
  destruct (OD.get k (book_db st)); [|discriminate].
  intros [= <- <-] Hne. rewrite !get_book_eq. cbn [fst book_db].
  now rewrite get_set_other.
Qed.

(** C7. Create a book [b]: it is stored under the next identifier [i], and
    reading [i] returns [b].  Update [i] with [b']: the update succeeds, and
    reading [i] again returns [b'].  Each read returns the last record
    written under the identifier. *)
Theorem book_round_trip (st : State) (b b' : Book.t) :
  let i := OD.next_id (book_db st) in
  exists st1 st2 : State,
    add_book b st = (Ok b, st1)
    /\ book_db st1 = book_db st ++ [(i, b)]
    /\ get_book i st1 = (Ok b, st1)
    /\ update_book b' i st1 = (Ok b', st2)
    /\ get_book i st2 = (Ok b', st2).
Proof.
  intros i. rewrite add_book_eq.
  eexists. eexists. split; [reflexivity|]. split; [reflexivity|].
  assert (Hget : OD.get i (book_db st ++ [(i, b)]) = Some b).
  { rewrite <- (set_absent _ _ _ (next_id_fresh (book_db st))).
    apply get_set_same. }
  split.
  - rewrite get_book_eq. cbn [book_db]. fold i. now rewrite Hget.
  - rewrite update_book_eq. cbn [book_db]. fold i. rewrite Hget.
    split; [reflexivity|].
    rewrite get_book_eq. cbn [book_db]. now rewrite get_set_same.
Qed.

(** ** Users: the credential rule *)

Lemma create_user_eq (user : UserModel.t) (st : State) :
  create_user user st
  = if rejected user then (ValidationFailed, st)
    else
      (Ok (stored_user user),
       mkState (book_db st)
         (user_db st ++ [(OD.next_id (user_db st), stored_user user)])
         (loan_db st)).
Proof.
  unfold create_user, rejected, stored_user, getitem.
  destruct (_ && _); [reflexivity|]. run_handler. unfold lift, getitem.
  rewrite get_set_same.
  now rewrite (set_absent _ _ _ (next_id_fresh (user_db st))).
Qed.

Lemma update_user_eq (user : UserModel.t) (user_id : Z) (st : State) :
  update_user user user_id st
  = match OD.get user_id (user_db st) with
    | None => (NotFound "User", st)
    | Some _ =>
        if rejected user then (ValidationFailed, st)
        else
          (Ok (stored_user user),
           mkState (book_db st)
             (OD.set user_id (stored_user user) (user_db st))
             (loan_db st))
    end.
Proof.
  unfold update_user, rejected, stored_user, OD.mem, getitem. run_handler.
  destruct (OD.get user_id (user_db st)); run_handler; [|reflexivity].
  destruct (_ && _); [reflexivity|]. run_handler. unfold lift, getitem.
  now rewrite get_set_same.
Qed.

Lemma delete_user_eq (user_id : Z) (st : State) :
  delete_user user_id st
  = match OD.get user_id (user_db st) with
    | Some _ =>
        (Ok (mkDeleted "User deleted successfully" user_id),
         mkState (book_db st) (OD.del user_id (user_db st)) (loan_db st))
    | None => (NotFound "User", st)
    end.
Proof.
  unfold delete_user, OD.mem. run_handler.
  destruct (OD.get user_id (user_db st)); reflexivity.
Qed.

Lemma falsy_iff (s : option string) : falsy s = true <-> missing_or_empty s.
Proof.
  unfold missing_or_empty. destruct s as [s|]; simpl.
  - rewrite String.eqb_eq. split.
    + intros ->. now right.
    + intros [H|H]; congruence.
  - split; auto.
Qed.

(** C6. With role [admin] and a username or password that is missing or
    empty, creating a user, and updating a user that exists, fail with the
    validation error and write nothing.  With role [member], creating a
    user, and updating a user that exists, store a record with neither a
    [username] nor a [password] key, whatever the request supplied. *)
Theorem user_credentials_rule
  (st : State) (user : UserModel.t) (user_id : Z) :
  (UserModel.role user = "admin" ->
   missing_or_empty (UserModel.username user)
   \/ missing_or_empty (UserModel.password user) ->
   create_user user st = (ValidationFailed, st)
   /\ (OD.mem user_id (user_db st) = true ->
       update_user user user_id st = (ValidationFailed, st)))
  /\ (UserModel.role user = "member" ->
      exists record : User.t,
        User.username record = None
        /\ User.password record = None
        /\ User.name record = UserModel.name user
        /\ User.email record = UserModel.email user
        /\ User.role record = "member"
        /\ (exists st1 : State,
              create_user user st = (Ok record, st1)
              /\ user_db st1
                 = user_db st ++ [(OD.next_id (user_db st), record)]
              /\ OD.get (OD.next_id (user_db st)) (user_db st1)
                 = Some record)
        /\ (OD.mem user_id (user_db st) = true ->
            exists st2 : State,
              update_user user user_id st = (Ok record, st2)
              /\ OD.get user_id (user_db st2) = Some record)).
Proof.
  rewrite create_user_eq, update_user_eq. split.
  - intros Hrole Hmiss.
    assert (Hrej : rejected user = true).
    { unfold rejected. rewrite Hrole. cbn [String.eqb].
      apply andb_true_iff. split; [reflexivity|].
      apply orb_true_iff. now rewrite !falsy_iff. }
    rewrite Hrej. split; [reflexivity|].
    intros Hmem. apply mem_get in Hmem. destruct Hmem as [old ->].
    reflexivity.
  - intros Hrole.
    assert (Hrej : rejected user = false).
    { unfold rejected. now rewrite Hrole. }
    assert (Hst : stored_user user
                  = User.mk (UserModel.name user) (UserModel.email user)
                      "member" None None).
    { unfold stored_user, User.pop_password, User.pop_username,
        User.model_dump.
      rewrite Hrole. reflexivity. }
    rewrite Hrej, Hst.
    exists (User.mk (UserModel.name user) (UserModel.email user)
              "member" None None).
    do 5 (split; [reflexivity|]). split.
    + eexists. split; [reflexivity|]. cbn [user_db].
      split; [reflexivity|].
      rewrite <- (set_absent _ _ _ (next_id_fresh (user_db st))).
      apply get_set_same.
    + intros Hmem. apply mem_get in Hmem. destruct Hmem as [old ->].
      eexists. split; [reflexivity|]. cbn [user_db]. apply get_set_same.
Qed.

Lemma user_credentials_rule_witness :
  (create_user admin_without_password initial_state
   = (HTTPException 400 "Admin users must have username and password",
      initial_state)
   /\ update_user admin_without_password 2 initial_state
      = (HTTPException 400 "Admin users must have username and password",
         initial_state))
  /\ exists record : User.t,
       User.username record = None
       /\ User.password record = None
       /\ User.name record = "Max Miller"
       /\ User.email record = "max@example.com"
       /\ User.role record = "member"
       /\ (exists st1 : State,
             create_user member_with_credentials initial_state
             = (Ok record, st1)
             /\ user_db st1 = user_db_seed ++ [(5, record)]
             /\ OD.get 5 (user_db st1) = Some record)
       /\ exists st2 : State,
            update_user member_with_credentials 2 initial_state
            = (Ok record, st2)
            /\ OD.get 2 (user_db st2) = Some record.
Proof.
  split.
  - destruct (proj1 (user_credentials_rule initial_state
                       admin_without_password 2)
                eq_refl (or_intror (or_introl eq_refl)))
      as [Hcreate Hupdate].
    split; [exact Hcreate | exact (Hupdate eq_refl)].
  - destruct (proj2 (user_credentials_rule initial_state
                       member_with_credentials 2) eq_refl)
      as (record & Hu & Hp & Hn & He & Hr & Hcreate & Hupdate).
    exists record. do 5 (split; [assumption|]).
    split; [exact Hcreate | exact (Hupdate eq_refl)].
Defined.

(** ** Handlers that only read *)

Lemma readonly_ret {A} (a : A) : readonly (ret a).
Proof. intros st. reflexivity. Qed.

Lemma readonly_lift {A} (o : outcome A) : readonly (lift o).
Proof. intros st. reflexivity. Qed.

Lemma readonly_read {A} (f : State -> A) : readonly (read f).
Proof. intros st. reflexivity. Qed.

Lemma readonly_bind {A B} (m : handler A) (f : A -> handler B) :
  readonly m -> (forall a, readonly (f a)) -> readonly (bind m f).
Proof.
  intros Hm Hf st. cbn [bind handler_monad].
  specialize (Hm st). destruct (m st) as [[a|c d|e] st']; simpl in Hm; subst st'.
  - apply Hf.
  - reflexivity.
  - reflexivity.
Qed.

Lemma readonly_for_each {A S} (xs : list A) (body : A -> S -> handler S) :
  (forall x s, readonly (body x s)) -> forall s, readonly (for_each xs body s).
Proof.
  intros Hbody. induction xs as [|x xs IH]; intros s.
  - apply readonly_ret.
  - cbn [for_each]. apply readonly_bind; [apply Hbody | exact IH].
Qed.

Lemma readonly_getitem_book (k : Z) : readonly (book_db_getitem k).
Proof. intros st. reflexivity. Qed.

Ltac readonly_step :=
  match goal with
  | |- forall _, _ => intro
  | |- readonly (bind _ _) => apply readonly_bind
  | |- readonly (for_each _ _ _) => apply readonly_for_each
  | |- readonly (ret _) => apply readonly_ret
  | |- readonly (lift _) => apply readonly_lift
  | |- readonly (read _) => apply readonly_read
  | |- readonly (book_db_getitem _) => apply readonly_getitem_book
  | |- readonly (if ?c then _ else _) => destruct c
  | |- readonly (let (_, _) := ?p in _) => destruct p
  | |- readonly (match ?x with _ => _ end) => destruct x
  end.

Ltac solve_readonly := repeat readonly_step.

Lemma get_all_books_readonly : readonly get_all_books.
Proof. unfold get_all_books. solve_readonly. Qed.

Lemma get_book_readonly k : readonly (get_book k).
Proof. unfold get_book. solve_readonly. Qed.

Lemma get_all_users_readonly : readonly get_all_users.
Proof. unfold get_all_users. solve_readonly. Qed.

Lemma track_borrowing_readonly u b : readonly (track_borrowing u b).
Proof. unfold track_borrowing. solve_readonly. Qed.

Lemma list_borrowed_books_readonly : readonly list_borrowed_books.
Proof. unfold list_borrowed_books. solve_readonly. Qed.

Lemma check_availability_readonly k : readonly (check_availability k).
Proof. unfold check_availability. solve_readonly. Qed.

Lemma get_overdue_books_readonly now : readonly (get_overdue_books now).
Proof. unfold get_overdue_books, overdue_visit. solve_readonly. Qed.

Lemma get_most_borrowed_book_readonly : readonly get_most_borrowed_book.
Proof. unfold get_most_borrowed_book. solve_readonly. Qed.

Lemma get_borrowing_history_readonly u b s :
  readonly (get_borrowing_history u b s).
Proof. unfold get_borrowing_history. solve_readonly. Qed.

Lemma get_dashboard_stats_readonly now : readonly (get_dashboard_stats now).
Proof. unfold get_dashboard_stats. solve_readonly. Qed.

(** ** Invariants of the loan store *)

(** A property of loans that a new loan has and that returning a loan
    keeps holds of every loan of every reachable state, once it holds of
    the seeded loans: no other request writes the loan store. *)
Section LoanInvariant.

Variable P : Loan.t -> Prop.
Variable Q : date -> Prop.

Hypothesis P_borrowed :
  forall borrow now1 now2 due,
    Q now2 -> add_days now2 14 = Ok due ->
    P (borrowed_loan_of borrow now1 due).

Hypothesis P_returned :
  forall loan now, P loan -> P (returned_loan_of loan now).

Lemma borrow_book_every_loan borrow now1 now2 st :
  Q now2 ->
  every_loan P st -> every_loan P (snd (borrow_book borrow now1 now2 st)).
Proof.
  intros Hnow Hok. rewrite borrow_book_eq.
  destruct (OD.get _ (book_db st)) as [book|]; [|exact Hok].
  destruct (_ <=? 0); [exact Hok|].
  destruct (add_days now2 14) as [due|c d|e] eqn:Hdue; try exact Hok.
  intros k l. cbn. rewrite in_app_iff. intros [Hin|[[= <- <-]|[]]].
  - eapply Hok; eassumption.
  - eapply P_borrowed; eassumption.
Qed.

Lemma return_book_every_loan return_data now st :
  every_loan P st -> every_loan P (snd (return_book return_data now st)).
Proof.
  intros Hok. rewrite return_book_eq. cbn zeta.
  destruct (OD.get _ (loan_db st)) as [loan|] eqn:Hloan; [|exact Hok].
  destruct (String.eqb _ _); [exact Hok|].
  assert (Hset : forall k l,
             In (k, l) (OD.set (ReturnModel.loan_id return_data)
                          (returned_loan_of loan now) (loan_db st)) ->
             P l).
  { intros k l Hin. apply in_set in Hin. destruct Hin as [[= <- <-]|Hin].
    - apply P_returned. eapply Hok. apply get_in. exact Hloan.
    - eapply Hok; eassumption. }
  destruct (OD.get _ (book_db st)); exact Hset.
Qed.

Lemma exec_every_loan (r : request) (st : State) :
  clocks Q r -> every_loan P st -> every_loan P (exec r st).
Proof.
  intros Hclock Hok.
  destruct r; cbn [exec].
  - rewrite add_book_eq. exact Hok.
  - now rewrite get_all_books_readonly.
  - exact Hok.
  - now rewrite get_book_readonly.
  - rewrite update_book_eq. destruct (OD.get _ _); exact Hok.
  - rewrite delete_book_eq. destruct (OD.get _ _); exact Hok.
  - rewrite create_user_eq. destruct (rejected user); exact Hok.
  - now rewrite get_all_users_readonly.
  - exact Hok.
  - rewrite update_user_eq. destruct (OD.get _ _); [|exact Hok].
    destruct (rejected user); exact Hok.
  - rewrite delete_user_eq. destruct (OD.get _ _); exact Hok.
  - apply borrow_book_every_loan; [apply Hclock | exact Hok].
  - now apply return_book_every_loan.
  - now rewrite track_borrowing_readonly.
  - now rewrite list_borrowed_books_readonly.
  - now rewrite check_availability_readonly.
  - now rewrite get_overdue_books_readonly.
  - now rewrite get_most_borrowed_book_readonly.
  - now rewrite get_borrowing_history_readonly.
  - exact Hok.
  - exact Hok.
  - now rewrite get_dashboard_stats_readonly.
  - exact Hok.
Qed.

Lemma reachable_with_every_loan :
  every_loan P initial_state ->
  forall st, reachable_with Q st -> every_loan P st.
Proof.
  intros Hseed st Hreach. induction Hreach as [|r st Hclock _ IH].
  - exact Hseed.
  - now apply exec_every_loan.
Qed.

End LoanInvariant.

(** Whatever the clock reads. *)
Lemma reachable_with_any_clock (st : State) :
  reachable st -> reachable_with (fun _ => True) st.
Proof.
  intros Hreach. induction Hreach as [|r st _ IH].
  - apply reachable_with_init.
  - apply reachable_with_step; [|exact IH]. destruct r; cbn; auto.
Qed.

Lemma loans_ok_seed : every_loan loan_ok initial_state.
Proof.
  intros k l Hin. simpl in Hin.
  destruct Hin as [[= <- <-]|[[= <- <-]|[[= <- <-]|[]]]]; unfold loan_ok; simpl;
    (split; [auto | split; [try discriminate; congruence | congruence]]).
Qed.

Lemma loan_ok_borrowed borrow now1 due :
  loan_ok (borrowed_loan_of borrow now1 due).
Proof.
  unfold loan_ok, borrowed_loan_of. simpl.
  split; [now left|]. split; [discriminate | congruence].
Qed.

Lemma loan_ok_returned loan now : loan_ok (returned_loan_of loan now).
Proof.
  unfold loan_ok, returned_loan_of. simpl.
  split; [now right|]. split; [discriminate | reflexivity].
Qed.

(** C10. In every state reachable from the seeded stores by the exposed
    operations, every loan has status [active] or [returned], and its status
    is [returned] exactly when its return date is set. *)
Theorem reachable_loans_ok (st : State) :
  reachable st ->
  forall k l, In (k, l) (loan_db st) ->
    (Loan.status l = "active" \/ Loan.status l = "returned")
    /\ (Loan.status l = "returned" <-> Loan.return_date l <> None).
Proof.
  intros Hreach.
  apply (reachable_with_every_loan loan_ok (fun _ => True)).
  - intros borrow now1 now2 due _ _. apply loan_ok_borrowed.
  - intros loan now _. apply loan_ok_returned.
  - apply loans_ok_seed.
  - now apply reachable_with_any_clock.
Qed.

Lemma reachable_loans_ok_witness :
  In (2, Loan.mk 2 2 "2025-11-10" "2025-11-24" (Some "2025-12-02") "returned")
    (loan_db borrowed_then_returned)
  /\ ("returned" = "active" \/ "returned" = "returned")
  /\ ("returned" = "returned" <-> Some "2025-12-02" <> None).
Proof.
  split.
  - right. left. reflexivity.
  - apply (reachable_loans_ok borrowed_then_returned
             (reachable_step _ _ (reachable_step _ _ reachable_init))
             2
             (Loan.mk 2 2 "2025-11-10" "2025-11-24" (Some "2025-12-02")
                "returned")).
    right. left. reflexivity.
Defined.

(** Where the clock reads dates in years of four digits, the due date of
    every loan was written by [strftime] from such a date, or is one of the
    seeded strings: it parses. *)
Lemma reachable_due_dates_parse (st : State) :
  reachable_with clock_ok st -> every_loan due_date_parses st.
Proof.
  apply (reachable_with_every_loan due_date_parses clock_ok).
  - intros borrow now1 now2 due Hnow Hdue. exists due.
    destruct (add_days_clock_ok now2 due 14 Hnow ltac:(lia) Hdue)
      as [Hvalid Hyear].
    now apply strptime_strftime.
  - intros loan now H. exact H.
  - intros k l Hin. simpl in Hin.
    destruct Hin as [[= <- <-]|[[= <- <-]|[[= <- <-]|[]]]];
      eexists; reflexivity.
Qed.

(** ** The overdue report *)

Lemma overdue_visit_eq st today item acc :
  due_dates_parse [item] ->
  overdue_visit today item acc st = (Ok (acc ++ overdue_of st today item), st).
Proof.
  destruct item as [k l]. intros Hparse.
  unfold overdue_visit, overdue_of. cbn [fst snd].
  destruct (String.eqb (Loan.status l) "active") eqn:Hact.
  - apply String.eqb_eq in Hact.
    destruct (Hparse k l (or_introl eq_refl) Hact) as [due Hdue].
    run_handler. unfold lift. rewrite Hdue.
    destruct (date_ltb due today); [reflexivity|].
    run_handler. now rewrite app_nil_r.
  - run_handler. now rewrite app_nil_r.
Qed.

Lemma overdue_loop_eq st today items :
  due_dates_parse items ->
  forall acc,
    for_each items (overdue_visit today) acc st
    = (Ok (acc ++ flat_map (overdue_of st today) items), st).
Proof.
  induction items as [|item items IH]; intros Hparse acc.
  - cbn. now rewrite app_nil_r.
  - cbn [for_each flat_map]. run_handler.
    rewrite overdue_visit_eq.
    + rewrite IH.
      * now rewrite app_assoc.
      * intros k l Hin. apply (Hparse k l). now right.
    + intros k l [Heq|[]]. apply (Hparse k l). now left.
Qed.

Lemma get_overdue_books_eq st today :
  due_dates_parse (loan_db st) ->
  get_overdue_books today st
  = (Ok (mkOverdueResponse
           (flat_map (overdue_of st today) (loan_db st))
           (Z.of_nat
              (List.length (flat_map (overdue_of st today) (loan_db st))))),
     st).
Proof.
  intros Hparse. unfold get_overdue_books. run_handler.
  unfold OD.items. now rewrite overdue_loop_eq.
Qed.

(** C5. Where the due date of every active loan parses, the overdue report
    succeeds, writes nothing, and lists an entry exactly for the loans that
    are active and whose due date is a date strictly before today: the
    entry carries the loan and its identifier, the day difference between
    today and the due date, the title of the book and the name of the user,
    each [Unknown] when the book or the user is not in its store. *)
Theorem overdue_iff_active_and_past_due (st : State) (today : date) :
  due_dates_parse (loan_db st) ->
  exists resp : OverdueResponse,
    get_overdue_books today st = (Ok resp, st)
    /\ overdue_total resp = Z.of_nat (List.length (overdue_books resp))
    /\ forall e : OverdueEntry,
         In e (overdue_books resp) <->
         exists due : date,
           In (overdue_loan_id e, overdue_loan e) (loan_db st)
           /\ Loan.status (overdue_loan e) = "active"
           /\ strptime (Loan.due_date (overdue_loan e)) = Ok due
           /\ date_ltb due today = true
           /\ days_overdue e = ymd2ord today - ymd2ord due
           /\ overdue_book_title e
              = match OD.get (Loan.book_id (overdue_loan e)) (book_db st) with
                | Some book => Book.title book
                | None => "Unknown"
                end
           /\ overdue_user_name e
              = match OD.get (Loan.user_id (overdue_loan e)) (user_db st) with
                | Some user => User.name user
                | None => "Unknown"
                end.
Proof.
  intros Hparse. eexists. split; [apply get_overdue_books_eq, Hparse|].
  cbn [overdue_books overdue_total]. split; [reflexivity|].
  intros e. rewrite in_flat_map. split.
  - intros [[k l] [Hin He]]. unfold overdue_of in He. cbn [fst snd] in He.
    destruct (String.eqb (Loan.status l) "active") eqn:Hact; [|destruct He].
    apply String.eqb_eq in Hact.
    destruct (strptime (Loan.due_date l)) as [due|c d|x] eqn:Hdue;
      try destruct He.
    destruct (date_ltb due today) eqn:Hlt; [|destruct He].
    destruct He as [<-|[]]. exists due. cbn. repeat split; assumption.
  - intros [due (Hin & Hact & Hdue & Hlt & Hdays & Htitle & Hname)].
    exists (overdue_loan_id e, overdue_loan e). split; [exact Hin|].
    unfold overdue_of. cbn [fst snd].
    rewrite Hact, Hdue, Hlt. cbn [String.eqb Ascii.eqb Bool.eqb].
    left. destruct e as [k l t n dd]. cbn in *.
    unfold title_or_unknown, name_or_unknown, days_between. congruence.
Qed.

Lemma overdue_iff_active_and_past_due_witness :
  exists resp : OverdueResponse,
    get_overdue_books (mkdate 2025 11 27) initial_state
    = (Ok resp, initial_state)
    /\ overdue_books resp
       = [mkOverdueEntry 2
            (Loan.mk 2 2 "2025-11-10" "2025-11-24" None "active")
            "To Kill a Mockingbird" "Jane Smith" 3].
Proof.
  destruct (overdue_iff_active_and_past_due initial_state (mkdate 2025 11 27))
    as [resp [Hrun _]].
  - intros k l Hin Hact. simpl in Hin.
    destruct Hin as [[= <- <-]|[[= <- <-]|[[= <- <-]|[]]]].
    + discriminate Hact.
    + eexists. reflexivity.
    + eexists. reflexivity.
  - exists resp. split; [exact Hrun|].
    vm_compute in Hrun. now injection Hrun as <-.
Defined.

(** Every entry of the overdue report is overdue by at least one day. *)
Lemma overdue_days_positive (st : State) (today : date) (e : OverdueEntry) :
  valid_dateb today = true ->
  In e (flat_map (overdue_of st today) (loan_db st)) ->
  1 <= days_overdue e.
Proof.
  intros Vt Hin. apply in_flat_map in Hin. destruct Hin as [[k l] [_ He]].
  unfold overdue_of in He. cbn [fst snd] in He.
  destruct (String.eqb (Loan.status l) "active"); [|destruct He].
  destruct (strptime (Loan.due_date l)) as [due|c d|x] eqn:Hdue;
    try destruct He.
  destruct (date_ltb due today) eqn:Hlt; [|destruct He].
  destruct He as [<-|[]]. cbn [days_overdue]. unfold days_between.
  pose proof (date_ltb_ordinal due today (strptime_valid _ _ Hdue) Vt Hlt).
  lia.
Qed.

Lemma every_loan_due_dates_parse (st : State) :
  every_loan due_date_parses st -> due_dates_parse (loan_db st).
Proof. intros H k l Hin _. exact (H k l Hin). Qed.

(** In a state reached with such clock readings the overdue report does
    not raise. *)
Lemma overdue_report_reachable (st : State) (today : date) :
  reachable_with clock_ok st ->
  exists resp, get_overdue_books today st = (Ok resp, st).
Proof.
  intros Hreach. eexists. apply get_overdue_books_eq.
  apply every_loan_due_dates_parse, reachable_due_dates_parse, Hreach.
Qed.

(** ** The most-borrowed report *)

Lemma borrows_of_nonneg k loans : 0 <= borrows_of k loans.
Proof. unfold borrows_of. lia. Qed.

Lemma borrows_of_app k loans loans' :
  borrows_of k (loans ++ loans') = borrows_of k loans + borrows_of k loans'.
Proof. unfold borrows_of. rewrite filter_app, length_app. lia. Qed.

Lemma borrows_of_positive loan loans :
  In loan loans -> 0 < borrows_of (Loan.book_id loan) loans.
Proof.
  intros Hin. unfold borrows_of.
  assert (Hf : In loan (filter (fun l => Loan.book_id l =? Loan.book_id loan)
                          loans)).
  { apply filter_In. split; [exact Hin | apply Z.eqb_refl]. }
  destruct (filter _ loans); [destruct Hf | simpl; lia].
Qed.

Lemma counts_step borrow_count seen loan :
  counts borrow_count seen ->
  counts (OD.set (Loan.book_id loan)
            (get_or_zero borrow_count (Loan.book_id loan) + 1) borrow_count)
    (seen ++ [loan]).
Proof.
  intros Hc k. rewrite borrows_of_app.
  unfold borrows_of at 2 4. cbn [filter].
  destruct (Z.eq_dec k (Loan.book_id loan)) as [->|Hne].
  - rewrite get_set_same, Z.eqb_refl. cbn [List.length].
    pose proof (borrows_of_nonneg (Loan.book_id loan) seen) as Hnn.
    unfold get_or_zero. rewrite (Hc (Loan.book_id loan)).
    destruct (borrows_of (Loan.book_id loan) seen =? 0) eqn:E0.
    + apply Z.eqb_eq in E0. rewrite E0. reflexivity.
    + destruct (_ + _ =? 0) eqn:E1; [apply Z.eqb_eq in E1; lia|].
      reflexivity.
  - rewrite get_set_other by exact Hne.
    destruct (Loan.book_id loan =? k) eqn:E;
      [apply Z.eqb_eq in E; congruence|].
    cbn [List.length]. rewrite Z.add_0_r. apply Hc.
Qed.

Lemma count_loop loans :
  forall borrow_count seen,
    counts borrow_count seen ->
    exists d,
      for_each loans
        (fun (loan : Loan.t) (borrow_count : OD.t Z) =>
           let book_id := Loan.book_id loan in
           ret (OD.set book_id (get_or_zero borrow_count book_id + 1)
                  borrow_count))
        borrow_count = Ok d
      /\ counts d (seen ++ loans).
Proof.
  induction loans as [|loan loans IH]; intros bc seen Hc.
  - exists bc. rewrite app_nil_r. split; [reflexivity | exact Hc].
  - cbn [for_each bind ret outcome_monad].
    destruct (IH _ _ (counts_step bc seen loan Hc)) as [d [Hd Hcd]].
    exists d. split; [exact Hd|].
    now rewrite <- app_assoc in Hcd.
Qed.

(** The counting loop never raises. *)
Lemma count_borrows_counts loans :
  exists d, count_borrows loans = Ok d /\ counts d loans.
Proof.
  apply (count_loop loans [] []). intros k. reflexivity.
Qed.

Lemma counts_key borrow_count loans k :
  counts borrow_count loans ->
  In k (OD.keys borrow_count) ->
  getitem borrow_count k = Ok (borrows_of k loans)
  /\ 0 < borrows_of k loans.
Proof.
  intros Hc Hin. unfold getitem.
  destruct (OD.get k borrow_count) as [c|] eqn:E.
  - rewrite Hc in E. pose proof (borrows_of_nonneg k loans).
    destruct (borrows_of k loans =? 0) eqn:E0; [discriminate|].
    injection E as <-. apply Z.eqb_neq in E0. split; [reflexivity | lia].
  - apply get_none_not_in in E. contradiction.
Qed.

Lemma counts_has_key borrow_count loans loan :
  counts borrow_count loans ->
  In loan loans ->
  In (Loan.book_id loan) (OD.keys borrow_count).
Proof.
  intros Hc Hin.
  destruct (in_dec Z.eq_dec (Loan.book_id loan) (OD.keys borrow_count))
    as [H|H]; [exact H|].
  apply get_none_not_in in H. rewrite Hc in H.
  pose proof (borrows_of_positive loan loans Hin).
  destruct (_ =? 0) eqn:E; [apply Z.eqb_eq in E; lia | discriminate].
Qed.

(** [max] with a key that does not raise returns an element whose key no
    other element exceeds. *)
Lemma max_loop (key : Z -> outcome Z) (f : Z -> Z) (xs : list Z) :
  (forall x, In x xs -> key x = Ok (f x)) ->
  forall best : Z * Z,
    snd best = f (fst best) ->
    exists best' : Z * Z,
      for_each xs
        (fun y (best : Z * Z) =>
           ky <- key y ;;
           ret (if snd best <? ky then (y, ky) else best))
        best = Ok best'
      /\ snd best' = f (fst best')
      /\ (fst best' = fst best \/ In (fst best') xs)
      /\ f (fst best) <= f (fst best')
      /\ forall x, In x xs -> f x <= f (fst best').
Proof.
  induction xs as [|y xs IH]; intros Hkey best Hbest.
  - exists best. cbn [for_each ret outcome_monad].
    split; [reflexivity|]. split; [exact Hbest|]. split; [now left|].
    split; [lia|]. intros x [].
  - cbn [for_each bind outcome_monad].
    rewrite (Hkey y (or_introl eq_refl)). cbn [ret].
    destruct (IH (fun x Hx => Hkey x (or_intror Hx))
                (if snd best <? f y then (y, f y) else best))
      as [best' (Hrun & Hsnd & Hin & Hge & Hall)].
    { destruct (snd best <? f y); [reflexivity | exact Hbest]. }
    exists best'. split; [exact Hrun|]. split; [exact Hsnd|].
    destruct (snd best <? f y) eqn:E; cbn [fst snd] in *.
    + apply Z.ltb_lt in E. split; [|split].
      * destruct Hin as [->|Hin]; [right; now left | right; now right].
      * lia.
      * intros x [<-|Hx]; [exact Hge | now apply Hall].
    + apply Z.ltb_ge in E. split; [|split].
      * destruct Hin as [->|Hin]; [now left | right; now right].
      * exact Hge.
      * intros x [<-|Hx]; [lia | now apply Hall].
Qed.

Lemma py_max_by_spec (key : Z -> outcome Z) (f : Z -> Z) (xs : list Z) :
  xs <> [] ->
  (forall x, In x xs -> key x = Ok (f x)) ->
  exists m,
    py_max_by key xs = Ok m /\ In m xs /\ forall x, In x xs -> f x <= f m.
Proof.
  destruct xs as [|x xs]; [congruence|]. intros _ Hkey.
  unfold py_max_by. rewrite (Hkey x (or_introl eq_refl)).
  cbn [bind outcome_monad].
  destruct (max_loop key f xs (fun y Hy => Hkey y (or_intror Hy)) (x, f x)
              eq_refl)
    as [best' (Hrun & _ & Hin & Hge & Hall)].
  cbn [bind outcome_monad] in Hrun. rewrite Hrun. cbn [ret fst snd] in *.
  exists (fst best'). split; [reflexivity|]. split.
  - destruct Hin as [->|Hin]; [now left | now right].
  - intros y [<-|Hy]; [exact Hge | now apply Hall].
Qed.

(** C8. On an empty loan store the most-borrowed report answers with the
    no-history message; it does not raise.  On a loan store that is not
    empty it answers with a book that some loan refers to, with the number
    of loans that refer to it, and no book was borrowed more often. *)
Theorem most_borrowed_report (st : State) :
  (loan_db st = [] ->
   get_most_borrowed_book st
   = (Ok (NoHistory "No borrowing history found"), st))
  /\ (loan_db st <> [] ->
      exists (book_id : Z) (title author : string) (times : Z)
             (stats : list BookStat),
        get_most_borrowed_book st
        = (Ok (Stats book_id title author times stats), st)
        /\ (exists loan, In loan (OD.values (loan_db st))
                         /\ Loan.book_id loan = book_id)
        /\ times = borrows_of book_id (OD.values (loan_db st))
        /\ forall k, borrows_of k (OD.values (loan_db st)) <= times).
Proof.
  split.
  - intros Hempty. unfold get_most_borrowed_book. run_handler.
    rewrite Hempty. reflexivity.
  - intros Hne. unfold get_most_borrowed_book. run_handler.
    set (loans := OD.values (loan_db st)).
    destruct (count_borrows_counts loans) as [d [Hd Hc]].
    rewrite Hd.
    assert (Hloans : exists loan, In loan loans).
    { unfold loans, OD.values. destruct (loan_db st) as [|[k l] rest];
        [congruence|]. exists l. now left. }
    destruct Hloans as [loan0 Hin0].
    pose proof (counts_has_key d loans loan0 Hc Hin0) as Hkey0.
    destruct d as [|[k0 c0] d']; [destruct Hkey0|].
    set (d := (k0, c0) :: d') in *.
    destruct (py_max_by_spec (getitem d) (fun k => borrows_of k loans)
                (OD.keys d))
      as [m (Hmax & Hm & Hall)].
    { discriminate. }
    { intros x Hx. now apply counts_key. }
    destruct (counts_key d loans m Hc Hm) as [Hget Hpos].
    cbv beta iota. rewrite Hmax, Hget.
    do 5 eexists. split; [reflexivity|]. split; [|split; [reflexivity|]].
    + unfold borrows_of in Hpos.
      destruct (filter (fun l => Loan.book_id l =? m) loans) as [|l ls] eqn:Ef;
        [simpl in Hpos; lia|].
      assert (Hl : In l (filter (fun l => Loan.book_id l =? m) loans))
        by (rewrite Ef; now left).
      apply filter_In in Hl. destruct Hl as [Hl Hb].
      exists l. split; [exact Hl | now apply Z.eqb_eq].
    + intros k.
      destruct (in_dec Z.eq_dec k (OD.keys d)) as [Hk|Hk].
      * now apply Hall.
      * apply get_none_not_in in Hk. rewrite Hc in Hk.
        destruct (borrows_of k loans =? 0) eqn:E; [|discriminate].
        apply Z.eqb_eq in E. rewrite E. lia.
Qed.

Lemma most_borrowed_report_witness :
  get_most_borrowed_book no_loans_state
  = (Ok (NoHistory "No borrowing history found"), no_loans_state)
  /\ exists (book_id : Z) (title author : string) (times : Z)
            (stats : list BookStat),
       get_most_borrowed_book two_loans_of_book_3
       = (Ok (Stats book_id title author times stats), two_loans_of_book_3)
       /\ (exists loan, In loan (OD.values (loan_db two_loans_of_book_3))
                        /\ Loan.book_id loan = book_id)
       /\ times = borrows_of book_id (OD.values (loan_db two_loans_of_book_3))
       /\ forall k,
            borrows_of k (OD.values (loan_db two_loans_of_book_3)) <= times.
Proof.
  split.
  - apply (proj1 (most_borrowed_report no_loans_state)). reflexivity.
  - apply (proj2 (most_borrowed_report two_loans_of_book_3)). discriminate.
Defined.

Example most_borrowed_two_loans :
  fst (get_most_borrowed_book two_loans_of_book_3)
  = Ok (Stats 3 "The Great Gatsby" "F. Scott Fitzgerald" 2
          [ mkBookStat 3 "The Great Gatsby" 2;
            mkBookStat 1 "1984" 1;
            mkBookStat 2 "To Kill a Mockingbird" 1 ]).
Proof. reflexivity. Qed.

(** * Further properties of the handlers *)

(** ** Dictionaries: keys, deletion, rewriting a value *)

Section MoreOrderedDictFacts.
Context {V : Type}.
Implicit Types (d : OD.t V) (k : Z) (v : V).

Lemma keys_set_absent d k v :
  OD.get k d = None -> OD.keys (OD.set k v d) = OD.keys d ++ [k].
Proof.
  intros H. rewrite (set_absent d k v H). unfold OD.keys.
  now rewrite map_app.
Qed.

Lemma set_get_same d k v : OD.get k d = Some v -> OD.set k v d = d.
Proof.
  induction d as [|[k0 v0] d IH]; simpl; [discriminate|].
  destruct (k0 =? k) eqn:E.
  - apply Z.eqb_eq in E. intros [= ->]. now subst.
  - intros H. now rewrite IH.
Qed.

Lemma get_del_other d k k' : k' <> k -> OD.get k' (OD.del k d) = OD.get k' d.
Proof.
  intros Hne. induction d as [|[k0 v0] d IH]; simpl; [reflexivity|].
  destruct (k0 =? k) eqn:E; simpl.
  - apply Z.eqb_eq in E. subst k0.
    destruct (k =? k') eqn:E'; [apply Z.eqb_eq in E'; congruence|].
    reflexivity.
  - destruct (k0 =? k'); [reflexivity | exact IH].
Qed.

Lemma keys_del_incl d k k' : In k' (OD.keys (OD.del k d)) -> In k' (OD.keys d).
Proof.
  unfold OD.keys. induction d as [|[k0 v0] d IH]; simpl; [tauto|].
  destruct (k0 =? k); simpl; [auto|]. intros [H|H]; auto.
Qed.

Lemma get_del_same d k : is_dict d -> OD.get k (OD.del k d) = None.
Proof.
  unfold is_dict, OD.keys.
  induction d as [|[k0 v0] d IH]; simpl; [reflexivity|].
  intros Hnd. inversion Hnd as [|? ? Hnotin Hnd']; subst.
  destruct (k0 =? k) eqn:E; simpl.
  - apply Z.eqb_eq in E. subst k0. now apply get_none_not_in.
  - rewrite E. auto.
Qed.

Lemma is_dict_del d k : is_dict d -> is_dict (OD.del k d).
Proof.
  unfold is_dict.
  induction d as [|[k0 v0] d IH]; simpl; [auto|].
  intros Hnd. inversion Hnd as [|? ? Hnotin Hnd']; subst.
  destruct (k0 =? k); simpl; [exact Hnd'|].
  constructor; [|auto].
  intros Hin. apply Hnotin. eapply keys_del_incl. exact Hin.
Qed.

Lemma is_dict_set d k v : is_dict d -> is_dict (OD.set k v d).
Proof.
  unfold is_dict. intros Hnd.
  destruct (OD.get k d) as [v0|] eqn:E.
  - now rewrite (keys_set_present d k v v0 E).
  - rewrite (keys_set_absent d k v E).
    apply NoDup_app; [exact Hnd | repeat constructor; intros [] |].
    intros a Ha [<-|[]]. apply get_none_not_in in E. contradiction.
Qed.

Lemma del_app_fresh d k v : OD.get k d = None -> OD.del k (d ++ [(k, v)]) = d.
Proof.
  induction d as [|[k0 v0] d IH]; simpl.
  - intros _. rewrite Z.eqb_refl. reflexivity.
  - destruct (k0 =? k); [discriminate|]. intros H. now rewrite IH.
Qed.

Lemma get_app_fresh d k v : OD.get k d = None -> OD.get k (d ++ [(k, v)]) = Some v.
Proof.
  intros H. rewrite <- (set_absent d k v H). apply get_set_same.
Qed.

Lemma get_app_old d k k' v v' :
  OD.get k d = Some v -> OD.get k (d ++ [(k', v')]) = Some v.
Proof.
  induction d as [|[k0 v0] d IH]; simpl; [discriminate|].
  destruct (k0 =? k); auto.
Qed.

Lemma set_app_fresh d k v v' :
  OD.get k d = None -> OD.set k v' (d ++ [(k, v)]) = d ++ [(k, v')].
Proof.
  intros H. rewrite <- (set_absent d k v H), set_set_same.
  now apply set_absent.
Qed.

End MoreOrderedDictFacts.

(** ** The stores stay dictionaries *)

Lemma stores_are_dicts_intro b u l :
  is_dict b -> is_dict u -> is_dict l -> stores_are_dicts (mkState b u l).
Proof. intros Hb Hu Hl. repeat split; assumption. Qed.

Lemma stores_are_dicts_seed : stores_are_dicts initial_state.
Proof.
  apply stores_are_dicts_intro; unfold is_dict; cbn;
    repeat constructor; cbn; intuition discriminate.
Qed.

Lemma is_dict_app_next {V} (d : OD.t V) (v : V) :
  is_dict d -> is_dict (d ++ [(OD.next_id d, v)]).
Proof.
  intros H. rewrite <- (set_absent _ _ _ (next_id_fresh d)).
  now apply is_dict_set.
Qed.

Lemma exec_stores_are_dicts (r : request) (st : State) :
  stores_are_dicts st -> stores_are_dicts (exec r st).
Proof.
  intros H. pose proof H as (Hb & Hu & Hl).
  destruct r; cbn [exec].
  - rewrite add_book_eq.
    apply stores_are_dicts_intro; auto using is_dict_app_next.
  - now rewrite get_all_books_readonly.
  - exact H.
  - now rewrite get_book_readonly.
  - rewrite update_book_eq. destruct (OD.get _ _); [|exact H].
    apply stores_are_dicts_intro; auto using is_dict_set.
  - rewrite delete_book_eq. destruct (OD.get _ _); [|exact H].
    apply stores_are_dicts_intro; auto using is_dict_del.
  - rewrite create_user_eq. destruct (rejected user); [exact H|].
    apply stores_are_dicts_intro; auto using is_dict_app_next.
  - now rewrite get_all_users_readonly.
  - exact H.
  - rewrite update_user_eq. destruct (OD.get _ _); [|exact H].
    destruct (rejected user); [exact H|].
    apply stores_are_dicts_intro; auto using is_dict_set.
  - rewrite delete_user_eq. destruct (OD.get _ _); [|exact H].
    apply stores_are_dicts_intro; auto using is_dict_del.
  - rewrite borrow_book_eq.
    destruct (OD.get _ (book_db st)); [|exact H].
    destruct (_ <=? 0); [exact H|].
    destruct (add_days now2 14); try exact H.
    apply stores_are_dicts_intro;
      auto using is_dict_app_next, is_dict_set.
  - rewrite return_book_eq. cbn zeta.
    destruct (OD.get _ (loan_db st)); [|exact H].
    destruct (String.eqb _ _); [exact H|].
    destruct (OD.get _ (book_db st));
      apply stores_are_dicts_intro; auto using is_dict_set.
  - now rewrite track_borrowing_readonly.
  - now rewrite list_borrowed_books_readonly.
  - now rewrite check_availability_readonly.
  - now rewrite get_overdue_books_readonly.
  - now rewrite get_most_borrowed_book_readonly.
  - now rewrite get_borrowing_history_readonly.
  - exact H.
  - exact H.
  - now rewrite get_dashboard_stats_readonly.
  - exact H.
Qed.

Lemma reachable_stores_are_dicts (st : State) :
  reachable st -> stores_are_dicts st.
Proof.
  intros Hreach. induction Hreach as [|r st _ IH].
  - apply stores_are_dicts_seed.
  - now apply exec_stores_are_dicts.
Qed.

(** ** Books: adding, deleting, identifiers *)

(** X1. Adding a book never overwrites one: it succeeds and answers with
    the book; the book store is the old one with the book as sent appended
    last, under an identifier that was not in use, so a lookup of that
    identifier gives the book; every book that was stored is still stored
    under its identifier; and the other stores are not touched. *)
Theorem add_book_keeps_books (st : State) (book : Book.t) :
  exists st' : State,
    add_book book st = (Ok book, st')
    /\ ~ In (OD.next_id (book_db st)) (OD.keys (book_db st))
    /\ book_db st' = book_db st ++ [(OD.next_id (book_db st), book)]
    /\ OD.get (OD.next_id (book_db st)) (book_db st') = Some book
    /\ (forall k b, OD.get k (book_db st) = Some b ->
          OD.get k (book_db st') = Some b)
    /\ user_db st' = user_db st
    /\ loan_db st' = loan_db st.
Proof.
  rewrite add_book_eq. eexists. split; [reflexivity|]. cbn.
  pose proof (next_id_fresh (book_db st)) as Hfresh.
  split; [now apply get_none_not_in|].
  split; [reflexivity|].
  split; [now apply get_app_fresh|].
  split; [|split; reflexivity].
  intros k b H. eapply get_app_old. exact H.
Qed.

Lemma delete_book_ok_inv (st st' : State) (k : Z) (r : Deleted) :
  delete_book k st = (Ok r, st') ->
  (exists b, OD.get k (book_db st) = Some b)
  /\ r = mkDeleted "Book deleted successfully" k
  /\ st' = mkState (OD.del k (book_db st)) (user_db st) (loan_db st).
Proof.
  rewrite delete_book_eq.
  destruct (OD.get k (book_db st)) as [b|]; [|discriminate].
  intros [= <- <-]. eauto.
Qed.

(** X2. Deleting a book removes exactly that book and nothing else: a
    successful delete answers with the identifier, a read of it afterwards
    is answered 404, every other book is as it was, and the loans that refer
    to the book stay in the loan store. *)
Theorem delete_book_removes_one
  (st st' : State) (book_id : Z) (r : Deleted) :
  is_dict (book_db st) ->
  delete_book book_id st = (Ok r, st') ->
  deleted_id r = book_id
  /\ get_book book_id st' = (NotFound "Book", st')
  /\ (forall k, k <> book_id ->
        OD.get k (book_db st') = OD.get k (book_db st))
  /\ user_db st' = user_db st
  /\ loan_db st' = loan_db st.
Proof.
  intros Hdict Hdel.
  apply delete_book_ok_inv in Hdel. destruct Hdel as (_ & -> & ->).
  split; [reflexivity|]. split.
  - rewrite get_book_eq. cbn [book_db]. now rewrite get_del_same.
  - cbn. split; [|split; reflexivity].
    intros k Hk. now apply get_del_other.
Qed.

Lemma delete_book_removes_one_witness :
  get_book 2 (exec (DeleteBook 2) initial_state)
  = (HTTPException 404 "Book not found", exec (DeleteBook 2) initial_state)
  /\ OD.get 3 (book_db (exec (DeleteBook 2) initial_state))
     = OD.get 3 book_db_seed
  /\ loan_db (exec (DeleteBook 2) initial_state) = loan_db_seed.
Proof.
  destruct (delete_book_removes_one initial_state
              (exec (DeleteBook 2) initial_state) 2
              (mkDeleted "Book deleted successfully" 2)
              (proj1 stores_are_dicts_seed) eq_refl)
    as (_ & Hget & Hother & _ & Hloans).
  split; [exact Hget|]. split; [|exact Hloans].
  apply Hother. discriminate.
Defined.

(** X3. Identifiers are reused: when the book created last is deleted, the
    next book created gets the identifier of the deleted one, so a reader
    who kept the identifier now reads the other book. *)
Theorem deleted_identifier_is_reused (st : State) (b b' : Book.t) :
  let i := OD.next_id (book_db st) in
  exists st1 st2 st3 : State,
    add_book b st = (Ok b, st1)
    /\ get_book i st1 = (Ok b, st1)
    /\ delete_book i st1 = (Ok (mkDeleted "Book deleted successfully" i), st2)
    /\ st2 = st
    /\ add_book b' st2 = (Ok b', st3)
    /\ get_book i st3 = (Ok b', st3).
Proof.
  intros i. pose proof (next_id_fresh (book_db st)) as Hfresh. fold i in Hfresh.
  rewrite add_book_eq. fold i.
  eexists. exists st. eexists.
  split; [reflexivity|].
  split.
  { rewrite get_book_eq. cbn [book_db]. now rewrite get_app_fresh. }
  split.
  { rewrite delete_book_eq. cbn [book_db user_db loan_db].
    rewrite get_app_fresh by exact Hfresh.
    rewrite del_app_fresh by exact Hfresh.
    destruct st; reflexivity. }
  split; [reflexivity|].
  rewrite add_book_eq. fold i. split; [reflexivity|].
  rewrite get_book_eq. cbn [book_db]. now rewrite get_app_fresh.
Qed.

(** X4. Every endpoint that takes the identifier of a book answers 404 for
    an identifier that is not in the book store, and writes nothing:
    reading, updating, deleting, checking availability and borrowing. *)
Theorem absent_book_not_found (st : State) (book_id : Z) :
  OD.mem book_id (book_db st) = false ->
  get_book book_id st = (NotFound "Book", st)
  /\ (forall book, update_book book book_id st = (NotFound "Book", st))
  /\ delete_book book_id st = (NotFound "Book", st)
  /\ check_availability book_id st = (NotFound "Book", st)
  /\ (forall user_id now1 now2,
        borrow_book (BorrowModel.mk book_id user_id) now1 now2 st
        = (NotFound "Book", st)).
Proof.
  intros Hmem.
  assert (Hget : OD.get book_id (book_db st) = None).
  { unfold OD.mem in Hmem. destruct (OD.get book_id (book_db st));
      [discriminate | reflexivity]. }
  split; [rewrite get_book_eq; now rewrite Hget|].
  split; [intros book; rewrite update_book_eq; now rewrite Hget|].
  split; [rewrite delete_book_eq; now rewrite Hget|].
  split.
  - unfold check_availability. run_handler. now rewrite Hmem.
  - intros user_id now1 now2. rewrite borrow_book_eq. cbn [BorrowModel.book_id].
    now rewrite Hget.
Qed.

Lemma absent_book_not_found_witness :
  get_book 9 initial_state
  = (HTTPException 404 "Book not found", initial_state)
  /\ delete_book 9 initial_state
     = (HTTPException 404 "Book not found", initial_state)
  /\ borrow_book (BorrowModel.mk 9 1) (mkdate 2025 12 1) (mkdate 2025 12 1)
       initial_state
     = (HTTPException 404 "Book not found", initial_state).
Proof.
  destruct (absent_book_not_found initial_state 9 eq_refl)
    as (Hget & _ & Hdel & _ & Hborrow).
  split; [exact Hget|]. split; [exact Hdel|]. apply Hborrow.
Defined.

(** ** Borrow and return together *)

Lemma check_availability_eq (book_id : Z) (st : State) :
  check_availability book_id st
  = (match OD.get book_id (book_db st) with
     | Some book =>
         Ok (mkAvailability book_id (Book.title book)
               (Book.copies_available book)
               (0 <? Book.copies_available book))
     | None => NotFound "Book"
     end, st).
Proof.
  unfold check_availability, OD.mem. run_handler.
  destruct (OD.get book_id (book_db st)) as [book|] eqn:E; run_handler.
  - unfold lift, getitem. rewrite E. reflexivity.
  - reflexivity.
Qed.

(** X5. The availability check predicts the borrow: where it answers
    [is_available], a borrow of the book succeeds (for a due date in the
    range of dates), and where it answers not available, a borrow is
    refused with the availability error and writes nothing. *)
Theorem availability_predicts_borrow
  (st st' : State) (book_id : Z) (a : Availability) :
  check_availability book_id st = (Ok a, st') ->
  st' = st
  /\ (is_available a = true ->
      forall user_id now1 now2 due,
        add_days now2 14 = Ok due ->
        exists resp st2,
          borrow_book (BorrowModel.mk book_id user_id) now1 now2 st
          = (Ok resp, st2)
          /\ OD.get book_id (book_db st2)
             = option_map
                 (fun b => Book.set_copies_available b
                             (avail_copies_available a - 1))
                 (OD.get book_id (book_db st)))
  /\ (is_available a = false ->
      forall user_id now1 now2,
        borrow_book (BorrowModel.mk book_id user_id) now1 now2 st
        = (Unavailable, st)).
Proof.
  rewrite check_availability_eq.
  destruct (OD.get book_id (book_db st)) as [book|] eqn:Hbook; [|discriminate].
  intros [= <- <-]. split; [reflexivity|]. cbn [is_available avail_copies_available].
  split.
  - intros Hav user_id now1 now2 due Hdue.
    rewrite borrow_book_eq. cbn [BorrowModel.book_id]. rewrite Hbook, Hdue.
    apply Z.ltb_lt in Hav.
    destruct (Book.copies_available book <=? 0) eqn:E;
      [apply Z.leb_le in E; lia|].
    eexists. eexists. split; [reflexivity|].
    cbn [book_db option_map]. apply get_set_same.
  - intros Hav user_id now1 now2.
    rewrite borrow_book_eq. cbn [BorrowModel.book_id]. rewrite Hbook.
    apply Z.ltb_ge in Hav.
    destruct (Book.copies_available book <=? 0) eqn:E;
      [reflexivity | apply Z.leb_gt in E; lia].
Qed.

Lemma availability_predicts_borrow_witness :
  exists resp st2,
    borrow_book (BorrowModel.mk 2 4) (mkdate 2025 12 1) (mkdate 2025 12 1)
      initial_state = (Ok resp, st2)
    /\ OD.get 2 (book_db st2)
       = Some (Book.mk "To Kill a Mockingbird" "Harper Lee" "9780060935467"
                 1960 1).
Proof.
  destruct (availability_predicts_borrow initial_state initial_state 2
              (mkAvailability 2 "To Kill a Mockingbird" 2 true) eq_refl)
    as (_ & Hyes & _).
  exact (Hyes eq_refl 4 (mkdate 2025 12 1) (mkdate 2025 12 1)
           (mkdate 2025 12 15) eq_refl).
Defined.

(** X6. A borrow followed by the return of the loan it created restores
    the book store exactly: the return succeeds, the book has the copies it
    had before the borrow, and what remains is the loan, now returned today,
    at the end of the loan store. *)
Theorem borrow_then_return_restores
  (st st1 : State) (borrow : BorrowModel.t) (now1 now2 today : date)
  (resp : BorrowResponse) :
  borrow_book borrow now1 now2 st = (Ok resp, st1) ->
  exists (loan : Loan.t) (st2 : State),
    return_book (ReturnModel.mk (borrowed_loan_id resp)) today st1
    = (Ok (mkReturnResponse "Book returned successfully" loan), st2)
    /\ book_db st2 = book_db st
    /\ user_db st2 = user_db st
    /\ loan_db st2 = loan_db st ++ [(borrowed_loan_id resp, loan)]
    /\ loan
       = Loan.mk (BorrowModel.book_id borrow) (BorrowModel.user_id borrow)
           (Loan.loan_date (borrowed_loan resp))
           (Loan.due_date (borrowed_loan resp))
           (Some (strftime today)) "returned".
Proof.
  rewrite borrow_book_eq.
  destruct (OD.get (BorrowModel.book_id borrow) (book_db st))
    as [book|] eqn:Hbook; [|discriminate].
  destruct (Book.copies_available book <=? 0); [discriminate|].
  destruct (add_days now2 14) as [due|c d|e]; try discriminate.
  cbn zeta. intros [= <- <-].
  cbn [borrowed_loan_id borrowed_loan].
  pose proof (next_id_fresh (loan_db st)) as Hfresh.
  rewrite return_book_eq. cbn zeta. cbn [ReturnModel.loan_id loan_db book_db user_db].
  rewrite (get_app_fresh _ _ _ Hfresh).
  cbn [borrowed_loan_of Loan.status Loan.book_id String.eqb Ascii.eqb Bool.eqb].
  rewrite get_set_same.
  eexists. eexists. split; [reflexivity|].
  cbn [book_db user_db loan_db].
  split.
  { rewrite set_set_same. apply set_get_same. rewrite Hbook.
    destruct book. unfold Book.set_copies_available. cbn. f_equal. f_equal.
    lia. }
  split; [reflexivity|].
  split; [now apply set_app_fresh|].
  reflexivity.
Qed.

Lemma borrow_then_return_restores_witness :
  exists (loan : Loan.t) (st2 : State),
    return_book (ReturnModel.mk 4) (mkdate 2025 12 9)
      (exec (BorrowBook (BorrowModel.mk 1 3) (mkdate 2025 12 1)
               (mkdate 2025 12 1)) initial_state)
    = (Ok (mkReturnResponse "Book returned successfully" loan), st2)
    /\ book_db st2 = book_db_seed
    /\ user_db st2 = user_db_seed
    /\ loan_db st2 = loan_db_seed ++ [(4, loan)]
    /\ loan = Loan.mk 1 3 "2025-12-01" "2025-12-15" (Some "2025-12-09")
                "returned".
Proof.
  exact (borrow_then_return_restores initial_state
           (exec (BorrowBook (BorrowModel.mk 1 3) (mkdate 2025 12 1)
                    (mkdate 2025 12 1)) initial_state)
           (BorrowModel.mk 1 3) (mkdate 2025 12 1) (mkdate 2025 12 1)
           (mkdate 2025 12 9)
           (mkBorrowResponse 4 "Book borrowed successfully"
              (Loan.mk 1 3 "2025-12-01" "2025-12-15" None "active"))
           eq_refl).
Defined.

(** ** How a request changes the loan store *)

Lemma exec_transition (r : request) (st : State) :
  transition st r (exec r st).
Proof.
  destruct r; cbn [exec].
  - rewrite add_book_eq. apply adds_book.
  - rewrite get_all_books_readonly. apply writes_nothing.
  - apply writes_nothing.
  - rewrite get_book_readonly. apply writes_nothing.
  - rewrite update_book_eq.
    destruct (OD.get _ _) eqn:E; [eapply updates_book; exact E|].
    apply writes_nothing.
  - rewrite delete_book_eq.
    destruct (OD.get _ _) eqn:E; [eapply deletes_book; exact E|].
    apply writes_nothing.
  - rewrite create_user_eq.
    destruct (rejected user) eqn:E; [apply writes_nothing|].
    now apply creates_user.
  - rewrite get_all_users_readonly. apply writes_nothing.
  - apply writes_nothing.
  - rewrite update_user_eq.
    destruct (OD.get _ _) eqn:E; [|apply writes_nothing].
    destruct (rejected user) eqn:E'; [apply writes_nothing|].
    eapply updates_user; eassumption.
  - rewrite delete_user_eq.
    destruct (OD.get _ _) eqn:E; [eapply deletes_user; exact E|].
    apply writes_nothing.
  - rewrite borrow_book_eq.
    destruct (OD.get _ (book_db st)) as [book|] eqn:Hbook;
      [|apply writes_nothing].
    destruct (_ <=? 0) eqn:Hle; [apply writes_nothing|].
    destruct (add_days now2 14) as [due|c d|e] eqn:Hdue;
      try apply writes_nothing.
    apply Z.leb_gt in Hle. apply borrows; [exact Hbook | lia | exact Hdue].
  - rewrite return_book_eq. cbn zeta.
    destruct (OD.get _ (loan_db st)) as [loan|] eqn:Hloan;
      [|apply writes_nothing].
    destruct (String.eqb _ _) eqn:Hst; [apply writes_nothing|].
    apply String.eqb_neq in Hst.
    destruct (OD.get _ (book_db st)) as [book|] eqn:Hbook.
    + now apply returns.
    + now apply returns_without_book.
  - rewrite track_borrowing_readonly. apply writes_nothing.
  - rewrite list_borrowed_books_readonly. apply writes_nothing.
  - rewrite check_availability_readonly. apply writes_nothing.
  - rewrite get_overdue_books_readonly. apply writes_nothing.
  - rewrite get_most_borrowed_book_readonly. apply writes_nothing.
  - rewrite get_borrowing_history_readonly. apply writes_nothing.
  - apply writes_nothing.
  - apply writes_nothing.
  - rewrite get_dashboard_stats_readonly. apply writes_nothing.
  - apply writes_nothing.
Qed.

(** Case analysis on what the request [r] did to [st]. *)
Ltac transition_cases r st :=
  let T := fresh "T" in
  let st' := fresh "st'" in
  let E := fresh "E" in
  pose proof (exec_transition r st) as T;
  remember (exec r st) as st' eqn:E; clear E;
  destruct T.

(** X7. Loans are permanent: whatever the request and its outcome, a loan
    that is in the loan store is still there under the same identifier, for
    the same book and user, with the same loan and due dates; and a loan
    that is returned is not changed at all. *)
Theorem loans_are_permanent
  (r : request) (st : State) (k : Z) (l : Loan.t) :
  OD.get k (loan_db st) = Some l ->
  exists l' : Loan.t,
    OD.get k (loan_db (exec r st)) = Some l'
    /\ Loan.book_id l' = Loan.book_id l
    /\ Loan.user_id l' = Loan.user_id l
    /\ Loan.loan_date l' = Loan.loan_date l
    /\ Loan.due_date l' = Loan.due_date l
    /\ (Loan.status l = "returned" -> l' = l).
Proof.
  intros Hget. transition_cases r st; cbn [loan_db];
    try (exists l; repeat split; auto; fail).
  - exists l. split; [eapply get_app_old; exact Hget | repeat split; auto].
  - destruct (Z.eq_dec k (ReturnModel.loan_id return_data)) as [->|Hne].
    + rewrite get_set_same. rewrite H in Hget. injection Hget as ->.
      exists (returned_loan_of l now). repeat split. intros Hr. contradiction.
    + rewrite get_set_other by exact Hne. exists l. repeat split; auto.
  - destruct (Z.eq_dec k (ReturnModel.loan_id return_data)) as [->|Hne].
    + rewrite get_set_same. rewrite H in Hget. injection Hget as ->.
      exists (returned_loan_of l now). repeat split. intros Hr. contradiction.
    + rewrite get_set_other by exact Hne. exists l. repeat split; auto.
Qed.

Lemma loans_are_permanent_witness :
  exists l' : Loan.t,
    OD.get 2 (loan_db (exec (ReturnBook (ReturnModel.mk 2) (mkdate 2025 12 2))
                         initial_state)) = Some l'
    /\ Loan.book_id l' = 2
    /\ Loan.user_id l' = 2
    /\ Loan.loan_date l' = "2025-11-10"
    /\ Loan.due_date l' = "2025-11-24"
    /\ ("active" = "returned" ->
        l' = Loan.mk 2 2 "2025-11-10" "2025-11-24" None "active").
Proof.
  exact (loans_are_permanent
           (ReturnBook (ReturnModel.mk 2) (mkdate 2025 12 2)) initial_state 2
           (Loan.mk 2 2 "2025-11-10" "2025-11-24" None "active") eq_refl).
Defined.

(** ** The stock of a book *)

Lemma reachable_by_reachable (A : request -> Prop) (st : State) :
  reachable_by A st -> reachable st.
Proof.
  intros H. induction H as [|r st _ _ IH].
  - apply reachable_init.
  - now apply reachable_step.
Qed.

Lemma copies_of_set_same books k b :
  copies_of k (OD.set k b books) = Book.copies_available b.
Proof. unfold copies_of. now rewrite get_set_same. Qed.

Lemma copies_of_set_other books k k' b :
  k' <> k -> copies_of k' (OD.set k b books) = copies_of k' books.
Proof. intros H. unfold copies_of. now rewrite get_set_other. Qed.

Lemma active_loans_of_app k loans item :
  active_loans_of k (loans ++ [item])
  = active_loans_of k loans
    + (if (Loan.book_id (snd item) =? k)
          && String.eqb (Loan.status (snd item)) "active"
       then 1 else 0).
Proof.
  unfold active_loans_of. rewrite filter_app, length_app. cbn [filter].
  destruct (_ && _); cbn [List.length]; lia.
Qed.

(** Rewriting the loan under a key moves the count by the difference of the
    old and the new loan. *)
Lemma active_loans_of_set k loans id l l' :
  OD.get id loans = Some l ->
  active_loans_of k (OD.set id l' loans)
  = active_loans_of k loans
    - (if (Loan.book_id l =? k) && String.eqb (Loan.status l) "active"
       then 1 else 0)
    + (if (Loan.book_id l' =? k) && String.eqb (Loan.status l') "active"
       then 1 else 0).
Proof.
  unfold active_loans_of.
  induction loans as [|[id0 l0] loans IH]; cbn [OD.get OD.set]; [discriminate|].
  destruct (id0 =? id) eqn:E.
  - intros [= ->]. cbn [filter snd].
    destruct ((Loan.book_id l =? k) && _); destruct ((Loan.book_id l' =? k) && _);
      cbn [List.length]; lia.
  - intros H. specialize (IH H). cbn [filter snd].
    destruct ((Loan.book_id l0 =? k) && _); cbn [List.length]; lia.
Qed.

Lemma stock_same (k : Z) (st st' : State) :
  book_db st' = book_db st -> loan_db st' = loan_db st ->
  stock k st' = stock k st.
Proof. unfold stock. now intros -> ->. Qed.

Lemma borrow_conserves_stock_eq st borrow now1 due book k :
  OD.get (BorrowModel.book_id borrow) (book_db st) = Some book ->
  stock k
    (mkState
       (OD.set (BorrowModel.book_id borrow)
          (Book.set_copies_available book (Book.copies_available book - 1))
          (book_db st))
       (user_db st)
       (loan_db st
        ++ [(OD.next_id (loan_db st), borrowed_loan_of borrow now1 due)]))
  = stock k st.
Proof.
  intros Hbook. unfold stock. cbn [book_db loan_db].
  rewrite active_loans_of_app.
  cbn [snd borrowed_loan_of Loan.book_id Loan.status String.eqb Ascii.eqb
       Bool.eqb].
  rewrite andb_true_r.
  destruct (Z.eq_dec k (BorrowModel.book_id borrow)) as [->|Hne].
  - rewrite copies_of_set_same, Z.eqb_refl.
    unfold copies_of. rewrite Hbook. cbn. lia.
  - rewrite copies_of_set_other by exact Hne.
    destruct (BorrowModel.book_id borrow =? k) eqn:E;
      [apply Z.eqb_eq in E; congruence | lia].
Qed.

Lemma return_conserves_stock_eq st return_data now loan book k :
  OD.get (ReturnModel.loan_id return_data) (loan_db st) = Some loan ->
  Loan.status loan = "active" ->
  OD.get (Loan.book_id loan) (book_db st) = Some book ->
  stock k
    (mkState
       (OD.set (Loan.book_id loan)
          (Book.set_copies_available book (Book.copies_available book + 1))
          (book_db st))
       (user_db st)
       (OD.set (ReturnModel.loan_id return_data)
          (returned_loan_of loan now) (loan_db st)))
  = stock k st.
Proof.
  intros Hloan Hst Hbook. unfold stock. cbn [book_db loan_db].
  rewrite (active_loans_of_set k _ _ loan _ Hloan).
  cbn [returned_loan_of Loan.book_id Loan.status]. rewrite Hst.
  cbn [String.eqb Ascii.eqb Bool.eqb]. rewrite andb_true_r, andb_false_r.
  destruct (Z.eq_dec k (Loan.book_id loan)) as [->|Hne].
  - rewrite copies_of_set_same, Z.eqb_refl.
    unfold copies_of. rewrite Hbook. cbn. lia.
  - rewrite copies_of_set_other by exact Hne.
    destruct (Loan.book_id loan =? k) eqn:E;
      [apply Z.eqb_eq in E; congruence | lia].
Qed.

(** X8. A borrow conserves the stock of every book, whatever its outcome:
    the copies on the shelf plus the active loans of the book are after the
    request what they were before. *)
Theorem borrow_conserves_stock
  (st : State) (borrow : BorrowModel.t) (now1 now2 : date) (k : Z) :
  stock k (snd (borrow_book borrow now1 now2 st)) = stock k st.
Proof.
  rewrite borrow_book_eq.
  destruct (OD.get _ (book_db st)) as [book|] eqn:Hbook; [|reflexivity].
  destruct (_ <=? 0); [reflexivity|].
  destruct (add_days now2 14) as [due|c d|e]; try reflexivity.
  cbn zeta. cbn [snd]. now apply borrow_conserves_stock_eq.
Qed.

(** X9. The return of an active loan whose book is in the book store
    conserves the stock of every book; the return of one whose book was
    deleted loses a copy: the loan is no longer active and no counter
    took the copy back. *)
Theorem return_conserves_stock
  (st : State) (return_data : ReturnModel.t) (now : date)
  (loan : Loan.t) (k : Z) :
  OD.get (ReturnModel.loan_id return_data) (loan_db st) = Some loan ->
  Loan.status loan = "active" ->
  stock k (snd (return_book return_data now st))
  = stock k st
    - (if (Loan.book_id loan =? k)
          && negb (OD.mem (Loan.book_id loan) (book_db st))
       then 1 else 0).
Proof.
  intros Hloan Hst. unfold OD.mem.
  destruct (OD.get (Loan.book_id loan) (book_db st)) as [book|] eqn:Hbook.
  - rewrite (return_active_loan st return_data now loan book Hloan Hst Hbook).
    cbn [snd negb]. rewrite andb_false_r, Z.sub_0_r.
    now apply return_conserves_stock_eq.
  - rewrite (return_dangling_loan st return_data now loan Hloan Hst Hbook).
    cbn [snd negb]. rewrite andb_true_r.
    unfold stock. cbn [book_db loan_db].
    rewrite (active_loans_of_set k _ _ loan _ Hloan).
    cbn [returned_loan_of Loan.book_id Loan.status]. rewrite Hst.
    cbn [String.eqb Ascii.eqb Bool.eqb]. rewrite andb_true_r, andb_false_r.
    destruct (Loan.book_id loan =? k); lia.
Qed.

Lemma return_conserves_stock_witness :
  stock 2 (snd (return_book (ReturnModel.mk 2) (mkdate 2025 12 2)
                  initial_state))
  = stock 2 initial_state - 0
  /\ stock 2 (snd (return_book (ReturnModel.mk 2) (mkdate 2025 12 2)
                     (exec (DeleteBook 2) initial_state)))
     = stock 2 (exec (DeleteBook 2) initial_state) - 1.
Proof.
  split.
  - exact (return_conserves_stock initial_state (ReturnModel.mk 2)
             (mkdate 2025 12 2)
             (Loan.mk 2 2 "2025-11-10" "2025-11-24" None "active")
             2 eq_refl eq_refl).
  - exact (return_conserves_stock (exec (DeleteBook 2) initial_state)
             (ReturnModel.mk 2) (mkdate 2025 12 2)
             (Loan.mk 2 2 "2025-11-10" "2025-11-24" None "active")
             2 eq_refl eq_refl).
Defined.

Lemma active_loans_have_books_seed : active_loans_have_books initial_state.
Proof.
  intros id l Hin Hact. simpl in Hin.
  destruct Hin as [[= <- <-]|[[= <- <-]|[[= <- <-]|[]]]];
    eexists; reflexivity.
Qed.

Lemma loans_ok_reachable (st : State) :
  reachable st -> every_loan loan_ok st.
Proof.
  intros Hreach.
  apply (reachable_with_every_loan loan_ok (fun _ => True)).
  - intros borrow now1 now2 due _ _. apply loan_ok_borrowed.
  - intros loan now _. apply loan_ok_returned.
  - apply loans_ok_seed.
  - now apply reachable_with_any_clock.
Qed.

(** Without writes of the inventory endpoints, the books of the active
    loans stay in the store and the stock of each book stays what it is. *)
Lemma exec_conserves_stock (r : request) (st : State) :
  ~ inventory_write r ->
  every_loan loan_ok st ->
  active_loans_have_books st ->
  active_loans_have_books (exec r st)
  /\ forall k, stock k (exec r st) = stock k st.
Proof.
  intros Hr Hok Hbooks.
  transition_cases r st; cbn [inventory_write] in Hr; try tauto;
    try (split; [exact Hbooks | reflexivity]).
  - (* a borrow *)
    split.
    + intros id l. cbn [loan_db book_db]. rewrite in_app_iff.
      intros [Hin|[[= <- <-]|[]]] Hact.
      * destruct (Hbooks id l Hin Hact) as [b Hb].
        destruct (Z.eq_dec (Loan.book_id l) (BorrowModel.book_id borrow))
          as [->|Hne].
        -- rewrite get_set_same. eauto.
        -- rewrite get_set_other by exact Hne. eauto.
      * cbn [borrowed_loan_of Loan.book_id]. rewrite get_set_same. eauto.
    + intros k.
      pose proof (borrow_conserves_stock_eq st borrow now1 due book k H) as E.
      exact E.
  - (* a return *)
    assert (Hact : Loan.status loan = "active").
    { destruct (Hok _ loan (get_in _ _ _ H)) as [[Ha|Ha] _];
        [exact Ha | contradiction]. }
    split.
    + intros id' l'. cbn [loan_db book_db]. intros Hin Hact'.
      apply in_set in Hin. destruct Hin as [[= <- <-]|Hin].
      * discriminate Hact'.
      * destruct (Hbooks id' l' Hin Hact') as [b Hb].
        destruct (Z.eq_dec (Loan.book_id l') (Loan.book_id loan))
          as [->|Hne].
        -- rewrite get_set_same. eauto.
        -- rewrite get_set_other by exact Hne. eauto.
    + intros k.
      exact (return_conserves_stock_eq st return_data now loan book k
               H Hact H1).
  - (* a return that raises: the book of an active loan is in the store *)
    exfalso.
    assert (Hact : Loan.status loan = "active").
    { destruct (Hok _ loan (get_in _ _ _ H)) as [[Ha|Ha] _];
        [exact Ha | contradiction]. }
    destruct (Hbooks _ loan (get_in _ _ _ H) Hact) as [b Hb].
    congruence.
Qed.

(** X10. As long as no request adds, updates or deletes a book, every
    request that succeeds or fails leaves the stock of every book at what
    the seeded stores hold: copies on the shelf plus active loans. *)
Theorem stock_is_conserved (st : State) (k : Z) :
  reachable_by (fun r => ~ inventory_write r) st ->
  stock k st = stock k initial_state.
Proof.
  intros Hreach. revert k.
  assert (H : active_loans_have_books st
              /\ forall k, stock k st = stock k initial_state);
    [|exact (proj2 H)].
  induction Hreach as [|r st Hr Hreach [IHb IHs]].
  - split; [apply active_loans_have_books_seed | reflexivity].
  - destruct (exec_conserves_stock r st Hr
                (loans_ok_reachable st (reachable_by_reachable _ st Hreach))
                IHb) as [Hb Hs].
    split; [exact Hb|]. intros k. now rewrite Hs.
Qed.

Lemma stock_is_conserved_witness :
  stock 3 (exec (ReturnBook (ReturnModel.mk 3) (mkdate 2025 12 3))
             (exec (BorrowBook (BorrowModel.mk 3 4) (mkdate 2025 12 1)
                      (mkdate 2025 12 1))
                initial_state))
  = 6.
Proof.
  apply (stock_is_conserved _ 3).
  apply reachable_by_step; [intros []|].
  apply reachable_by_step; [intros []|].
  apply reachable_by_init.
Defined.

(** X11. The service never makes a counter negative by itself: as long as
    no request sends a negative [copies_available], every book of every
    state has [copies_available >= 0]. *)
Theorem copies_never_negative (st : State) (k : Z) (b : Book.t) :
  reachable_by sends_no_negative_copies st ->
  In (k, b) (book_db st) ->
  0 <= Book.copies_available b.
Proof.
  intros Hreach. revert k b.
  induction Hreach as [|r st Hr Hreach IH].
  - intros k b Hin. simpl in Hin.
    destruct Hin
      as [[= <- <-]|[[= <- <-]|[[= <- <-]|[[= <- <-]|[[= <- <-]|[]]]]]];
      cbn; lia.
  - intros k b.
    transition_cases r st; cbn [sends_no_negative_copies book_db] in *;
      try apply IH.
    + rewrite in_app_iff.
      intros [Hin|[[= <- <-]|[]]]; [eapply IH; exact Hin | exact Hr].
    + intros Hin. apply in_set in Hin.
      destruct Hin as [[= <- <-]|Hin]; [exact Hr | eapply IH; exact Hin].
    + intros Hin. apply in_del in Hin. eapply IH; exact Hin.
    + intros Hin. apply in_set in Hin.
      destruct Hin as [[= <- <-]|Hin]; [cbn; lia | eapply IH; exact Hin].
    + intros Hin. apply in_set in Hin.
      destruct Hin as [[= <- <-]|Hin]; [|eapply IH; exact Hin].
      cbn. pose proof (IH _ _ (get_in _ _ _ H1)). lia.
Qed.

Lemma copies_never_negative_witness :
  0 <= Book.copies_available
         (Book.mk "To Kill a Mockingbird" "Harper Lee" "9780060935467"
            1960 1).
Proof.
  apply (copies_never_negative
           (exec (BorrowBook (BorrowModel.mk 2 4) (mkdate 2025 12 1)
                    (mkdate 2025 12 1)) initial_state) 2).
  - apply reachable_by_step; [exact I | apply reachable_by_init].
  - right. left. reflexivity.
Defined.

(** ** Loops that collect *)

Lemma for_each_collect {A B} (xs : list A)
  (body : A -> list B -> handler (list B)) (f : A -> list B) (st : State) :
  (forall x acc, In x xs -> body x acc st = (Ok (acc ++ f x), st)) ->
  forall acc, for_each xs body acc st = (Ok (acc ++ flat_map f xs), st).
Proof.
  induction xs as [|x xs IH]; intros Hbody acc.
  - cbn. now rewrite app_nil_r.
  - cbn [for_each flat_map bind handler_monad].
    rewrite (Hbody x acc (or_introl eq_refl)).
    rewrite IH by (intros y a Hy; apply Hbody; now right).
    now rewrite app_assoc.
Qed.

Lemma for_each_sum {A} (xs : list A) (body : A -> Z -> handler Z)
  (w : A -> Z) (st : State) :
  (forall x c, In x xs -> body x c st = (Ok (c + w x), st)) ->
  forall acc,
    for_each xs body acc st
    = (Ok (acc + fold_right Z.add 0 (map w xs)), st).
Proof.
  induction xs as [|x xs IH]; intros Hbody acc.
  - cbn. now rewrite Z.add_0_r.
  - cbn [for_each map fold_right bind handler_monad].
    rewrite (Hbody x acc (or_introl eq_refl)).
    rewrite IH by (intros y a Hy; apply Hbody; now right).
    now rewrite Z.add_assoc.
Qed.

(** ** The listings of the loan service *)

Lemma list_borrowed_books_eq (st : State) :
  list_borrowed_books st
  = (Ok (flat_map (borrowed_of st) (loan_db st),
         Z.of_nat (List.length (flat_map (borrowed_of st) (loan_db st)))),
     st).
Proof.
  unfold list_borrowed_books. run_handler. unfold OD.items.
  rewrite (for_each_collect _ _ (borrowed_of st)); [reflexivity|].
  intros [id l] acc _. unfold borrowed_of. cbn [fst snd].
  destruct (String.eqb (Loan.status l) "active"); run_handler;
    [reflexivity | now rewrite app_nil_r].
Qed.

(** X12. The list of borrowed books has an entry exactly for the loans
    that are active, each with the title of its book ([Unknown] for a book
    that is not in the store), and its total is the number of entries. *)
Theorem borrowed_books_are_the_active_loans (st : State) :
  exists entries : list (Z * Loan.t * string),
    list_borrowed_books st
    = (Ok (entries, Z.of_nat (List.length entries)), st)
    /\ forall id l title,
         In (id, l, title) entries <->
         In (id, l) (loan_db st)
         /\ Loan.status l = "active"
         /\ title = match OD.get (Loan.book_id l) (book_db st) with
                    | Some book => Book.title book
                    | None => "Unknown"
                    end.
Proof.
  eexists. split; [apply list_borrowed_books_eq|].
  intros id l title. rewrite in_flat_map. split.
  - intros [[id0 l0] [Hin He]]. unfold borrowed_of in He. cbn [fst snd] in He.
    destruct (String.eqb (Loan.status l0) "active") eqn:Hact; [|destruct He].
    apply String.eqb_eq in Hact. destruct He as [[= <- <- <-]|[]].
    repeat split; assumption.
  - intros (Hin & Hact & ->). exists (id, l). split; [exact Hin|].
    unfold borrowed_of. cbn [fst snd]. rewrite Hact. now left.
Qed.

Lemma track_borrowing_eq (user_id book_id : option Z) (st : State) :
  track_borrowing user_id book_id st
  = (Ok (flat_map (tracked_of user_id book_id) (loan_db st),
         Z.of_nat
           (List.length (flat_map (tracked_of user_id book_id) (loan_db st)))),
     st).
Proof.
  unfold track_borrowing. run_handler. unfold OD.items.
  rewrite (for_each_collect _ _ (tracked_of user_id book_id));
    [reflexivity|].
  intros [id l] acc _. unfold tracked_of, passes. cbn [fst snd].
  destruct (truthy user_id && differs user_id (Loan.user_id l));
    cbn [negb andb]; run_handler; [now rewrite app_nil_r|].
  destruct (truthy book_id && differs book_id (Loan.book_id l));
    cbn [negb]; run_handler; [now rewrite app_nil_r | reflexivity].
Qed.

Lemma passes_iff (filter : option Z) (n : Z) :
  passes filter n = true <-> forall m, filter = Some m -> m <> 0 -> n = m.
Proof.
  unfold passes, truthy, differs. destruct filter as [m|]; cbn.
  - destruct (m =? 0) eqn:E0; cbn.
    + apply Z.eqb_eq in E0. split; [|reflexivity].
      intros _ m' [= <-] Hm. contradiction.
    + apply Z.eqb_neq in E0. rewrite negb_involutive, Z.eqb_eq.
      split; [intros -> m' [= <-] _; reflexivity | intros H; now apply H].
  - split; [intros _ m [=] | reflexivity].
Qed.

(** X13. Tracking returns the loans that pass both filters, in the order of
    the loan store, with their number.  A filter passes a loan when it is
    not given, or is 0, or is the loan's value: the loans of user 0 or of
    book 0 cannot be asked for, and with both filters absent or 0 the whole
    loan store is returned. *)
Theorem track_borrowing_filters
  (st : State) (user_id book_id : option Z) :
  exists results : list (Z * Loan.t),
    track_borrowing user_id book_id st
    = (Ok (results, Z.of_nat (List.length results)), st)
    /\ results
       = filter (fun item => passes user_id (Loan.user_id (snd item))
                             && passes book_id (Loan.book_id (snd item)))
           (loan_db st)
    /\ (forall id l,
          In (id, l) results <->
          In (id, l) (loan_db st)
          /\ (forall n, user_id = Some n -> n <> 0 -> Loan.user_id l = n)
          /\ (forall n, book_id = Some n -> n <> 0 -> Loan.book_id l = n))
    /\ ((user_id = None \/ user_id = Some 0) ->
        (book_id = None \/ book_id = Some 0) ->
        results = loan_db st).
Proof.
  eexists. split; [apply track_borrowing_eq|].
  assert (E : flat_map (tracked_of user_id book_id) (loan_db st)
              = filter (fun item => passes user_id (Loan.user_id (snd item))
                                    && passes book_id (Loan.book_id (snd item)))
                  (loan_db st)).
  { induction (loan_db st) as [|item d IH]; [reflexivity|].
    cbn [flat_map filter]. rewrite IH. unfold tracked_of.
    destruct (_ && _); reflexivity. }
  split; [exact E|]. rewrite E. split.
  - intros id l. rewrite filter_In. cbn [snd].
    rewrite andb_true_iff, !passes_iff. tauto.
  - intros Hu Hb. clear E.
    induction (loan_db st) as [|item d IH]; [reflexivity|].
    cbn [filter]. rewrite IH.
    assert (Hpu : passes user_id (Loan.user_id (snd item)) = true)
      by (destruct Hu as [-> | ->]; reflexivity).
    assert (Hpb : passes book_id (Loan.book_id (snd item)) = true)
      by (destruct Hb as [-> | ->]; reflexivity).
    now rewrite Hpu, Hpb.
Qed.

Lemma track_borrowing_filters_witness :
  exists results : list (Z * Loan.t),
    track_borrowing (Some 0) None initial_state
    = (Ok (results, Z.of_nat (List.length results)), initial_state)
    /\ results = loan_db_seed.
Proof.
  destruct (track_borrowing_filters initial_state (Some 0) None)
    as (results & Hrun & _ & _ & Hall).
  exists results. split; [exact Hrun|].
  apply Hall; [now right | now left].
Defined.

Lemma get_borrowing_history_eq
  (user_id book_id : option Z) (status : option string) (st : State) :
  get_borrowing_history user_id book_id status st
  = (Ok (flat_map (history_of st user_id book_id status) (loan_db st),
         Z.of_nat
           (List.length
              (flat_map (history_of st user_id book_id status) (loan_db st)))),
     st).
Proof.
  unfold get_borrowing_history. run_handler. unfold OD.items.
  rewrite (for_each_collect _ _ (history_of st user_id book_id status));
    [reflexivity|].
  intros [id l] acc _. unfold history_of, passes. cbn [fst snd].
  destruct (truthy user_id && differs user_id (Loan.user_id l));
    cbn [negb andb]; run_handler; [now rewrite app_nil_r|].
  destruct (truthy book_id && differs book_id (Loan.book_id l));
    cbn [negb andb]; run_handler; [now rewrite app_nil_r|].
  destruct (status_differs status (Loan.status l));
    cbn [negb]; run_handler; [now rewrite app_nil_r | reflexivity].
Qed.

(** X14. The borrowing history is the tracking of the same filters, cut
    down to the loans of the status asked for (all of them when no status,
    or the empty one, is given), in the same order; each entry carries the
    title of the book and the name of the user, or [Unknown]. *)
Theorem history_refines_tracking
  (st : State) (user_id book_id : option Z) (status : option string) :
  exists (history : list HistoryEntry) (results : list (Z * Loan.t)),
    get_borrowing_history user_id book_id status st
    = (Ok (history, Z.of_nat (List.length history)), st)
    /\ track_borrowing user_id book_id st
       = (Ok (results, Z.of_nat (List.length results)), st)
    /\ map (fun e => (history_loan_id e, history_loan e)) history
       = filter (fun item =>
                   match status with
                   | None => true
                   | Some s =>
                       String.eqb s ""
                       || String.eqb (Loan.status (snd item)) s
                   end) results
    /\ forall e, In e history ->
         history_book_title e
         = match OD.get (Loan.book_id (history_loan e)) (book_db st) with
           | Some book => Book.title book
           | None => "Unknown"
           end
         /\ history_user_name e
            = match OD.get (Loan.user_id (history_loan e)) (user_db st) with
              | Some user => User.name user
              | None => "Unknown"
              end.
Proof.
  eexists. eexists.
  split; [apply get_borrowing_history_eq|].
  split; [apply track_borrowing_eq|]. split.
  - induction (loan_db st) as [|[id l] d IH]; [reflexivity|].
    cbn [flat_map]. rewrite map_app, filter_app, IH. f_equal.
    unfold history_of, tracked_of. cbn [fst snd].
    destruct (passes user_id (Loan.user_id l)
              && passes book_id (Loan.book_id l)); [|reflexivity].
    cbn [andb filter snd]. unfold status_differs.
    destruct status as [s|]; [|reflexivity].
    destruct (String.eqb s ""); cbn [negb andb orb]; [reflexivity|].
    destruct (String.eqb (Loan.status l) s); reflexivity.
  - intros e He. apply in_flat_map in He. destruct He as [[id l] [_ He]].
    unfold history_of in He. cbn [fst snd] in He.
    destruct (_ && _); [|destruct He]. destruct He as [<-|[]].
    split; reflexivity.
Qed.

(** ** What the reports show of a deleted book or user *)

Lemma map_flat_map {A B C} (f : B -> C) (g : A -> list B) (xs : list A) :
  map f (flat_map g xs) = flat_map (fun x => map f (g x)) xs.
Proof.
  induction xs as [|x xs IH]; [reflexivity|].
  cbn [flat_map]. now rewrite map_app, IH.
Qed.

Lemma history_of_without_book
  (books : OD.t Book.t) (users : OD.t User.t) (loans loans' : OD.t Loan.t)
  (k : Z) (user_id book_id : option Z) (status : option string)
  (item : Z * Loan.t) :
  is_dict books ->
  history_of (mkState (OD.del k books) users loans') user_id book_id status
    item
  = map (fun e =>
           if Loan.book_id (history_loan e) =? k
           then mkHistoryEntry (history_loan_id e) (history_loan e)
                  "Unknown" (history_user_name e)
           else e)
      (history_of (mkState books users loans) user_id book_id status item).
Proof.
  intros Hd. unfold history_of. cbn [book_db user_db].
  destruct (_ && _); [|reflexivity].
  cbn [map history_loan history_loan_id history_user_name].
  unfold title_or_unknown.
  destruct (Loan.book_id (snd item) =? k) eqn:E.
  - apply Z.eqb_eq in E. rewrite E, get_del_same by exact Hd. reflexivity.
  - apply Z.eqb_neq in E. rewrite get_del_other by exact E. reflexivity.
Qed.

Lemma history_of_without_user
  (books : OD.t Book.t) (users : OD.t User.t) (loans loans' : OD.t Loan.t)
  (k : Z) (user_id book_id : option Z) (status : option string)
  (item : Z * Loan.t) :
  is_dict users ->
  history_of (mkState books (OD.del k users) loans') user_id book_id status
    item
  = map (fun e =>
           if Loan.user_id (history_loan e) =? k
           then mkHistoryEntry (history_loan_id e) (history_loan e)
                  (history_book_title e) "Unknown"
           else e)
      (history_of (mkState books users loans) user_id book_id status item).
Proof.
  intros Hd. unfold history_of. cbn [book_db user_db].
  destruct (_ && _); [|reflexivity].
  cbn [map history_loan history_loan_id history_book_title].
  unfold name_or_unknown.
  destruct (Loan.user_id (snd item) =? k) eqn:E.
  - apply Z.eqb_eq in E. rewrite E, get_del_same by exact Hd. reflexivity.
  - apply Z.eqb_neq in E. rewrite get_del_other by exact E. reflexivity.
Qed.

(** X15. Deleting does not cascade.  After a book is deleted the loan store
    is as it was, and the history (for any filters) lists the same loans as
    before the deletion, in the same order and with the same total; the
    entries for loans of the deleted book now carry the title [Unknown], and
    nothing else in any entry changes.  After a user is deleted it is the
    same, with the name [Unknown] in the entries for loans of that user. *)
Theorem deleted_references_read_unknown
  (st st0 st' : State) (k : Z) (r : Deleted)
  (user_id book_id : option Z) (status : option string)
  (history : list HistoryEntry) (total : Z) :
  stores_are_dicts st ->
  get_borrowing_history user_id book_id status st
  = (Ok (history, total), st0) ->
  (delete_book k st = (Ok r, st') ->
   loan_db st' = loan_db st
   /\ get_borrowing_history user_id book_id status st'
      = (Ok (map (fun e =>
                    if Loan.book_id (history_loan e) =? k
                    then mkHistoryEntry (history_loan_id e) (history_loan e)
                           "Unknown" (history_user_name e)
                    else e) history,
             total), st'))
  /\ (delete_user k st = (Ok r, st') ->
      loan_db st' = loan_db st
      /\ get_borrowing_history user_id book_id status st'
         = (Ok (map (fun e =>
                       if Loan.user_id (history_loan e) =? k
                       then mkHistoryEntry (history_loan_id e)
                              (history_loan e) (history_book_title e)
                              "Unknown"
                       else e) history,
                total), st')).
Proof.
  intros (Hb & Hu & _). rewrite get_borrowing_history_eq.
  intros [= <- <- _]. destruct st as [books users loans].
  cbn [book_db user_db loan_db] in *. split.
  - rewrite delete_book_eq. cbn [book_db user_db loan_db].
    destruct (OD.get k books); [|discriminate].
    intros [= _ <-]. split; [reflexivity|].
    rewrite get_borrowing_history_eq. cbn [loan_db].
    rewrite (flat_map_ext _ _
               (fun item =>
                  history_of_without_book books users loans loans k
                    user_id book_id status item Hb)).
    rewrite <- map_flat_map, length_map. reflexivity.
  - rewrite delete_user_eq. cbn [book_db user_db loan_db].
    destruct (OD.get k users); [|discriminate].
    intros [= _ <-]. split; [reflexivity|].
    rewrite get_borrowing_history_eq. cbn [loan_db].
    rewrite (flat_map_ext _ _
               (fun item =>
                  history_of_without_user books users loans loans k
                    user_id book_id status item Hu)).
    rewrite <- map_flat_map, length_map. reflexivity.
Qed.

Lemma deleted_references_read_unknown_witness :
  loan_db (exec (DeleteBook 2) initial_state) = loan_db_seed
  /\ get_borrowing_history None None None (exec (DeleteBook 2) initial_state)
     = (Ok ([ mkHistoryEntry 1
                (Loan.mk 1 1 "2025-11-01" "2025-11-15" (Some "2025-11-14")
                   "returned") "1984" "John Doe";
              mkHistoryEntry 2
                (Loan.mk 2 2 "2025-11-10" "2025-11-24" None "active")
                "Unknown" "Jane Smith";
              mkHistoryEntry 3
                (Loan.mk 3 1 "2025-11-15" "2025-11-29" None "active")
                "The Great Gatsby" "John Doe" ], 3),
        exec (DeleteBook 2) initial_state).
Proof.
  exact (proj1 (deleted_references_read_unknown initial_state initial_state
                  (exec (DeleteBook 2) initial_state) 2
                  (mkDeleted "Book deleted successfully" 2)
                  None None None
                  [ mkHistoryEntry 1
                      (Loan.mk 1 1 "2025-11-01" "2025-11-15"
                         (Some "2025-11-14") "returned") "1984" "John Doe";
                    mkHistoryEntry 2
                      (Loan.mk 2 2 "2025-11-10" "2025-11-24" None "active")
                      "To Kill a Mockingbird" "Jane Smith";
                    mkHistoryEntry 3
                      (Loan.mk 3 1 "2025-11-15" "2025-11-29" None "active")
                      "The Great Gatsby" "John Doe" ]
                  3 stores_are_dicts_seed eq_refl)
           eq_refl).
Defined.

(** ** The dashboard *)

Lemma overdue_of_length_le (st : State) (today : date) (item : Z * Loan.t) :
  (List.length (overdue_of st today item)
   <= List.length (borrowed_of st item))%nat.
Proof.
  unfold overdue_of, borrowed_of.
  destruct (String.eqb (Loan.status (snd item)) "active"); [|cbn; lia].
  destruct (strptime _); cbn; try lia.
  destruct (date_ltb _ _); cbn; lia.
Qed.

Lemma flat_map_length_le {A B C} (f : A -> list B) (g : A -> list C)
  (xs : list A) :
  (forall x, (List.length (f x) <= List.length (g x))%nat) ->
  (List.length (flat_map f xs) <= List.length (flat_map g xs))%nat.
Proof.
  intros H. induction xs as [|x xs IH]; cbn; [lia|].
  rewrite !length_app. specialize (H x). lia.
Qed.

Lemma borrowed_of_length (st : State) (loans : OD.t Loan.t) :
  List.length (flat_map (borrowed_of st) loans)
  = List.length
      (filter (fun loan => String.eqb (Loan.status loan) "active")
         (OD.values loans)).
Proof.
  induction loans as [|[id l] loans IH]; [reflexivity|].
  cbn [flat_map OD.values map filter snd]. rewrite length_app.
  unfold borrowed_of at 1. cbn [snd fst].
  unfold OD.values in IH.
  destruct (String.eqb (Loan.status l) "active"); cbn [List.length]; lia.
Qed.

Lemma flat_map_length_bound {A B} (f : A -> list B) (xs : list A) :
  (forall x, (List.length (f x) <= 1)%nat) ->
  (List.length (flat_map f xs) <= List.length xs)%nat.
Proof.
  intros H. induction xs as [|x xs IH]; cbn; [lia|].
  rewrite length_app. specialize (H x). lia.
Qed.

Lemma overdue_count_sum (st : State) (today : date) (loans : OD.t Loan.t) :
  fold_right Z.add 0
    (map (fun loan => Z.of_nat (List.length (overdue_of st today (0, loan))))
       (OD.values loans))
  = Z.of_nat (List.length (flat_map (overdue_of st today) loans)).
Proof.
  unfold OD.values. induction loans as [|[id l] loans IH]; [reflexivity|].
  cbn [map fold_right flat_map snd]. rewrite length_app, IH.
  unfold overdue_of. cbn [fst snd].
  destruct (String.eqb (Loan.status l) "active"); [|cbn; lia].
  destruct (strptime _); cbn [List.length]; try lia.
  destruct (date_ltb _ _); cbn [List.length]; lia.
Qed.

(** X16. The dashboard agrees with the other reports.  Where the due date
    of every active loan parses, it succeeds and writes nothing; its count
    of overdue loans is the total of the overdue report, its count of active
    loans is the total of the list of borrowed books, its count of returned
    loans is the rest of the loans, and overdue <= active <= total. *)
Theorem dashboard_agrees_with_reports (st : State) (today : date) :
  due_dates_parse (loan_db st) ->
  exists (d : Dashboard) (overdue : OverdueResponse)
         (borrowed : list (Z * Loan.t * string)),
    get_dashboard_stats today st = (Ok d, st)
    /\ get_overdue_books today st = (Ok overdue, st)
    /\ list_borrowed_books st = (Ok (borrowed, active_loans d), st)
    /\ overdue_loans d = overdue_total overdue
    /\ total_books d = Z.of_nat (List.length (book_db st))
    /\ total_users d = Z.of_nat (List.length (user_db st))
    /\ total_loans d = Z.of_nat (List.length (loan_db st))
    /\ active_loans d + returned_loans d = total_loans d
    /\ 0 <= overdue_loans d <= active_loans d
    /\ active_loans d <= total_loans d.
Proof.
  intros Hparse.
  rewrite (get_overdue_books_eq st today Hparse), list_borrowed_books_eq.
  unfold get_dashboard_stats. run_handler.
  rewrite (for_each_sum _ _
             (fun loan => Z.of_nat (List.length (overdue_of st today (0, loan))))).
  2:{ intros loan c Hin. unfold OD.values in Hin. apply in_map_iff in Hin.
      destruct Hin as [[id l] [<- Hin]]. cbn [snd].
      unfold overdue_of. cbn [fst snd].
      destruct (String.eqb (Loan.status l) "active") eqn:Hact;
        run_handler; [|now rewrite Z.add_0_r].
      apply String.eqb_eq in Hact.
      destruct (Hparse id l Hin Hact) as [due Hdue].
      unfold lift. rewrite Hdue.
      destruct (date_ltb due today); run_handler;
        [reflexivity | now rewrite Z.add_0_r]. }
  rewrite overdue_count_sum, Z.add_0_l.
  pose proof (flat_map_length_le (overdue_of st today) (borrowed_of st)
                (loan_db st) (overdue_of_length_le st today)) as Hle.
  pose proof (flat_map_length_bound (borrowed_of st) (loan_db st)) as Hle2.
  assert (Hone : forall x, (List.length (borrowed_of st x) <= 1)%nat).
  { intros x. unfold borrowed_of. destruct (String.eqb _ _); cbn; lia. }
  specialize (Hle2 Hone).
  rewrite <- (borrowed_of_length st (loan_db st)).
  eexists. eexists. eexists.
  split; [reflexivity|]. split; [reflexivity|]. split; [reflexivity|].
  cbn [overdue_loans overdue_total total_books total_users total_loans
       active_loans returned_loans].
  repeat split; lia.
Qed.

Lemma dashboard_agrees_with_reports_witness :
  exists (d : Dashboard) (overdue : OverdueResponse)
         (borrowed : list (Z * Loan.t * string)),
    get_dashboard_stats (mkdate 2025 11 27) initial_state
    = (Ok d, initial_state)
    /\ get_overdue_books (mkdate 2025 11 27) initial_state
       = (Ok overdue, initial_state)
    /\ list_borrowed_books initial_state
       = (Ok (borrowed, active_loans d), initial_state)
    /\ overdue_loans d = overdue_total overdue
    /\ total_books d = 5
    /\ total_users d = 4
    /\ total_loans d = 3
    /\ active_loans d + returned_loans d = total_loans d
    /\ 0 <= overdue_loans d <= active_loans d
    /\ active_loans d <= total_loans d.
Proof.
  apply (dashboard_agrees_with_reports initial_state (mkdate 2025 11 27)).
  intros k l Hin Hact. simpl in Hin.
  destruct Hin as [[= <- <-]|[[= <- <-]|[[= <- <-]|[]]]].
  - discriminate Hact.
  - eexists. reflexivity.
  - eexists. reflexivity.
Defined.

(** X17. With a clock that reads dates in years of four digits, the overdue
    report never raises: every due date in the loan store was written by
    [borrow_book] in the format the report parses.  Each of its entries is
    overdue by at least one day. *)
Theorem overdue_report_never_raises (st : State) (today : date) :
  reachable_with clock_ok st ->
  valid_dateb today = true ->
  exists resp : OverdueResponse,
    get_overdue_books today st = (Ok resp, st)
    /\ forall e, In e (overdue_books resp) -> 1 <= days_overdue e.
Proof.
  intros Hreach Htoday. eexists. split.
  - apply get_overdue_books_eq.
    apply every_loan_due_dates_parse, reachable_due_dates_parse, Hreach.
  - cbn [overdue_books]. intros e He.
    eapply overdue_days_positive; eassumption.
Qed.

Lemma overdue_report_never_raises_witness :
  exists resp : OverdueResponse,
    get_overdue_books (mkdate 2026 1 10)
      (exec (BorrowBook (BorrowModel.mk 1 3) (mkdate 2025 12 1)
               (mkdate 2025 12 1)) initial_state)
    = (Ok resp,
       exec (BorrowBook (BorrowModel.mk 1 3) (mkdate 2025 12 1)
               (mkdate 2025 12 1)) initial_state)
    /\ forall e, In e (overdue_books resp) -> 1 <= days_overdue e.
Proof.
  apply overdue_report_never_raises; [|reflexivity].
  apply reachable_with_step; [|apply reachable_with_init].
  cbn. unfold clock_ok. cbn. repeat split; lia.
Defined.

(** ** Users *)

Lemma stored_user_ok (user : UserModel.t) :
  rejected user = false -> user_ok (stored_user user).
Proof.
  unfold rejected, stored_user, user_ok. intros Hrej.
  destruct (String.eqb (UserModel.role user) "member") eqn:Hm.
  - apply String.eqb_eq in Hm. cbn. rewrite Hm. split.
    + discriminate.
    + intros _. split; reflexivity.
  - apply String.eqb_neq in Hm. cbn. split; [|intros H; contradiction].
    intros Hadmin. rewrite Hadmin in Hrej. cbn [String.eqb Ascii.eqb Bool.eqb andb] in Hrej.
    apply orb_false_iff in Hrej. destruct Hrej as [Hu Hp].
    unfold falsy in Hu, Hp.
    destruct (UserModel.username user) as [n|]; [|discriminate].
    destruct (UserModel.password user) as [p|]; [|discriminate].
    apply String.eqb_neq in Hu. apply String.eqb_neq in Hp.
    exists n, p. repeat split; assumption.
Qed.

(** X18. In every reachable state the credentials of every stored user fit
    its role: a user stored with role [admin] has a username and a password
    that are not empty, and a user stored with role [member] has neither
    key. *)
Theorem stored_users_fit_their_role (st : State) (k : Z) (u : User.t) :
  reachable st ->
  In (k, u) (user_db st) ->
  (User.role u = "admin" ->
   exists n p, User.username u = Some (Some n) /\ n <> ""
               /\ User.password u = Some (Some p) /\ p <> "")
  /\ (User.role u = "member" ->
      User.username u = None /\ User.password u = None).
Proof.
  intros Hreach. revert k u. change (forall k u, In (k, u) (user_db st) -> user_ok u).
  induction Hreach as [|r st _ IH].
  - intros k u Hin. simpl in Hin.
    destruct Hin as [[= <- <-]|[[= <- <-]|[[= <- <-]|[[= <- <-]|[]]]]];
      unfold user_ok; cbn; split; try discriminate;
      intros _; try (split; reflexivity).
    exists "johndoe", "admin123". repeat split; discriminate.
  - intros k u. transition_cases r st; cbn [user_db]; try apply IH.
    + rewrite in_app_iff.
      intros [Hin|[[= <- <-]|[]]]; [eapply IH; exact Hin|].
      now apply stored_user_ok.
    + intros Hin. apply in_set in Hin.
      destruct Hin as [[= <- <-]|Hin]; [|eapply IH; exact Hin].
      now apply stored_user_ok.
    + intros Hin. apply in_del in Hin. eapply IH; exact Hin.
Qed.

Lemma stored_users_fit_their_role_witness :
  exists n p,
    Some (Some "eve") = Some (Some n) /\ n <> ""
    /\ Some (Some "s3cret") = Some (Some p) /\ p <> "".
Proof.
  apply (stored_users_fit_their_role
           (exec (UpdateUser
                    (UserModel.mk "Eve Adams" "eve@example.com" "admin"
                       (Some "eve") (Some "s3cret")) 3)
              initial_state)
           3
           (User.mk "Eve Adams" "eve@example.com" "admin"
              (Some (Some "eve")) (Some (Some "s3cret")))).
  - apply reachable_step, reachable_init.
  - do 2 right. left. reflexivity.
  - reflexivity.
Defined.

(** X19. A user with a role other than [member] is stored as sent: when the
    request is accepted, the record has the [username] and [password] keys
    with the values of the request, also when they are [None] (any role but
    [admin] and [member]).  The record goes last, under an identifier that
    was not in use, and every stored user is still stored. *)
Theorem create_user_stores_as_sent (st : State) (user : UserModel.t) :
  UserModel.role user <> "member" ->
  (UserModel.role user = "admin" ->
   ~ missing_or_empty (UserModel.username user)
   /\ ~ missing_or_empty (UserModel.password user)) ->
  exists (record : User.t) (st' : State),
    create_user user st = (Ok record, st')
    /\ record
       = User.mk (UserModel.name user) (UserModel.email user)
           (UserModel.role user)
           (Some (UserModel.username user)) (Some (UserModel.password user))
    /\ ~ In (OD.next_id (user_db st)) (OD.keys (user_db st))
    /\ user_db st' = user_db st ++ [(OD.next_id (user_db st), record)]
    /\ (forall k u, OD.get k (user_db st) = Some u ->
          OD.get k (user_db st') = Some u)
    /\ book_db st' = book_db st
    /\ loan_db st' = loan_db st.
Proof.
  intros Hm Hadmin. rewrite create_user_eq.
  assert (Hrej : rejected user = false).
  { unfold rejected.
    destruct (String.eqb (UserModel.role user) "admin") eqn:Ha; [|reflexivity].
    apply String.eqb_eq in Ha. destruct (Hadmin Ha) as [Hu Hp].
    cbn [andb]. apply orb_false_iff. split.
    - destruct (falsy (UserModel.username user)) eqn:E; [|reflexivity].
      apply falsy_iff in E. contradiction.
    - destruct (falsy (UserModel.password user)) eqn:E; [|reflexivity].
      apply falsy_iff in E. contradiction. }
  assert (Hst : stored_user user = User.model_dump user).
  { unfold stored_user. apply String.eqb_neq in Hm. now rewrite Hm. }
  rewrite Hrej, Hst. eexists. eexists. split; [reflexivity|].
  split; [reflexivity|]. cbn [user_db book_db loan_db].
  split; [apply get_none_not_in, next_id_fresh|].
  split; [reflexivity|].
  split; [|split; reflexivity].
  intros k u H. eapply get_app_old. exact H.
Qed.

Lemma create_user_stores_as_sent_witness :
  exists (record : User.t) (st' : State),
    create_user (UserModel.mk "Ann Lee" "ann@example.com" "librarian"
                   None (Some "pw")) initial_state = (Ok record, st')
    /\ record
       = User.mk "Ann Lee" "ann@example.com" "librarian" (Some None)
           (Some (Some "pw"))
    /\ ~ In 5 [1; 2; 3; 4]
    /\ user_db st' = user_db_seed ++ [(5, record)]
    /\ (forall k u, OD.get k user_db_seed = Some u ->
          OD.get k (user_db st') = Some u)
    /\ book_db st' = book_db_seed
    /\ loan_db st' = loan_db_seed.
Proof.
  apply (create_user_stores_as_sent initial_state
           (UserModel.mk "Ann Lee" "ann@example.com" "librarian"
              None (Some "pw"))).
  - discriminate.
  - discriminate.
Defined.

(** ** The ranking of the most-borrowed report *)

Lemma in_get_dict {V} (d : OD.t V) (k : Z) (v : V) :
  is_dict d -> In (k, v) d -> OD.get k d = Some v.
Proof.
  unfold is_dict, OD.keys.
  induction d as [|[k0 v0] d IH]; cbn; [tauto|].
  intros Hnd. inversion Hnd as [|? ? Hnotin Hnd']; subst.
  intros [[= -> ->]|Hin].
  - now rewrite Z.eqb_refl.
  - destruct (k0 =? k) eqn:E; [|auto].
    apply Z.eqb_eq in E. subst k0. exfalso. apply Hnotin.
    apply in_map_iff. exists (k, v). split; [reflexivity | exact Hin].
Qed.

Lemma count_borrows_dict (loans : list Loan.t) :
  forall bc d,
    is_dict bc ->
    for_each loans
      (fun (loan : Loan.t) (borrow_count : OD.t Z) =>
         let book_id := Loan.book_id loan in
         ret (OD.set book_id (get_or_zero borrow_count book_id + 1)
                borrow_count))
      bc = Ok d ->
    is_dict d.
Proof.
  induction loans as [|loan loans IH]; intros bc d Hbc.
  - cbn. now intros [= <-].
  - cbn [for_each bind ret outcome_monad]. apply IH. now apply is_dict_set.
Qed.

Lemma insert_desc_perm {A} (key : A -> Z) (x : A) (l : list A) :
  Permutation.Permutation (insert_desc key x l) (x :: l).
Proof.
  induction l as [|y l IH]; cbn; [reflexivity|].
  destruct (key x <? key y); [|reflexivity].
  rewrite IH. apply Permutation.perm_swap.
Qed.

Lemma sorted_reverse_perm {A} (key : A -> Z) (l : list A) :
  Permutation.Permutation (sorted_reverse key l) l.
Proof.
  unfold sorted_reverse. induction l as [|x l IH]; cbn; [reflexivity|].
  rewrite insert_desc_perm. now constructor.
Qed.

Lemma insert_desc_sorted {A} (key : A -> Z) (x : A) (l : list A) :
  Sorted.StronglySorted (fun a b => key b <= key a) l ->
  Sorted.StronglySorted (fun a b => key b <= key a) (insert_desc key x l).
Proof.
  induction l as [|y l IH]; cbn; intros Hs.
  - repeat constructor.
  - inversion Hs as [|? ? Hs' Hall]; subst.
    destruct (key x <? key y) eqn:E.
    + apply Z.ltb_lt in E. constructor; [now apply IH|].
      rewrite Forall_forall in *. intros z Hz.
      apply (Permutation.Permutation_in _ (insert_desc_perm key x l)) in Hz.
      destruct Hz as [<-|Hz]; [lia | now apply Hall].
    + apply Z.ltb_ge in E. constructor; [exact Hs|].
      constructor; [lia|].
      rewrite Forall_forall in *. intros z Hz. specialize (Hall z Hz). lia.
Qed.

Lemma sorted_reverse_sorted {A} (key : A -> Z) (l : list A) :
  Sorted.StronglySorted (fun a b => key b <= key a) (sorted_reverse key l).
Proof.
  unfold sorted_reverse. induction l as [|x l IH]; cbn.
  - constructor.
  - now apply insert_desc_sorted.
Qed.

Lemma strongly_sorted_map {A B} (R : A -> A -> Prop) (R' : B -> B -> Prop)
  (f : A -> B) (l : list A) :
  Sorted.StronglySorted R l ->
  (forall a b, R a b -> R' (f a) (f b)) ->
  Sorted.StronglySorted R' (map f l).
Proof.
  intros Hs HR. induction Hs as [|x l Hs IH Hall]; cbn [map]; constructor.
  - exact IH.
  - rewrite Forall_forall in *. intros s Hin.
    apply in_map_iff in Hin. destruct Hin as [y [<- Hy]].
    apply HR. now apply Hall.
Qed.

(** The head of the stable descending sort is the first largest item. *)
Lemma first_max_sorted (l : list (Z * Z)) :
  forall best,
    first_max l best
    = match sorted_reverse snd l with
      | [] => best
      | m :: _ => if snd best <? snd m then m else best
      end.
Proof.
  unfold first_max, sorted_reverse.
  induction l as [|y l IH]; intros best; [reflexivity|].
  cbn [fold_left fold_right]. rewrite IH.
  destruct (fold_right (insert_desc snd) [] l) as [|m r]; [reflexivity|].
  cbn [insert_desc].
  destruct (snd best <? snd y) eqn:E1; destruct (snd y <? snd m) eqn:E2;
    try destruct (snd best <? snd m) eqn:E3;
    rewrite ?E1, ?E2; try reflexivity;
    rewrite ?Z.ltb_lt, ?Z.ltb_ge in *; try lia.
Qed.

Lemma sorted_reverse_head (x : Z * Z) (l : list (Z * Z)) :
  exists rest, sorted_reverse snd (x :: l) = first_max l x :: rest.
Proof.
  rewrite first_max_sorted. unfold sorted_reverse. cbn [fold_right].
  destruct (fold_right (insert_desc snd) [] l) as [|m r]; cbn [insert_desc].
  - eexists. reflexivity.
  - destruct (snd x <? snd m); eexists; reflexivity.
Qed.

Lemma first_max_in (l : list (Z * Z)) :
  forall best, first_max l best = best \/ In (first_max l best) l.
Proof.
  unfold first_max. induction l as [|y l IH]; intros best; [now left|].
  cbn [fold_left].
  destruct (IH (if snd best <? snd y then y else best)) as [H|H].
  - rewrite H. destruct (snd best <? snd y); [right; now left | now left].
  - right. now right.
Qed.

(** [max] over the keys of the frequency map is the first largest item. *)
Lemma max_loop_first_max (d : OD.t Z) (items : list (Z * Z)) :
  (forall it, In it items -> getitem d (fst it) = Ok (snd it)) ->
  forall best,
    for_each (map fst items)
      (fun y (best : Z * Z) =>
         ky <- getitem d y ;;
         ret (if snd best <? ky then (y, ky) else best))
      best
    = Ok (first_max items best).
Proof.
  unfold first_max.
  induction items as [|[k c] items IH]; intros Hkey best; [reflexivity|].
  cbn [map for_each fst fold_left bind outcome_monad].
  pose proof (Hkey (k, c) (or_introl eq_refl)) as Hk.
  cbn [fst snd] in Hk. rewrite Hk. cbn [snd ret].
  cbn [bind outcome_monad] in IH. apply IH.
  intros it Hit. apply Hkey. now right.
Qed.

Lemma py_max_by_first_max (it : Z * Z) (d' : OD.t Z) :
  is_dict (it :: d') ->
  py_max_by (getitem (it :: d')) (OD.keys (it :: d'))
  = Ok (fst (first_max d' it)).
Proof.
  intros Hd.
  assert (Hkey : forall x, In x (it :: d') ->
                           getitem (it :: d') (fst x) = Ok (snd x)).
  { intros [k c] Hin. unfold getitem. cbn [fst snd].
    now rewrite (in_get_dict _ k c Hd Hin). }
  unfold py_max_by, OD.keys. cbn [map].
  rewrite (Hkey it (or_introl eq_refl)). cbn [bind outcome_monad].
  pose proof (max_loop_first_max (it :: d') d'
                (fun x Hx => Hkey x (or_intror Hx)) (fst it, snd it)) as H.
  cbn [bind outcome_monad] in H. rewrite H.
  destruct it; reflexivity.
Qed.

(** X20. The ranking of the most-borrowed report lists every book that was
    borrowed exactly once, with the number of its loans and its title,
    sorted by that number from the largest down; and its first entry is the
    book the report names as most borrowed. *)
Theorem most_borrowed_ranking
  (st st' : State) (book_id : Z) (title author : string) (times : Z)
  (stats : list BookStat) :
  get_most_borrowed_book st
  = (Ok (Stats book_id title author times stats), st') ->
  (exists rest, stats = mkBookStat book_id title times :: rest)
  /\ NoDup (map stat_book_id stats)
  /\ (forall k, In k (map stat_book_id stats) <->
                exists loan, In loan (OD.values (loan_db st))
                             /\ Loan.book_id loan = k)
  /\ (forall s, In s stats ->
        stat_times_borrowed s
        = borrows_of (stat_book_id s) (OD.values (loan_db st))
        /\ stat_title s
           = match OD.get (stat_book_id s) (book_db st) with
             | Some book => Book.title book
             | None => "Unknown"
             end)
  /\ Sorted.StronglySorted
       (fun s1 s2 => stat_times_borrowed s2 <= stat_times_borrowed s1) stats.
Proof.
  unfold get_most_borrowed_book. run_handler.
  set (loans := OD.values (loan_db st)).
  destruct (count_borrows_counts loans) as [d [Hd Hc]].
  assert (Hdict : is_dict d).
  { apply (count_borrows_dict loans [] d); [constructor | exact Hd]. }
  rewrite Hd.
  destruct d as [|it d']; [discriminate|].
  cbv beta iota. rewrite (py_max_by_first_max it d' Hdict).
  set (d := it :: d') in *.
  set (h := first_max d' it).
  assert (Hh : In h d).
  { unfold h, d. destruct (first_max_in d' it) as [-> | H];
      [now left | now right]. }
  assert (Hgeth : getitem d (fst h) = Ok (snd h)).
  { unfold getitem. destruct h as [k c]. cbn [fst snd].
    now rewrite (in_get_dict d k c Hdict Hh). }
  rewrite Hgeth. intros [= <- <- <- <- <- <-].
  change (insert_desc snd it (sorted_reverse snd d'))
    with (sorted_reverse snd (OD.items d)).
  assert (Hitem : forall k c, In (k, c) d ->
                              c = borrows_of k loans /\ 0 < borrows_of k loans).
  { intros k c Hin.
    assert (Hk : In k (OD.keys d)).
    { apply in_map_iff. exists (k, c). split; [reflexivity | exact Hin]. }
    destruct (counts_key d loans k Hc Hk) as [Hget Hpos].
    unfold getitem in Hget. rewrite (in_get_dict d k c Hdict Hin) in Hget.
    injection Hget as ->. split; [reflexivity | exact Hpos]. }
  pose proof (sorted_reverse_perm snd (OD.items d)) as Hperm.
  split.
  { destruct (sorted_reverse_head it d') as [rest Hrest].
    unfold OD.items, d. rewrite Hrest. cbn [map]. fold h.
    eexists. reflexivity. }
  split.
  { rewrite map_map. cbn [stat_book_id].
    apply (Permutation.Permutation_NoDup
             (Permutation.Permutation_sym
                (Permutation.Permutation_map fst Hperm))).
    exact Hdict. }
  split.
  { intros k. rewrite map_map. cbn [stat_book_id]. split.
    - intros Hin.
      apply (Permutation.Permutation_in _
               (Permutation.Permutation_map fst Hperm)) in Hin.
      apply in_map_iff in Hin. destruct Hin as [[k' c] [Hk Hin]].
      cbn in Hk. subst k'.
      destruct (Hitem k c Hin) as [_ Hpos].
      unfold borrows_of in Hpos.
      destruct (filter (fun l => Loan.book_id l =? k) loans) as [|l ls] eqn:Ef;
        [cbn in Hpos; lia|].
      assert (Hl : In l (filter (fun l => Loan.book_id l =? k) loans))
        by (rewrite Ef; now left).
      apply filter_In in Hl. destruct Hl as [Hl Hb].
      exists l. split; [exact Hl | now apply Z.eqb_eq].
    - intros [loan [Hin <-]].
      apply (Permutation.Permutation_in _
               (Permutation.Permutation_sym
                  (Permutation.Permutation_map fst Hperm))).
      exact (counts_has_key d loans loan Hc Hin). }
  split.
  { intros s Hs. apply in_map_iff in Hs. destruct Hs as [[k c] [<- Hin]].
    apply (Permutation.Permutation_in _ Hperm) in Hin.
    cbn [stat_times_borrowed stat_book_id stat_title fst snd].
    split; [exact (proj1 (Hitem k c Hin)) | reflexivity]. }
  { apply (strongly_sorted_map (fun a b : Z * Z => snd b <= snd a)).
    - apply sorted_reverse_sorted.
    - intros x y Hxy. exact Hxy. }
Qed.

Lemma most_borrowed_ranking_witness :
  (exists rest,
      [ mkBookStat 3 "The Great Gatsby" 2; mkBookStat 1 "1984" 1;
        mkBookStat 2 "To Kill a Mockingbird" 1 ]
      = mkBookStat 3 "The Great Gatsby" 2 :: rest)
  /\ NoDup [3; 1; 2].
Proof.
  destruct (most_borrowed_ranking two_loans_of_book_3 two_loans_of_book_3
              3 "The Great Gatsby" "F. Scott Fitzgerald" 2
              [ mkBookStat 3 "The Great Gatsby" 2; mkBookStat 1 "1984" 1;
                mkBookStat 2 "To Kill a Mockingbird" 1 ]
              eq_refl) as (Hhead & Hnodup & _).
  split; [exact Hhead | exact Hnodup].
Defined.

(** ** Search *)

Lemma prefix_refl (s : string) : String.prefix s s = true.
Proof.
  induction s as [|c s IH]; cbn; [reflexivity|].
  destruct (ascii_dec c c); [exact IH | congruence].
Qed.

Lemma str_contains_self (s : string) : str_contains s s = true.
Proof. destruct s; cbn [str_contains]; now rewrite prefix_refl. Qed.

Lemma str_contains_empty (s : string) : str_contains s "" = true.
Proof. destruct s; reflexivity. Qed.

Lemma search_books_eq (lower : string -> string) (keyword : string)
  (st : State) :
  search_books lower keyword st
  = (Ok (filter (fun item => record_matches lower (lower keyword) (fst item)
                               (book_values (snd item)))
           (book_db st),
         Z.of_nat
           (List.length
              (filter (fun item => record_matches lower (lower keyword)
                                     (fst item) (book_values (snd item)))
                 (book_db st)))),
     st).
Proof.
  unfold search_books. run_handler. unfold OD.items.
  rewrite (for_each_collect _ _
             (fun item => if record_matches lower (lower keyword) (fst item)
                               (book_values (snd item))
                          then [item] else [])).
  - cbn [app].
    assert (E : forall l : list (Z * Book.t),
               flat_map (fun item =>
                           if record_matches lower (lower keyword) (fst item)
                                (book_values (snd item))
                           then [item] else []) l
               = filter (fun item => record_matches lower (lower keyword)
                                       (fst item) (book_values (snd item))) l).
    { induction l as [|x l IH]; [reflexivity|]. cbn [flat_map filter].
      rewrite IH. destruct (record_matches _ _ _ _); reflexivity. }
    now rewrite E.
  - intros [id b] acc _. unfold record_matches. cbn [fst snd].
    destruct (str_contains _ _); run_handler; [reflexivity|].
    destruct (existsb _ _); run_handler;
      [reflexivity | now rewrite app_nil_r].
Qed.

Lemma search_users_eq (lower : string -> string) (keyword : string)
  (st : State) :
  search_users lower keyword st
  = (Ok (filter (fun item => record_matches lower (lower keyword) (fst item)
                               (user_values (snd item)))
           (user_db st),
         Z.of_nat
           (List.length
              (filter (fun item => record_matches lower (lower keyword)
                                     (fst item) (user_values (snd item)))
                 (user_db st)))),
     st).
Proof.
  unfold search_users. run_handler. unfold OD.items.
  rewrite (for_each_collect _ _
             (fun item => if record_matches lower (lower keyword) (fst item)
                               (user_values (snd item))
                          then [item] else [])).
  - cbn [app].
    assert (E : forall l : list (Z * User.t),
               flat_map (fun item =>
                           if record_matches lower (lower keyword) (fst item)
                                (user_values (snd item))
                           then [item] else []) l
               = filter (fun item => record_matches lower (lower keyword)
                                       (fst item) (user_values (snd item))) l).
    { induction l as [|x l IH]; [reflexivity|]. cbn [flat_map filter].
      rewrite IH. destruct (record_matches _ _ _ _); reflexivity. }
    now rewrite E.
  - intros [id u] acc _. unfold record_matches. cbn [fst snd].
    destruct (str_contains _ _); run_handler; [reflexivity|].
    destruct (existsb _ _); run_handler;
      [reflexivity | now rewrite app_nil_r].
Qed.

Lemma record_matches_iff lower q id values :
  record_matches lower q id values = true <->
  exists v, In v (VInt id :: values)
            /\ str_contains (lower (py_str v)) q = true.
Proof.
  unfold record_matches. split.
  - destruct (str_contains (lower (py_str (VInt id))) q) eqn:E.
    + intros _. exists (VInt id). split; [now left | exact E].
    + intros H. apply existsb_exists in H. destruct H as [v [Hin Hv]].
      exists v. split; [now right | exact Hv].
  - intros [v [[<-|Hin] Hv]].
    + now rewrite Hv.
    + destruct (str_contains (lower (py_str (VInt id))) q); [reflexivity|].
      apply existsb_exists. eauto.
Qed.

(** X21. A search of the books writes nothing and returns, in the order of
    the store and each at most once, exactly the books for which the
    lower-cased keyword occurs in the lower-cased text of the identifier or
    of one of the five fields (the two numbers in decimal); its total is
    their number. *)
Theorem search_books_finds
  (lower : string -> string) (st : State) (keyword : string) :
  exists results : list (Z * Book.t),
    search_books lower keyword st
    = (Ok (results, Z.of_nat (List.length results)), st)
    /\ (exists keep, results = filter keep (book_db st))
    /\ forall id b,
         In (id, b) results <->
         In (id, b) (book_db st)
         /\ exists v,
              In v [ VInt id; VStr (Book.title b); VStr (Book.author b);
                     VStr (Book.isbn b); VInt (Book.published_year b);
                     VInt (Book.copies_available b) ]
              /\ str_contains (lower (py_str v)) (lower keyword) = true.
Proof.
  eexists. split; [apply search_books_eq|].
  split; [eexists; reflexivity|].
  intros id b. rewrite filter_In. cbn [fst snd].
  now rewrite record_matches_iff.
Qed.

(** X22. Two edges of the search.  A keyword whose lower case is empty
    matches everything: the whole book store is returned.  And a book is
    always found by the decimal text of its identifier, whatever [lower]
    does to it. *)
Theorem search_books_edges
  (lower : string -> string) (st : State) (keyword : string) :
  (lower keyword = "" ->
   search_books lower keyword st
   = (Ok (book_db st, Z.of_nat (List.length (book_db st))), st))
  /\ (forall id b,
        In (id, b) (book_db st) ->
        keyword = py_str (VInt id) ->
        exists results,
          search_books lower keyword st
          = (Ok (results, Z.of_nat (List.length results)), st)
          /\ In (id, b) results).
Proof.
  split.
  - intros Hq. rewrite search_books_eq, Hq.
    assert (E : filter (fun item : Z * Book.t =>
                          record_matches lower "" (fst item)
                            (book_values (snd item))) (book_db st)
                = book_db st).
    { induction (book_db st) as [|x l IH]; [reflexivity|]. cbn [filter].
      unfold record_matches at 1. rewrite str_contains_empty. now rewrite IH. }
    now rewrite E.
  - intros id b Hin ->. eexists. split; [apply search_books_eq|].
    apply filter_In. split; [exact Hin|]. cbn [fst snd].
    unfold record_matches. now rewrite str_contains_self.
Qed.

Lemma search_books_edges_witness :
  search_books lower_ascii "" initial_state
  = (Ok (book_db_seed, 5), initial_state)
  /\ exists results,
       search_books lower_ascii "3" initial_state
       = (Ok (results, Z.of_nat (List.length results)), initial_state)
       /\ In (3, Book.mk "The Great Gatsby" "F. Scott Fitzgerald"
                   "9780743273565" 1925 5) results.
Proof.
  split.
  - exact (proj1 (search_books_edges lower_ascii initial_state "") eq_refl).
  - apply (proj2 (search_books_edges lower_ascii initial_state "3") 3).
    + do 2 right. left. reflexivity.
    + reflexivity.
Defined.

Example search_books_1949 :
  fst (search_books lower_ascii "1949" initial_state)
  = Ok ([(1, Book.mk "1984" "George Orwell" "9780451524935" 1949 4)], 1).
Proof. reflexivity. Qed.

Example search_books_jane :
  fst (search_books lower_ascii "JANE" initial_state)
  = Ok ([(4, Book.mk "Pride and Prejudice" "Jane Austen" "9780141439518"
                1813 3)], 1).
Proof. reflexivity. Qed.

(** X23. The search of the users looks into the credentials: a user stored
    with a password is found by that password as keyword, and the result
    carries the stored record, password included.  *)
Theorem search_users_finds_by_password
  (lower : string -> string) (st : State) (k : Z) (u : User.t)
  (password : string) :
  In (k, u) (user_db st) ->
  User.password u = Some (Some password) ->
  exists results : list (Z * User.t),
    search_users lower password st
    = (Ok (results, Z.of_nat (List.length results)), st)
    /\ In (k, u) results.
Proof.
  intros Hin Hp. eexists. split; [apply search_users_eq|].
  apply filter_In. split; [exact Hin|]. cbn [fst snd].
  apply record_matches_iff. exists (VStr password). split.
  - right. unfold user_values. rewrite Hp.
    apply in_or_app. right. apply in_or_app. right. now left.
  - cbn [py_str]. apply str_contains_self.
Qed.

Lemma search_users_finds_by_password_witness :
  exists results : list (Z * User.t),
    search_users lower_ascii "admin123" initial_state
    = (Ok (results, Z.of_nat (List.length results)), initial_state)
    /\ In (1, User.mk "John Doe" "john@example.com" "admin"
                (Some (Some "johndoe")) (Some (Some "admin123"))) results.
Proof.
  apply (search_users_finds_by_password lower_ascii initial_state 1
           (User.mk "John Doe" "john@example.com" "admin"
              (Some (Some "johndoe")) (Some (Some "admin123")))
           "admin123").
  - left. reflexivity.
  - reflexivity.
Defined.

Lemma search_books_readonly lower keyword :
  readonly (search_books lower keyword).
Proof. intros st. now rewrite search_books_eq. Qed.

Lemma search_users_readonly lower keyword :
  readonly (search_users lower keyword).
Proof. intros st. now rewrite search_users_eq. Qed.
